(** * Retry wrapper, query-vector builder and scraping loop of the multimodal
      retrieval pipeline

    A shallow embedding of the functions of the repository:

    - [retry_request] of [scraper.py], the decorator that re-runs a network
      call with exponential backoff, and the fetchers and the scraping loop
      built on it;
    - [build_query_vector] of [main.py], which reshapes a text embedding to the
      dimension of the stored vectors and L2-normalises it, with the search
      loop around it;
    - [fuse_embeddings] of [embed.py] and the record loop of
      [ingest_to_chroma.py].

    Python integers are [Z].  Python floats are kept behind the interface
    [PyFloatOps], with three instances: the real numbers (exact arithmetic,
    used for the algebraic properties), IEEE binary64 (the arithmetic of a
    CPython [float], used to evaluate the backoff delays bit for bit) and IEEE
    binary32 (the arithmetic of the [np.float32] arrays of
    [build_query_vector]).

    Library calls are effects.  The wrapped network call is a transition on
    an abstract outside world that either returns a value or raises, and so
    is [time.sleep]: time passes in the world, or the sleep raises, on a delay
    it cannot take or for a reason of the world's.  Mixed arithmetic raises
    [OverflowError] on an [int] too large for a float.  Both are behind the
    interface [PyRuntime].  Calls, retry messages and completed sleeps are
    recorded in a log. *)

From Stdlib Require Import Floats.
From Stdlib Require Import String.
From Stdlib Require Import ZArith List Bool Lia.
From Stdlib Require Import Reals Lra.
Import ListNotations.

Local Open Scope string_scope.
Local Open Scope list_scope.
Local Open Scope Z_scope.
Set Warnings "-inexact-float".

(** ** Floating-point interface *)

(** The float operations the two functions use.  [of_int] is the implicit
    [int -> float] conversion of mixed arithmetic, [lit_0_1] the literal
    [0.1], and [truthy] the truth value of a float ([if norm:]). *)
Class PyFloatOps (F : Type) : Type := {
  of_int : Z -> F;
  lit_0_1 : F;
  fzero : F;
  fadd : F -> F -> F;
  fmul : F -> F -> F;
  fdiv : F -> F -> F;
  fsqrt : F -> F;
  truthy : F -> bool
}.

(** Exact arithmetic: a float is a real number.  A real is falsy exactly when
    it is zero. *)
#[export] Instance Real_PyFloatOps : PyFloatOps R := {
  of_int := IZR;
  lit_0_1 := (1 / 10)%R;
  fzero := 0%R;
  fadd := Rplus;
  fmul := Rmult;
  fdiv := Rdiv;
  fsqrt := R_sqrt.sqrt;
  truthy := fun x => if Req_dec_T x 0%R then false else true
}.

(** Correctly rounded conversion of an integer to binary64 (round to nearest,
    ties to even), as CPython converts an [int] operand of a float operation.
    Where the rounded value would be infinite CPython raises [OverflowError]
    instead ([float_overflows]); the retry wrapper asks before it converts. *)
Definition float_of_Z (z : Z) : float :=
  SF2Prim (binary_normalize prec emax z 0 false).

(** The ints CPython refuses to convert: those whose correctly rounded
    binary64 value is an infinity, from 2^1024 - 2^970 on in magnitude. *)
Definition float_overflows (z : Z) : bool :=
  match binary_normalize prec emax z 0 false with
  | S754_infinity _ => true
  | _ => false
  end.

(** Machine arithmetic: IEEE binary64.  A float is falsy when it compares
    equal to zero (so both zeros are falsy and a NaN is truthy). *)
#[export] Instance Binary64_PyFloatOps : PyFloatOps float := {
  of_int := float_of_Z;
  lit_0_1 := 0.1%float;
  fzero := 0%float;
  fadd := PrimFloat.add;
  fmul := PrimFloat.mul;
  fdiv := PrimFloat.div;
  fsqrt := PrimFloat.sqrt;
  truthy := fun x => negb (PrimFloat.eqb x 0%float)
}.

(** Single precision: IEEE binary32, a significand of 24 bits and exponents
    below 128, over the floats of [SpecFloat].  This is the arithmetic of a
    [np.float32] array: a square of 2^128 or more overflows to infinity, a square
    below 2^-150 underflows to zero. *)
Definition float32_of_Z (z : Z) : spec_float := binary_normalize 24 128 z 0 false.

(** The power of two [2^e] in single precision. *)
Definition float32_pow2 (e : Z) : spec_float := binary_normalize 24 128 1 e false.

#[export] Instance Binary32_PyFloatOps : PyFloatOps spec_float := {
  of_int := float32_of_Z;
  lit_0_1 := SFdiv 24 128 (float32_of_Z 1) (float32_of_Z 10);
  fzero := S754_zero false;
  fadd := SFadd 24 128;
  fmul := SFmul 24 128;
  fdiv := SFdiv 24 128;
  fsqrt := SFsqrt 24 128;
  truthy := fun x => negb (SFeqb x (S754_zero false))
}.

(** ** Python numbers *)

(** A Python number as the scraper meets it: an [int] or a [float]. *)
Inductive pynum (F : Type) : Type :=
| PyInt (z : Z)
| PyFloat (x : F).

Arguments PyInt {F} z.
Arguments PyFloat {F} x.

Section PythonNumbers.
Context {F : Type} `{PyFloatOps F}.

(** The float an operand is converted to in mixed arithmetic. *)
Definition to_float (x : pynum F) : F :=
  match x with
  | PyInt z => of_int z
  | PyFloat f => f
  end.

(** [x * y]: exact on two ints, a float product otherwise. *)
Definition py_mul (x y : pynum F) : pynum F :=
  match x, y with
  | PyInt a, PyInt b => PyInt (a * b)
  | _, _ => PyFloat (fmul (to_float x) (to_float y))
  end.

(** [x + y]: exact on two ints, a float sum otherwise. *)
Definition py_add (x y : pynum F) : pynum F :=
  match x, y with
  | PyInt a, PyInt b => PyInt (a + b)
  | _, _ => PyFloat (fadd (to_float x) (to_float y))
  end.

End PythonNumbers.

(** ** scraper.py: the retry decorator *)

(** [MAX_RETRIES] and [INITIAL_BACKOFF], the defaults of [retry_request]. *)
Definition MAX_RETRIES : Z := 3.
Definition INITIAL_BACKOFF {F : Type} : pynum F := PyInt 2.
Definition API_GATEWAY : string := "https://gateway.laam.pk/v1/products".

(** The exceptions a wrapped call can raise.  The first four are subclasses of
    [requests.exceptions.RequestException]: [HTTPError] is what
    [raise_for_status] raises, [JSONDecodeError] what [response.json()] raises
    on an undecodable body (it derives from [InvalidJSONError], a
    [RequestException], since requests 2.27).  [OtherException] stands for
    every exception outside that hierarchy. *)
Inductive exn : Type :=
| ConnectionError
| Timeout
| HTTPError (status : Z)
| JSONDecodeError
| OtherException (name : string).

(** [isinstance(e, requests.exceptions.RequestException)], the test of the
    [except] clause. *)
Definition is_RequestException (e : exn) : bool :=
  match e with
  | OtherException _ => false
  | _ => true
  end.

Definition OverflowError : exn := OtherException "OverflowError".
Definition ValueError : exn := OtherException "ValueError".

(** The interpreter during the backoff, over a float arithmetic [F] and an
    outside world [W].  [int_overflow z] tells whether the conversion of the
    [int] [z] to a float raises [OverflowError] ("int too large to convert to
    float").  [time_sleep d] is [time.sleep(d)], an effect on the world: it
    raises, or it returns after the delay; either way the world may have
    changed. *)
Class PyRuntime (F W : Type) : Type := {
  int_overflow : Z -> bool;
  time_sleep : pynum F -> W -> option exn * W
}.

(** Exact arithmetic on an ideal clock, in a world that a sleep leaves as it
    is: no int is too large, and the clock takes every delay that is not
    negative. *)
#[export] Instance Real_PyRuntime {W : Type} : PyRuntime R W := {
  int_overflow := fun _ => false;
  time_sleep := fun d w =>
    (if Rlt_dec (to_float d) 0 then Some ValueError else None, w)
}.

(** What CPython 3 checks of a delay before it hands it to the operating
    system, with its 64-bit clock of nanoseconds.  The delay is turned into
    nanoseconds first: a NaN raises [ValueError], a number of nanoseconds
    below -2^63 or above 2^63 raises [OverflowError] (for a float the product
    with 1e9 is a float product); then a negative delay raises [ValueError].
    A delay of 2^63 nanoseconds exactly passes the range check of CPython 3.11
    and is negative once it is a clock value. *)
Definition time_sleep_error (d : pynum float) : option exn :=
  match d with
  | PyFloat x =>
      if PrimFloat.is_nan x then Some ValueError
      else
        let ns := PrimFloat.mul x 1e9%float in
        if PrimFloat.ltb ns (-9223372036854775808)%float
           || PrimFloat.ltb 9223372036854775808%float ns
        then Some OverflowError
        else if PrimFloat.ltb x 0%float
                || PrimFloat.eqb ns 9223372036854775808%float
        then Some ValueError
        else None
  | PyInt z =>
      if (z * 10 ^ 9 <? - 2 ^ 63) || (2 ^ 63 <=? z * 10 ^ 9) then Some OverflowError
      else if z <? 0 then Some ValueError
      else None
  end.

(** CPython in a world without a clock of its own: binary64 floats, the
    checks above, and an operating system that takes every delay the
    interpreter hands to it and leaves the world as it is. *)
#[export] Instance Binary64_PyRuntime {W : Type} : PyRuntime float W := {
  int_overflow := float_overflows;
  time_sleep := fun d w => (time_sleep_error d, w)
}.

(** What one call of the wrapped function does: return a value or raise. *)
Inductive outcome (A : Type) : Type :=
| Returns (a : A)
| Raises (e : exn).

Arguments Returns {A} a.
Arguments Raises {A} e.

(** What a call of the wrapper does.  [ReturnNone] is the implicit [None] of a
    function body that runs off its end. *)
Inductive result (A : Type) : Type :=
| Return (a : A)
| ReturnNone
| Raise (e : exn).

Arguments Return {A} a.
Arguments ReturnNone {A}.
Arguments Raise {A} e.

(** The observable effects of the wrapper, in order: a call of the wrapped
    function, the retry message (attempt + 1, max_retries, the exception, the
    delay) and a sleep that [time.sleep] took and completed. *)
Inductive event (F : Type) : Type :=
| Call
| PrintRetry (retry_no max_retries : Z) (e : exn) (sleep_time : pynum F)
| Sleep (sleep_time : pynum F).

Arguments Call {F}.
Arguments PrintRetry {F} retry_no max_retries e sleep_time.
Arguments Sleep {F} sleep_time.

(** The outside world the wrapped function acts on, and the log of effects. *)
Record state (F W : Type) : Type := mkState {
  world : W;
  log : list (event F)
}.

Arguments mkState {F W} world log.
Arguments world {F W} s.
Arguments log {F W} s.

Definition init {F W : Type} (w : W) : state F W := mkState w [].

Definition emit {F W : Type} (ev : event F) (s : state F W) : state F W :=
  mkState (world s) (log s ++ [ev]).

(** [range(n)]: 0, 1, ..., n - 1, empty when n <= 0. *)
Definition range (n : Z) : list Z := map Z.of_nat (seq 0 (Z.to_nat n)).

Section RetryRequest.
Context {F W : Type} `{PyFloatOps F} `{PyRuntime F W} {A : Type}.

(** The [OverflowError] of the conversion of an operand to a float. *)
Definition to_float_error (x : pynum F) : option exn :=
  match x with
  | PyInt z => if int_overflow z then Some OverflowError else None
  | PyFloat _ => None
  end.

(** The [OverflowError] of [x * y] and of [x + y]: two ints are multiplied
    and added exactly; otherwise both operands are converted to floats, the
    left one first. *)
Definition arith_error (x y : pynum F) : option exn :=
  match x, y with
  | PyInt _, PyInt _ => None
  | _, _ =>
      match to_float_error x with
      | Some e => Some e
      | None => to_float_error y
      end
  end.

(** The value of [initial_backoff * (2 ** attempt) + (0.1 * attempt)].  The
    loop index [attempt] is a non-negative [int], so [2 ** attempt] is an
    [int]. *)
Definition sleep_time (initial_backoff : pynum F) (attempt : Z) : pynum F :=
  py_add (py_mul initial_backoff (PyInt (2 ^ attempt)))
         (py_mul (PyFloat lit_0_1) (PyInt attempt)).

(** The exception line 44 raises instead of giving that value, if any: the
    [OverflowError] of the left product, of the right product or of the
    sum. *)
Definition sleep_time_error (initial_backoff : pynum F) (attempt : Z) : option exn :=
  match arith_error initial_backoff (PyInt (2 ^ attempt)) with
  | Some e => Some e
  | None =>
      match arith_error (PyFloat lit_0_1) (PyInt attempt) with
      | Some e => Some e
      | None =>
          arith_error (py_mul initial_backoff (PyInt (2 ^ attempt)))
                      (py_mul (PyFloat lit_0_1) (PyInt attempt))
      end
  end.

(** The exception lines 44-46 raise for this attempt in the world [w], if
    any: that of the delay, or that of [time.sleep]. *)
Definition backoff_error (initial_backoff : pynum F) (attempt : Z) (w : W)
    : option exn :=
  match sleep_time_error initial_backoff attempt with
  | Some e => Some e
  | None => fst (time_sleep (sleep_time initial_backoff attempt) w)
  end.

(** The [for attempt in range(max_retries)] loop of [wrapper], over the
    attempts still to run.  [func] is the wrapped function applied to the
    arguments of the call.  An exception raised inside the [except] block, by
    line 44 or by [time.sleep], leaves the wrapper at once; the message of
    line 45 is printed in between. *)
Fixpoint wrapper_loop (max_retries : Z) (initial_backoff : pynum F)
    (func : W -> outcome A * W) (attempts : list Z) (s : state F W)
    : result A * state F W :=
  match attempts with
  | [] => (ReturnNone, s)
  | attempt :: rest =>
      let (o, w) := func (world s) in
      let s1 := emit Call (mkState w (log s)) in
      match o with
      | Returns a => (Return a, s1)
      | Raises e =>
          if is_RequestException e then
            if attempt <? max_retries - 1 then
              match sleep_time_error initial_backoff attempt with
              | Some err => (Raise err, s1)
              | None =>
                  let d := sleep_time initial_backoff attempt in
                  let s2 := emit (PrintRetry (attempt + 1) max_retries e d) s1 in
                  match time_sleep d w with
                  | (Some err, w') => (Raise err, mkState w' (log s2))
                  | (None, w') =>
                      let s3 := emit (Sleep d) (mkState w' (log s2)) in
                      wrapper_loop max_retries initial_backoff func rest s3
                  end
              end
            else (Raise e, s1)
          else (Raise e, s1)
      end
  end.

(** A call of the function that [retry_request(max_retries, initial_backoff)]
    makes of [func]. *)
Definition retry_request (max_retries : Z) (initial_backoff : pynum F)
    (func : W -> outcome A * W) (s : state F W) : result A * state F W :=
  wrapper_loop max_retries initial_backoff func (range max_retries) s.

(** The backoff of the first [k] attempts goes through, whatever the world:
    the delay is computed and [time.sleep] takes it. *)
Definition sleepable (initial_backoff : pynum F) (k : nat) : Prop :=
  forall (i : nat) (w : W),
    (i < k)%nat -> backoff_error initial_backoff (Z.of_nat i) w = None.

(** The world in which the call of attempt [j + k] is made when the attempts
    [j .. j + k - 1], the first of them made in [w], are retried: each of them
    is a call of [func] followed by the sleep of its backoff. *)
Fixpoint world_from (initial_backoff : pynum F) (func : W -> outcome A * W)
    (j k : nat) (w : W) : W :=
  match k with
  | O => w
  | S k' =>
      world_from initial_backoff func (S j) k'
        (snd (time_sleep (sleep_time initial_backoff (Z.of_nat j)) (snd (func w))))
  end.

(** The backoff of the attempts [0 .. k-1] goes through in the run that
    starts in the world [w]: after each of these calls the delay is computed
    and [time.sleep] takes it, in the world the call has left. *)
Definition backoff_passes (initial_backoff : pynum F) (func : W -> outcome A * W)
    (k : nat) (w : W) : Prop :=
  forall i : nat,
    (i < k)%nat ->
    backoff_error initial_backoff (Z.of_nat i)
      (snd (func (world_from initial_backoff func 0 i w))) = None.

End RetryRequest.

(** The part of an HTTP response the scraper reads. *)
Record response : Type := mkResponse {
  status_code : Z;
  body : string
}.

(** [response.raise_for_status()]: an [HTTPError] for a 4xx or 5xx status. *)
Definition raise_for_status (r : response) : option exn :=
  if (400 <=? status_code r) && (status_code r <? 600)
  then Some (HTTPError (status_code r))
  else None.

Section FetchProductDetails.
Context {F W : Type} `{PyFloatOps F} `{PyRuntime F W} {J : Type}.

(** [requests.get(url, ...)]: a response, or a transport-level exception. *)
Variable requests_get : string -> W -> (response + exn) * W.
(** The JSON decoder behind [response.json()]; [None] on an undecodable body. *)
Variable json_decode : string -> option J.

(** The body of [fetch_product_details_from_api], before decoration. *)
Definition fetch_product_details_body (handle : string) (w : W)
    : outcome J * W :=
  let url := (API_GATEWAY ++ "?handle=" ++ handle)%string in
  match requests_get url w with
  | (inr e, w1) => (Raises e, w1)
  | (inl r, w1) =>
      match raise_for_status r with
      | Some e => (Raises e, w1)
      | None =>
          match json_decode (body r) with
          | Some j => (Returns j, w1)
          | None => (Raises JSONDecodeError, w1)
          end
      end
  end.

(** [@retry_request() def fetch_product_details_from_api(handle)] *)
Definition fetch_product_details_from_api (handle : string) (s : state F W)
    : result J * state F W :=
  retry_request MAX_RETRIES INITIAL_BACKOFF (fetch_product_details_body handle) s.

End FetchProductDetails.

(** Observations on a log. *)
Definition calls {F : Type} (l : list (event F)) : nat :=
  length (filter (fun ev => match ev with Call => true | _ => false end) l).

Fixpoint sleeps {F : Type} (l : list (event F)) : list (pynum F) :=
  match l with
  | [] => []
  | Sleep d :: l' => d :: sleeps l'
  | _ :: l' => sleeps l'
  end.

(** The calls and the sleeps of a log, in order, without the messages. *)
Definition calls_and_sleeps {F : Type} (l : list (event F)) : list (event F) :=
  filter (fun ev => match ev with PrintRetry _ _ _ _ => false | _ => true end) l.

(** A call, then for each of the attempts [0 .. k-1] the sleep of its backoff
    and the next call: [k + 1] calls with one sleep between two of them. *)
Definition alternation {F : Type} `{PyFloatOps F} (initial_backoff : pynum F)
    (k : nat) : list (event F) :=
  Call :: flat_map (fun i => [Sleep (sleep_time initial_backoff (Z.of_nat i)); Call])
                   (seq 0 k).

(** The wrapped function raises a [RequestException] whenever it is called. *)
Definition always_fails {W A : Type} (func : W -> outcome A * W) : Prop :=
  forall w, exists e, fst (func w) = Raises e /\ is_RequestException e = true.

(** The classification the specification gives: transport-level errors, 5xx
    statuses and 429 are retryable, everything else is not. *)
Definition spec_retryable (e : exn) : bool :=
  match e with
  | ConnectionError | Timeout => true
  | HTTPError st => ((500 <=? st) && (st <? 600)) || (st =? 429)
  | JSONDecodeError | OtherException _ => false
  end.

(** A server that answers every request with the same status and body. *)
Definition constant_server (st : Z) (b : string) : string -> unit -> (response + exn) * unit :=
  fun _ w => (inl (mkResponse st b), w).

(** A connection that always fails. *)
Definition unreachable_server : unit -> outcome unit * unit :=
  fun w => (Raises ConnectionError, w).

(** ** main.py: the query vector builder *)

(** The exception [build_query_vector] raises, with its message. *)
Inductive error : Type :=
| RuntimeError (msg : string).

(** The specification's name for the error of an empty embedding. *)
Definition EmptyEmbeddingError : error :=
  RuntimeError "Embedding model returned an empty vector.".

(** The embedding model: [model.embed(text)] gives a sequence of floats.  The
    conversion [np.array(..., dtype=np.float32)] keeps the length and the
    order of the sequence and rounds each element to single precision: the
    code computes in the instance [Binary32_PyFloatOps], and [embed] gives the
    elements as they are after the conversion. *)
Record Model (F : Type) : Type := mkModel {
  embed : string -> list F
}.

Arguments mkModel {F} embed.
Arguments embed {F} m text.

(** The slice [l[:k]]: the first [k] elements, and for a negative [k] all but
    the last [-k]. *)
Definition slice_to {T : Type} (k : Z) (l : list T) : list T :=
  if k <? 0
  then firstn (Z.to_nat (Z.of_nat (length l) + k)) l
  else firstn (Z.to_nat k) l.

(** [np.tile(l, reps)] on a one-dimensional array: [reps] copies in a row. *)
Definition tile {T : Type} (l : list T) (reps : Z) : list T :=
  concat (repeat l (Z.to_nat reps)).

(** [int(np.ceil(a / b))] for a positive [b].  The quotient is a binary64
    division; its ceiling is the exact one for operands below 2^53, which
    every array length is. *)
Definition ceil_div (a b : Z) : Z := - ((- a) / b).

(** Lines 51-55 of [build_query_vector]: the vector before normalisation,
    truncated or tiled to [collection_dim]. *)
Definition fuse {T : Type} (collection_dim : Z) (text_vec : list T) : list T :=
  let text_dim := Z.of_nat (length text_vec) in
  if collection_dim <=? text_dim
  then slice_to collection_dim text_vec
  else
    let repeats := ceil_div collection_dim text_dim in
    slice_to collection_dim (tile text_vec repeats).

Section QueryVector.
Context {F : Type} `{PyFloatOps F}.

(** [np.linalg.norm] of a one-dimensional array: the square root of the sum
    of the squares, in the arithmetic of the array.  numpy leaves the order of
    the additions to its dot product; here the sum is taken from the left.
    In exact arithmetic the order is immaterial, and so it is for the float
    vectors evaluated below: every square is zero, or every square is
    infinite. *)
Definition linalg_norm (v : list F) : F :=
  fsqrt (fold_left (fun acc x => fadd acc (fmul x x)) v fzero).

(** Lines 57-60: divide by the norm unless the norm is falsy. *)
Definition normalize (fused : list F) : list F :=
  let norm := linalg_norm fused in
  if truthy norm
  then map (fun x => fdiv x norm) fused
  else fused.

(** [build_query_vector(model, collection_dim, query_text)] *)
Definition build_query_vector (model : Model F) (collection_dim : Z)
    (query_text : string) : error + list F :=
  let text_vec := embed model query_text in
  let text_dim := Z.of_nat (length text_vec) in
  if text_dim =? 0
  then inl (RuntimeError "Embedding model returned an empty vector.")
  else inr (normalize (fuse collection_dim text_vec)).

End QueryVector.

(** The sum of squares under the square root of [linalg_norm], in exact
    arithmetic. *)
Definition sum_squares (v : list R) : R :=
  fold_left (fun acc x => acc + x * x)%R v 0%R.

(** A model that embeds every text as the same vector. *)
Definition constant_model {F : Type} (v : list F) : Model F :=
  mkModel (fun _ => v).

(** ** scraper.py: the other decorated fetchers *)

Definition SITEMAP_URL : string := "https://laam.pk/products-sitemap.xml".

Section DecoratedFetchers.
Context {F W : Type} `{PyFloatOps F} `{PyRuntime F W}.

(** [requests.get(url, ...)]: a response, or a transport-level exception. *)
Variable requests_get : string -> W -> (response + exn) * W.

(** The body of [fetch_sitemap_content]: the payload of the sitemap. *)
Definition fetch_sitemap_body (w : W) : outcome string * W :=
  match requests_get SITEMAP_URL w with
  | (inr e, w1) => (Raises e, w1)
  | (inl r, w1) =>
      match raise_for_status r with
      | Some e => (Raises e, w1)
      | None => (Returns (body r), w1)
      end
  end.

(** [@retry_request() def fetch_sitemap_content()] *)
Definition fetch_sitemap_content (s : state F W) : result string * state F W :=
  retry_request MAX_RETRIES INITIAL_BACKOFF fetch_sitemap_body s.

(** The body of [download_image_content]: the payload of the image. *)
Definition download_image_body (image_url : string) (w : W) : outcome string * W :=
  match requests_get image_url w with
  | (inr e, w1) => (Raises e, w1)
  | (inl r, w1) =>
      match raise_for_status r with
      | Some e => (Raises e, w1)
      | None => (Returns (body r), w1)
      end
  end.

(** [@retry_request() def download_image_content(image_url)] *)
Definition download_image_content (image_url : string) (s : state F W)
    : result string * state F W :=
  retry_request MAX_RETRIES INITIAL_BACKOFF (download_image_body image_url) s.

End DecoratedFetchers.

(** An outcome of the wrapped function passed on as it is: the value
    returned, the exception re-raised. *)
Definition to_result {A : Type} (o : outcome A) : result A :=
  match o with
  | Returns a => Return a
  | Raises e => Raise e
  end.

(** The outcomes that end the retry loop whatever the attempt: a value, or an
    exception the [except] clause does not catch. *)
Definition ends_loop {A : Type} (o : outcome A) : bool :=
  match o with
  | Returns _ => true
  | Raises e => negb (is_RequestException e)
  end.

(** A server that times out on its first [fails] calls, counted in the world,
    and then answers [a]; and one that breaks with a foreign exception. *)
Definition flaky_server {A : Type} (fails : nat) (a : A) : nat -> outcome A * nat :=
  fun w => if (w <? fails)%nat then (Raises Timeout, S w) else (Returns a, S w).

Definition broken_server (fails : nat) (name : string) : nat -> outcome unit * nat :=
  fun w => if (w <? fails)%nat then (Raises Timeout, S w)
           else (Raises (OtherException name), S w).

(** The seconds slept in a log, in exact arithmetic. *)
Definition total_sleep (l : list (pynum R)) : R :=
  fold_right (fun d acc => (to_float d + acc)%R) 0%R l.

(** ** scraper.py: the product handle of a sitemap URL *)

(** [sep in s] for Python strings, read as sequences of UTF-8 bytes. *)
Fixpoint contains (sep s : string) : bool :=
  prefix sep s ||
  match s with
  | EmptyString => false
  | String _ s' => contains sep s'
  end.

(** The scan of [s.split(sep)] for a non-empty [sep]: [cur] is the field read
    so far, [skip] the number of bytes of a matched separator still to pass.
    Matches are taken from the left and do not overlap. *)
Fixpoint split_from (sep : string) (skip : nat) (cur s : string) : list string :=
  match s with
  | EmptyString => [cur]
  | String c s' =>
      match skip with
      | S k => split_from sep k cur s'
      | O =>
          if prefix sep s
          then cur :: split_from sep (String.length sep - 1) EmptyString s'
          else split_from sep 0 (cur ++ String c EmptyString)%string s'
      end
  end.

(** [s.split(sep)] *)
Definition py_split (sep s : string) : list string :=
  split_from sep 0 EmptyString s.

(** What lines 126-133 of [scrape_laam_pk] make of a sitemap URL: the item is
    passed over because the URL is not a product page, or because an
    [IndexError] was caught, or the handle is found. *)
Inductive handle_outcome : Type :=
| NotAProductUrl
| CaughtIndexError
| Handle (product_handle : string).

Definition product_handle_of (url : string) : handle_outcome :=
  if negb (contains "/products/" url) then NotAProductUrl
  else
    match nth_error (py_split "/products/" url) 1 with
    | None => CaughtIndexError
    | Some after =>
        match nth_error (py_split "?" after) 0 with
        | None => CaughtIndexError
        | Some h => Handle h
        end
    end.

(** ** main.py: the stored dimension and the interactive loop *)

(** What [collection.peek] and [collection.get] return, as far as it is read:
    the values under ["ids"] and ["embeddings"], [None] for a missing key or a
    [None] value. *)
Record GetResult (F : Type) : Type := mkGetResult {
  res_ids : option (list string);
  res_embeddings : option (list (list F))
}.

Arguments mkGetResult {F} res_ids res_embeddings.
Arguments res_ids {F} g.
Arguments res_embeddings {F} g.

(** The vector store: [peek(limit)] and [get(ids, include=["embeddings"])]. *)
Record Collection (F : Type) : Type := mkCollection {
  coll_peek : Z -> GetResult F;
  coll_get : list string -> GetResult F
}.

Arguments mkCollection {F} coll_peek coll_get.
Arguments coll_peek {F} c limit.
Arguments coll_get {F} c ids.

(** [determine_embedding_dim(collection)] *)
Definition determine_embedding_dim {F : Type} (collection : Collection F)
    : error + Z :=
  let peek := coll_peek collection 1 in
  let sample_ids := match res_ids peek with Some l => l | None => [] end in
  match sample_ids with
  | [] => inl (RuntimeError
                 "Collection is empty; cannot determine embedding dimension.")
  | id0 :: _ =>
      let sample := coll_get collection [id0] in
      match res_embeddings sample with
      | None => inl (RuntimeError "No embeddings returned from sample document.")
      | Some [] => inl (RuntimeError "No embeddings returned from sample document.")
      | Some (e0 :: _) => inr (Z.of_nat (length e0))
      end
  end.

(** How [interactive_loop] ends: on end of input, on a blank line, or with the
    exception of a query. *)
Inductive loop_end (E : Type) : Type :=
| EndOfInput
| BlankLine
| QueryFailed (e : E).

Arguments EndOfInput {E}.
Arguments BlankLine {E}.
Arguments QueryFailed {E} e.

Section InteractiveLoop.
Context {St E : Type}.

(** [str.strip] and the call [run_query(collection, clip_model,
    collection_dim, query_text, top_k)], which acts on the program state and
    may raise. *)
Variable strip : string -> string.
Variable run_query : string -> St -> option E * St.

(** [interactive_loop]: the lines still on standard input are consumed one per
    iteration of the [while True] loop; the result is how the loop ended, the
    lines left unread and the final state. *)
Fixpoint interactive_loop (stdin : list string) (st : St)
    : loop_end E * list string * St :=
  match stdin with
  | [] => (EndOfInput, [], st)
  | line :: rest =>
      let query_text := strip line in
      if String.eqb query_text EmptyString then (BlankLine, rest, st)
      else
        match run_query query_text st with
        | (None, st1) => interactive_loop rest st1
        | (Some e, st1) => (QueryFailed e, rest, st1)
        end
  end.

End InteractiveLoop.

(** ** embed.py: fusing a text and an image embedding *)

Section FuseEmbeddings.
Context {F : Type} `{PyFloatOps F}.

(** [fuse_embeddings(text_embedding, image_embedding)]; [None] is Python's
    [None], both as an argument and as the result. *)
Definition fuse_embeddings (text_embedding image_embedding : option (list F))
    : option (list F) :=
  match text_embedding, image_embedding with
  | Some text_embedding_np, Some image_embedding_np =>
      if (length text_embedding_np =? 0)%nat || (length image_embedding_np =? 0)%nat
      then None
      else
        let fused_embedding := text_embedding_np ++ image_embedding_np in
        Some (map (fun x => fdiv x (linalg_norm fused_embedding)) fused_embedding)
  | _, _ => None
  end.

End FuseEmbeddings.

(** ** Decoded JSON values and the Python operations the scraper applies *)

Set Warnings "-register-all".

(** What [response.json()] gives: [None], a [bool], an [int], a [float], a
    [str], a [list] or a [dict] with string keys, in insertion order. *)
Inductive json (F : Type) : Type :=
| JNull
| JBool (b : bool)
| JInt (z : Z)
| JFloat (x : F)
| JStr (s : string)
| JList (l : list (json F))
| JDict (d : list (string * json F)).

Arguments JNull {F}.
Arguments JBool {F} b.
Arguments JInt {F} z.
Arguments JFloat {F} x.
Arguments JStr {F} s.
Arguments JList {F} l.
Arguments JDict {F} d.

Definition AttributeError : exn := OtherException "AttributeError".
Definition TypeError : exn := OtherException "TypeError".
Definition KeyError : exn := OtherException "KeyError".
Definition IndexError : exn := OtherException "IndexError".

Section PythonValues.
Context {F : Type} `{PyFloatOps F}.

(** The truth value of a decoded value ([if v:], [not v]). *)
Definition py_truthy (v : json F) : bool :=
  match v with
  | JNull => false
  | JBool b => b
  | JInt z => negb (z =? 0)
  | JFloat x => truthy x
  | JStr s => negb (String.eqb s EmptyString)
  | JList l => match l with [] => false | _ => true end
  | JDict d => match d with [] => false | _ => true end
  end.

(** Lookup in a [dict]. *)
Fixpoint dict_lookup (d : list (string * json F)) (key : string) : option (json F) :=
  match d with
  | [] => None
  | (k, v) :: rest => if String.eqb k key then Some v else dict_lookup rest key
  end.

(** [d.get(key, default)] on a [dict]. *)
Definition dict_get (d : list (string * json F)) (key : string) (default : json F)
    : json F :=
  match dict_lookup d key with
  | Some v => v
  | None => default
  end.

(** [v.get(key, default)]: only a [dict] has the method. *)
Definition py_get (v : json F) (key : string) (default : json F) : exn + json F :=
  match v with
  | JDict d => inr (dict_get d key default)
  | _ => inl AttributeError
  end.

(** [v[0]]: the first element of a [list], the first character of a [str];
    a [dict] has no key [0], the other values cannot be subscripted. *)
Definition py_index0 (v : json F) : exn + json F :=
  match v with
  | JList [] => inl IndexError
  | JList (x :: _) => inr x
  | JStr EmptyString => inl IndexError
  | JStr (String c _) => inr (JStr (String c EmptyString))
  | JDict _ => inl KeyError
  | _ => inl TypeError
  end.

(** [v[key]] for a string key. *)
Definition py_getitem (v : json F) (key : string) : exn + json F :=
  match v with
  | JDict d =>
      match dict_lookup d key with
      | Some x => inr x
      | None => inl KeyError
      end
  | _ => inl TypeError
  end.

(** [v.items()] *)
Definition py_items (v : json F) : exn + list (string * json F) :=
  match v with
  | JDict d => inr d
  | _ => inl AttributeError
  end.

End PythonValues.

(** ** scraper.py: the sitemap *)

(** An element of the parsed sitemap: its qualified tag, its text ([None]
    for an element without text) and its children. *)
Inductive element : Type :=
| Element (tag : string) (text : option string) (children : list element).

Definition tag_of (e : element) : string :=
  match e with Element t _ _ => t end.
Definition text_of (e : element) : option string :=
  match e with Element _ t _ => t end.
Definition children_of (e : element) : list element :=
  match e with Element _ _ c => c end.

(** The namespaces of [parse_sitemap], as ElementTree qualifies a tag. *)
Definition NS_SITEMAP : string := "{http://www.sitemaps.org/schemas/sitemap/0.9}".
Definition NS_IMAGE : string := "{http://www.google.com/schemas/sitemap-image/1.1}".

(** [e.findall(tag)]: the direct children with that tag, in document order. *)
Definition findall (tag : string) (e : element) : list element :=
  filter (fun c => String.eqb (tag_of c) tag) (children_of e).

(** An entry of the list [parse_sitemap] returns. *)
Record product_item : Type := mkItem {
  product_url : option string;
  image_caption : option string
}.

(** The loop of [parse_sitemap] over the [url] elements.  A [url] without
    [loc] raises [AttributeError] ([None] has no [text]). *)
Fixpoint parse_url_elements (urls : list element) : exn + list product_item :=
  match urls with
  | [] => inr []
  | url_element :: rest =>
      match findall (NS_SITEMAP ++ "loc") url_element with
      | [] => inl AttributeError
      | loc_element :: _ =>
          let loc := text_of loc_element in
          let caption :=
            match flat_map (findall (NS_IMAGE ++ "caption"))
                    (findall (NS_IMAGE ++ "image") url_element) with
            | [] => Some EmptyString
            | image_caption_element :: _ => text_of image_caption_element
            end in
          match parse_url_elements rest with
          | inl e => inl e
          | inr products => inr (mkItem loc caption :: products)
          end
      end
  end.

(** [parse_sitemap(xml_content)], over the parser [ET.fromstring]. *)
Definition parse_sitemap (ET_fromstring : string -> exn + element)
    (xml_content : string) : exn + list product_item :=
  match ET_fromstring xml_content with
  | inl e => inl e
  | inr root => parse_url_elements (findall (NS_SITEMAP ++ "url") root)
  end.

(** ** scraper.py: the scraping loop *)

Definition PRODUCTS_DIR : string := "products".

(** The dictionary [product_data] of one scraped product. *)
Record product (F : Type) : Type := mkProduct {
  unique_item_id : string;
  product_title : json F;
  price : json F;
  sitemap_caption : option string;
  size_options : json F;
  structured_attributes : json F;
  full_text_description : string;
  image_url : json F;
  local_image_path : option string
}.

Arguments mkProduct {F}.
Arguments unique_item_id {F} p.
Arguments product_title {F} p.
Arguments price {F} p.
Arguments sitemap_caption {F} p.
Arguments size_options {F} p.
Arguments structured_attributes {F} p.
Arguments full_text_description {F} p.
Arguments image_url {F} p.
Arguments local_image_path {F} p.

(** What happens to a file: [open(path, 'w')] (or ['wb']) has created it, or
    emptied it if it was there; then the content was written and the file
    closed.  A file that was opened and not written is left on the disk, empty
    or with a part of the content. *)
Inductive file_event : Type :=
| Opened (path : string)
| Written (path content : string).

Definition path_of (ev : file_event) : string :=
  match ev with
  | Opened path => path
  | Written path _ => path
  end.

(** What [scrape_laam_pk] acts on: the network with the log of the retry
    wrapper, and what happened to the files, oldest first. *)
Record scrape_state (F W : Type) : Type := mkScrape {
  net : state F W;
  files : list file_event
}.

Arguments mkScrape {F W} net files.
Arguments net {F W} s.
Arguments files {F W} s.

(** How one pass of the loop body ends: the product is appended, the item is
    skipped ([continue]), or an exception leaves the function. *)
Inductive item_result (F : Type) : Type :=
| Appended (p : product F)
| Skipped
| Crashed (e : exn).

Arguments Appended {F} p.
Arguments Skipped {F}.
Arguments Crashed {F} e.

(** What [scrape_laam_pk] returns: [None] after a failed sitemap fetch, the
    list of products, or an exception. *)
Inductive scrape_result (F : Type) : Type :=
| ScrapeNone
| ScrapeDone (final_products_data : list (product F))
| ScrapeRaised (e : exn).

Arguments ScrapeNone {F}.
Arguments ScrapeDone {F} final_products_data.
Arguments ScrapeRaised {F} e.

Section ScrapeLaamPk.
Context {F W : Type} `{PyFloatOps F} `{PyRuntime F W}.

(** The library behind the loop: the HTTP client, the JSON decoder, the XML
    parser, [str()] of a decoded value, the text BeautifulSoup and the
    regular expression make of a truthy description, [os.path.join], the
    exception (if any) of opening a file, the exception (if any) of writing
    a content to the open file and closing it, and the text [json.dump]
    writes for the final list; an exception of [json.dump] itself counts as
    one of the writing.  Console messages are not modelled. *)
Variable requests_get : string -> W -> (response + exn) * W.
Variable json_decode : string -> option (json F).
Variable ET_fromstring : string -> exn + element.
Variable py_str : json F -> string.
Variable soup_text : json F -> exn + string.
Variable os_path_join : string -> string -> string.
Variable open_error : string -> list file_event -> option exn.
Variable write_error : string -> string -> list file_event -> option exn.
Variable json_dump : list (product F) -> string.

Definition IMAGES_DIR : string := os_path_join PRODUCTS_DIR "images".

(** [clean_html(html_string)] *)
Definition clean_html (html_string : json F) : exn + string :=
  if negb (py_truthy html_string) then inr EmptyString
  else soup_text html_string.

(** Lines 161-165: the size options. *)
Definition size_options_of (api_data : list (string * json F)) : exn + json F :=
  let size_options := dict_get api_data "options" (JList []) in
  if py_truthy size_options then
    match py_index0 size_options with
    | inl e => inl e
    | inr first =>
        match py_get first "name" JNull with
        | inl e => inl e
        | inr name =>
            match name with
            | JStr "Size" => py_get first "values" (JList [])
            | _ => inr (JList [])
            end
        end
    end
  else inr (JList []).

(** Line 177: the list comprehension over [attributes.items()]. *)
Fixpoint attribute_labels (items : list (string * json F)) : exn + list string :=
  match items with
  | [] => inr []
  | (k, v) :: rest =>
      match py_getitem v "label" with
      | inl e => inl e
      | inr label =>
          match attribute_labels rest with
          | inl e => inl e
          | inr labels => inr ((k ++ ": " ++ py_str label)%string :: labels)
          end
      end
  end.

(** An f-string field holding the caption, a [str] or [None]. *)
Definition format_caption (caption : option string) : string :=
  match caption with
  | Some c => c
  | None => "None"
  end.

(** The URL [requests.get] makes of its argument: [str(url)]. *)
Definition url_of (v : json F) : string :=
  match v with
  | JStr s => s
  | _ => py_str v
  end.

(** [with open(path, mode) as f:] followed by the writing of [content].
    When [open] raises nothing happens to the file; when the writing raises
    the file has been opened already, and stays. *)
Definition write_file (path content : string) (s : scrape_state F W)
    : option exn * scrape_state F W :=
  match open_error path (files s) with
  | Some e => (Some e, s)
  | None =>
      let s1 := mkScrape (net s) (files s ++ [Opened path]) in
      match write_error path content (files s1) with
      | Some e => (Some e, s1)
      | None => (None, mkScrape (net s) (files s1 ++ [Written path content]))
      end
  end.

(** Lines 186-204: the image of a product whose other fields are set.  Had
    the download returned [None], the file would be opened and [write(None)]
    would raise [TypeError]. *)
Definition fetch_image (product_handle : string) (image_url : json F)
    (s : scrape_state F W) : (exn + option string) * scrape_state F W :=
  if py_truthy image_url then
    let image_name := (product_handle ++ ".jpg")%string in
    let image_path := os_path_join IMAGES_DIR image_name in
    match download_image_content requests_get (url_of image_url) (net s) with
    | (Return img_data, n1) =>
        match write_file image_path img_data (mkScrape n1 (files s)) with
        | (Some e, s1) =>
            if is_RequestException e then (inr None, s1) else (inl e, s1)
        | (None, s1) => (inr (Some image_path), s1)
        end
    | (ReturnNone, n1) =>
        match open_error image_path (files s) with
        | Some e =>
            if is_RequestException e
            then (inr None, mkScrape n1 (files s))
            else (inl e, mkScrape n1 (files s))
        | None => (inl TypeError, mkScrape n1 (files s ++ [Opened image_path]))
        end
    | (Raise e, n1) =>
        if is_RequestException e
        then (inr None, mkScrape n1 (files s))
        else (inl e, mkScrape n1 (files s))
    end
  else (inr None, s).

(** Lines 148-206: what the loop body makes of the decoded API data. *)
Definition build_product (product_handle : string) (caption : option string)
    (api_data : json F) (s : scrape_state F W)
    : item_result F * scrape_state F W :=
  if negb (py_truthy api_data) then (Skipped, s)
  else
    match api_data with
    | JDict d =>
        if negb (py_truthy (dict_get d "title" JNull)) then (Skipped, s)
        else
          let title := dict_get d "title" (JStr EmptyString) in
          let price := dict_get d "price" JNull in
          match size_options_of d with
          | inl e => (Crashed e, s)
          | inr sizes =>
              let attributes :=
                match dict_get d "attributed_description" JNull with
                | JNull => JDict []
                | a => a
                end in
              match clean_html (dict_get d "description" (JStr EmptyString)) with
              | inl e => (Crashed e, s)
              | inr clean_desc =>
                  match py_items attributes with
                  | inl e => (Crashed e, s)
                  | inr items =>
                      match attribute_labels items with
                      | inl e => (Crashed e, s)
                      | inr labels =>
                          let attribute_summary := String.concat " " labels in
                          let full_text :=
                            ("TITLE: " ++ py_str title ++ ". "
                             ++ "CAPTION: " ++ format_caption caption ++ ". "
                             ++ "ATTRIBUTES: " ++ attribute_summary ++ ". "
                             ++ "DETAILS: " ++ clean_desc)%string in
                          match py_index0 (dict_get d "media" (JList [JDict []])) with
                          | inl e => (Crashed e, s)
                          | inr media0 =>
                              match py_get media0 "src" JNull with
                              | inl e => (Crashed e, s)
                              | inr image_url =>
                                  match fetch_image product_handle image_url s with
                                  | (inl e, s1) => (Crashed e, s1)
                                  | (inr path, s1) =>
                                      (Appended
                                         (mkProduct product_handle title price caption
                                            sizes attributes full_text image_url path),
                                       s1)
                                  end
                              end
                          end
                      end
                  end
              end
          end
    | _ => (Crashed AttributeError, s)
    end.

(** Lines 126-206: one pass of the loop body. *)
Definition process_item (product_item : product_item) (s : scrape_state F W)
    : item_result F * scrape_state F W :=
  match product_url product_item with
  | None => (Crashed TypeError, s)
  | Some url =>
      match product_handle_of url with
      | NotAProductUrl => (Skipped, s)
      | CaughtIndexError => (Skipped, s)
      | Handle product_handle =>
          match fetch_product_details_from_api requests_get json_decode
                  product_handle (net s) with
          | (Return api_data, n1) =>
              build_product product_handle (image_caption product_item) api_data
                (mkScrape n1 (files s))
          | (ReturnNone, n1) => (Skipped, mkScrape n1 (files s))
          | (Raise e, n1) =>
              if is_RequestException e
              then (Skipped, mkScrape n1 (files s))
              else (Crashed e, mkScrape n1 (files s))
          end
      end
  end.

(** The [for] loop over [products_to_process]: the products appended so far
    are [acc], oldest first. *)
Fixpoint scrape_loop (items : list product_item) (acc : list (product F))
    (s : scrape_state F W) : (exn + list (product F)) * scrape_state F W :=
  match items with
  | [] => (inr acc, s)
  | product_item :: rest =>
      match process_item product_item s with
      | (Appended p, s1) => scrape_loop rest (acc ++ [p]) s1
      | (Skipped, s1) => scrape_loop rest acc s1
      | (Crashed e, s1) => (inl e, s1)
      end
  end.

(** [scrape_laam_pk(num_products)] *)
Definition scrape_laam_pk (num_products : Z) (s : scrape_state F W)
    : scrape_result F * scrape_state F W :=
  match fetch_sitemap_content requests_get (net s) with
  | (Raise e, n1) =>
      if is_RequestException e
      then (ScrapeNone, mkScrape n1 (files s))
      else (ScrapeRaised e, mkScrape n1 (files s))
  | (ReturnNone, n1) => (ScrapeRaised TypeError, mkScrape n1 (files s))
  | (Return sitemap_content, n1) =>
      match parse_sitemap ET_fromstring sitemap_content with
      | inl e => (ScrapeRaised e, mkScrape n1 (files s))
      | inr product_urls =>
          let products_to_process := slice_to num_products product_urls in
          match scrape_loop products_to_process [] (mkScrape n1 (files s)) with
          | (inl e, s1) => (ScrapeRaised e, s1)
          | (inr final_products_data, s1) =>
              let output_path := os_path_join PRODUCTS_DIR "products_metadata.json" in
              match write_file output_path (json_dump final_products_data) s1 with
              | (Some e, s2) => (ScrapeRaised e, s2)
              | (None, s2) => (ScrapeDone final_products_data, s2)
              end
          end
      end
  end.

End ScrapeLaamPk.

(** What the loop does to the files of a product: it opens and writes the
    path [os.path.join(IMAGES_DIR, product_handle + ".jpg")]. *)
Definition is_image_file (os_path_join : string -> string -> string)
    (ev : file_event) : Prop :=
  exists product_handle,
    path_of ev
    = os_path_join (IMAGES_DIR os_path_join) (product_handle ++ ".jpg")%string.

(** The calls of [requests.get] made so far: the calls in the log of the
    retry wrapper, one per attempt of a decorated fetcher.  (A call that
    follows redirects sends more than one HTTP request.) *)
Definition get_calls {F W : Type} (s : scrape_state F W) : nat :=
  calls (log (net s)).


(** Sample surroundings for the scraper: a network on which every request
    fails; and a site with a sitemap of two URLs, one of them a product, a
    gateway that describes the product, and no image server. *)
Definition dead_network : string -> unit -> (response + exn) * unit :=
  fun _ w => (inr ConnectionError, w).

Definition demo_network (url : string) (w : nat) : (response + exn) * nat :=
  if String.eqb url SITEMAP_URL then (inl (mkResponse 200 "<urlset>"), S w)
  else if prefix API_GATEWAY url then (inl (mkResponse 200 "{}"), S w)
  else (inl (mkResponse 404 ""), S w).

Definition demo_api_data : json float :=
  JDict [("title", JStr "Kurta"); ("price", JInt 5);
         ("options", JList [JDict [("name", JStr "Size");
                                   ("values", JList [JStr "S"; JStr "M"])]]);
         ("attributed_description", JDict [("color", JDict [("label", JStr "red")])]);
         ("media", JList [JDict [("src", JStr "https://cdn.laam.pk/kurta.jpg")]])].

Definition demo_sitemap : element :=
  Element "urlset" None
    [Element (NS_SITEMAP ++ "url") None
       [Element (NS_SITEMAP ++ "loc") (Some "https://laam.pk/products/kurta?ref=1") [];
        Element (NS_IMAGE ++ "image") None
          [Element (NS_IMAGE ++ "caption") (Some "A grey kurta") []]];
     Element (NS_SITEMAP ++ "url") None
       [Element (NS_SITEMAP ++ "loc") (Some "https://laam.pk/about") []]].

Definition demo_str (v : json float) : string :=
  match v with
  | JStr s => s
  | _ => "?"
  end.

Definition demo_join (a b : string) : string := (a ++ "/" ++ b)%string.

(** ** ingest_to_chroma.py: preparing the records *)

(** What [load_and_ingest_data] makes of the decoded file: it returns early
    with an error message, raises, or hands three parallel lists to
    [collection.add]. *)
Inductive ingest_outcome (F : Type) : Type :=
| IngestRejected
| IngestRaised (e : exn)
| IngestAdd (ids : list string) (embeddings : list (json F))
            (metadatas : list (list (string * string))).

Arguments IngestRejected {F}.
Arguments IngestRaised {F} e.
Arguments IngestAdd {F} ids embeddings metadatas.

Section Ingest.
Context {F : Type} `{PyFloatOps F}.

(** [str()] of a decoded value, [json.dumps] and the length of a [str]. *)
Variable py_str : json F -> string.
Variable json_dumps : json F -> string.
Variable str_len : string -> nat.

(** [len(v)] *)
Definition py_len (v : json F) : exn + nat :=
  match v with
  | JStr s => inr (str_len s)
  | JList l => inr (length l)
  | JDict d => inr (length d)
  | _ => inl TypeError
  end.

(** Lines 59-67: the metadata of a record, without ['id'] and ['vector'],
    lists and dicts dumped as JSON and the other values turned into [str]. *)
Definition metadata_safe_of (item : list (string * json F)) : list (string * string) :=
  map (fun kv =>
         (fst kv,
          match snd kv with
          | JList _ | JDict _ => json_dumps (snd kv)
          | _ => py_str (snd kv)
          end))
      (filter (fun kv => negb (String.eqb (fst kv) "id" || String.eqb (fst kv) "vector"))
              item).

(** Lines 46-69: the loop over the records. *)
Fixpoint prepare_records (vector_dimension : nat) (data : list (json F))
    (ids : list string) (embeddings : list (json F))
    (metadatas : list (list (string * string)))
    : exn + (list string * list (json F) * list (list (string * string))) :=
  match data with
  | [] => inr (ids, embeddings, metadatas)
  | item :: rest =>
      match item with
      | JDict d =>
          let product_id := dict_get d "id" JNull in
          let vector := dict_get d "vector" JNull in
          if negb (py_truthy product_id) || negb (py_truthy vector)
          then prepare_records vector_dimension rest ids embeddings metadatas
          else
            match py_len vector with
            | inl e => inl e
            | inr n =>
                if negb (n =? vector_dimension)%nat
                then prepare_records vector_dimension rest ids embeddings metadatas
                else prepare_records vector_dimension rest
                       (ids ++ [py_str product_id])
                       (embeddings ++ [vector])
                       (metadatas ++ [metadata_safe_of d])
            end
      | _ => inl AttributeError
      end
  end.

(** Lines 27-73 of [load_and_ingest_data], from the decoded file [data] to the
    arguments of [collection.add]. *)
Definition load_and_ingest_data (data : json F) : ingest_outcome F :=
  if negb (py_truthy data) then IngestRejected
  else
    match data with
    | JList (first :: rest) =>
        match py_get first "vector" (JList []) with
        | inl e => IngestRaised e
        | inr v =>
            match py_len v with
            | inl e => IngestRaised e
            | inr vector_dimension =>
                if (vector_dimension =? 0)%nat then IngestRejected
                else
                  match prepare_records vector_dimension (first :: rest) [] [] [] with
                  | inl e => IngestRaised e
                  | inr (ids, embeddings, metadatas) =>
                      match ids with
                      | [] => IngestRejected
                      | _ => IngestAdd ids embeddings metadatas
                      end
                  end
            end
        end
    | _ => IngestRejected
    end.

End Ingest.

(** ** main.py: the metadata of a match *)

(** [parse_metadata(raw_meta)], over the decoder [json.loads] ([None] for a
    [JSONDecodeError]); [raw_meta] is a [dict]. *)
Definition parse_metadata {F : Type} (json_loads : string -> option (json F))
    (raw_meta : list (string * json F)) : json F :=
  match dict_lookup raw_meta "metadata" with
  | Some (JStr payload) =>
      match json_loads payload with
      | Some decoded => decoded
      | None => JDict raw_meta
      end
  | _ => JDict raw_meta
  end.

(** The metadata of a stored record as the store gives it back: every value
    the [str] that was added. *)
Definition stored_metadata {F : Type} (m : list (string * string))
    : list (string * json F) :=
  map (fun kv => (fst kv, JStr (snd kv))) m.

(** What a stretch of the scraping loop may do to the state: call
    [requests.get] at most [budget] times and open and write image files
    only. *)
Definition effects_bounded_by {F W : Type} (os_path_join : string -> string -> string)
    (budget : nat) (s s1 : scrape_state F W) : Prop :=
  (get_calls s <= get_calls s1 <= get_calls s + budget)%nat /\
  exists imgs, files s1 = files s ++ imgs /\ Forall (is_image_file os_path_join) imgs.

(** A metadata dictionary without the keys ['id'] and ['vector']. *)
Definition no_id_no_vector (m : list (string * string)) : Prop :=
  Forall (fun kv => fst kv <> "id"%string /\ fst kv <> "vector"%string) m.

(** * Properties of the retry decorator *)

Section RetryFacts.
Context {F W : Type} `{PyFloatOps F} `{PyRuntime F W} {A : Type}.
Implicit Types (func : W -> outcome A * W) (s : state F W).

Lemma calls_app (l1 l2 : list (event F)) :
  calls (l1 ++ l2) = (calls l1 + calls l2)%nat.
Proof.
  unfold calls. now rewrite filter_app, length_app.
Qed.

Lemma sleeps_app (l1 l2 : list (event F)) :
  sleeps (l1 ++ l2) = sleeps l1 ++ sleeps l2.
Proof.
  induction l1 as [|ev l1 IH]; simpl; [reflexivity|].
  destruct ev; simpl; now rewrite IH.
Qed.

Lemma calls_and_sleeps_app (l1 l2 : list (event F)) :
  calls_and_sleeps (l1 ++ l2) = calls_and_sleeps l1 ++ calls_and_sleeps l2.
Proof.
  apply filter_app.
Qed.

(** The messages are neither calls nor sleeps. *)
Lemma calls_calls_and_sleeps (l : list (event F)) :
  calls (calls_and_sleeps l) = calls l.
Proof.
  induction l as [|ev l IH]; [reflexivity|].
  destruct ev; cbn [calls_and_sleeps filter]; fold (calls_and_sleeps l).
  - change (S (calls (calls_and_sleeps l)) = S (calls l)). now rewrite IH.
  - exact IH.
  - exact IH.
Qed.

Lemma sleeps_calls_and_sleeps (l : list (event F)) :
  sleeps (calls_and_sleeps l) = sleeps l.
Proof.
  induction l as [|ev l IH]; [reflexivity|].
  destruct ev; cbn [calls_and_sleeps filter sleeps]; fold (calls_and_sleeps l);
    now rewrite ?IH.
Qed.

(** The calls and the sleeps of an alternation that starts at attempt [j]. *)
Lemma alternation_calls (ib : pynum F) (j k : nat) :
  calls (flat_map (fun i => [Sleep (sleep_time ib (Z.of_nat i)); Call]) (seq j k)) = k.
Proof.
  revert j. induction k as [|k IH]; intro j; [reflexivity|].
  cbn [seq flat_map app]. change (S (calls (flat_map
    (fun i => [Sleep (sleep_time ib (Z.of_nat i)); Call]) (seq (S j) k))) = S k).
  now rewrite IH.
Qed.

Lemma alternation_sleeps (ib : pynum F) (j k : nat) :
  sleeps (flat_map (fun i => [Sleep (sleep_time ib (Z.of_nat i)); Call]) (seq j k))
  = map (sleep_time ib) (map Z.of_nat (seq j k)).
Proof.
  revert j. induction k as [|k IH]; intro j; [reflexivity|].
  cbn [seq flat_map app sleeps map]. now rewrite IH.
Qed.

(** One failed attempt that is retried appends a call, a message and a sleep,
    and leaves the world as the sleep left it. *)
Lemma retry_step_log s (w w' : W) ev_no n e d :
  let s3 := emit (Sleep d)
              (mkState w' (log (emit (PrintRetry ev_no n e d)
                                  (emit Call (mkState w (log s)))))) in
  world s3 = w' /\
  calls (log s3) = S (calls (log s)) /\
  sleeps (log s3) = sleeps (log s) ++ [d] /\
  calls_and_sleeps (log s3) = calls_and_sleeps (log s) ++ [Call; Sleep d].
Proof.
  unfold emit; cbn [log world]. split; [reflexivity|]. split; [|split].
  - rewrite !calls_app. cbn. lia.
  - rewrite !sleeps_app. cbn. now rewrite !app_nil_r.
  - rewrite !calls_and_sleeps_app. cbn. now rewrite <- !app_assoc.
Qed.

(** A backoff that goes through passes both tests of the loop. *)
Lemma backoff_error_none (ib : pynum F) (attempt : Z) (w : W) :
  backoff_error ib attempt w = None ->
  sleep_time_error ib attempt = None /\
  time_sleep (sleep_time ib attempt) w
  = (None, snd (time_sleep (sleep_time ib attempt) w)).
Proof.
  unfold backoff_error. destruct (sleep_time_error ib attempt); [discriminate|].
  intro Hs. split; [reflexivity|].
  destruct (time_sleep (sleep_time ib attempt) w) as [r w']. cbn in *. now subst r.
Qed.

(** The world of the next call: one more attempt retried. *)
Lemma world_from_S (ib : pynum F) func (j k : nat) (w : W) :
  world_from ib func j (S k) w
  = snd (time_sleep (sleep_time ib (Z.of_nat (j + k)))
           (snd (func (world_from ib func j k w)))).
Proof.
  revert j w. induction k as [|k IH]; intros j w.
  - cbn [world_from]. now rewrite Nat.add_0_r.
  - change (world_from ib func j (S (S k)) w)
      with (world_from ib func (S j) (S k)
              (snd (time_sleep (sleep_time ib (Z.of_nat j)) (snd (func w))))).
    rewrite IH. cbn [world_from].
    now replace (S j + k)%nat with (j + S k)%nat by lia.
Qed.

(** Whatever the wrapped function and the interpreter do, the calls and the
    sleeps of the loop alternate: a call, and for each attempt that was
    retried the sleep of its backoff and the next call.  The loop runs over
    the last [S m] attempts of [n], from attempt [j] on. *)
Lemma wrapper_loop_alternates n ib func (j m : nat) s :
  Z.of_nat (j + S m) = n ->
  exists k, (k <= m)%nat /\
    calls_and_sleeps (log (snd (wrapper_loop n ib func (map Z.of_nat (seq j (S m))) s)))
    = calls_and_sleeps (log s)
      ++ Call :: flat_map (fun i => [Sleep (sleep_time ib (Z.of_nat i)); Call]) (seq j k).
Proof.
  revert j s. induction m as [|m IH]; intros j s Hn.
  - exists O. split; [lia|].
    cbn [seq map wrapper_loop flat_map].
    destruct (func (world s)) as [o w].
    replace (Z.of_nat j <? n - 1) with false by (symmetry; apply Z.ltb_ge; lia).
    destruct o as [a|e]; [|destruct (is_RequestException e)];
      cbn [snd emit log]; now rewrite calls_and_sleeps_app.
  - change (seq j (S (S m))) with (j :: seq (S j) (S m)).
    cbn [map wrapper_loop].
    destruct (func (world s)) as [o w].
    assert (Hstop : calls_and_sleeps (log (emit Call (mkState w (log s))))
                    = calls_and_sleeps (log s) ++ [@Call F]).
    { cbn [emit log]. now rewrite calls_and_sleeps_app. }
    destruct o as [a|e]; [exists O; split; [lia|exact Hstop]|].
    destruct (is_RequestException e); [|exists O; split; [lia|exact Hstop]].
    replace (Z.of_nat j <? n - 1) with true by (symmetry; apply Z.ltb_lt; lia).
    destruct (sleep_time_error ib (Z.of_nat j)); [exists O; split; [lia|exact Hstop]|].
    set (d := sleep_time ib (Z.of_nat j)).
    destruct (time_sleep d w) as [[err|] w'].
    + exists O. split; [lia|]. cbn [snd emit log flat_map seq world] in *.
      rewrite calls_and_sleeps_app, Hstop. cbn. now rewrite app_nil_r.
    + set (s3 := emit (Sleep d) _).
      destruct (retry_step_log s w w' (Z.of_nat j + 1) n e d) as (_ & _ & _ & Hcs).
      fold s3 in Hcs.
      destruct (IH (S j) s3 ltac:(lia)) as (k & Hk & Hlog).
      exists (S k). split; [lia|]. rewrite Hlog, Hcs, <- app_assoc. reflexivity.
Qed.

(** A call of the wrapper with at least one attempt, from any state: the
    calls and sleeps it adds are an alternation of at most [max_retries]
    calls. *)
Lemma retry_request_shape n ib func s :
  1 <= n ->
  exists k, (k < Z.to_nat n)%nat /\
    calls_and_sleeps (log (snd (retry_request n ib func s)))
    = calls_and_sleeps (log s) ++ alternation ib k /\
    calls (log (snd (retry_request n ib func s))) = (calls (log s) + S k)%nat /\
    sleeps (log (snd (retry_request n ib func s)))
    = sleeps (log s) ++ map (sleep_time ib) (map Z.of_nat (seq 0 k)).
Proof.
  intro Hn. unfold retry_request, range.
  assert (Hnat : Z.to_nat n = S (Z.to_nat (n - 1))) by lia.
  rewrite Hnat.
  destruct (wrapper_loop_alternates n ib func O (Z.to_nat (n - 1)) s ltac:(lia))
    as (k & Hk & Hlog).
  exists k. split; [lia|]. split; [exact Hlog|].
  split.
  - rewrite <- calls_calls_and_sleeps, Hlog, calls_app, calls_calls_and_sleeps.
    f_equal.
    change (S (calls (flat_map (fun i => [Sleep (sleep_time ib (Z.of_nat i)); Call])
                        (seq 0 k))) = S k).
    now rewrite alternation_calls.
  - rewrite <- sleeps_calls_and_sleeps, Hlog, sleeps_app, sleeps_calls_and_sleeps.
    f_equal. cbn [sleeps]. apply alternation_sleeps.
Qed.

(** The attempts are numbered from zero. *)
Lemma nth_error_range_seq (i k : nat) (a : Z) :
  nth_error (map Z.of_nat (seq 0 k)) i = Some a -> a = Z.of_nat i.
Proof.
  rewrite nth_error_map.
  destruct (nth_error (seq 0 k) i) as [b|] eqn:E; simpl; [|discriminate].
  intros [= <-]. f_equal.
  assert (Hi : (i < k)%nat).
  { rewrite <- (length_seq k 0). apply nth_error_Some. congruence. }
  pose proof (@seq_nth k 0 i O Hi) as Hnth.
  rewrite (nth_error_nth _ _ O E) in Hnth. now rewrite Hnth.
Qed.

(** The [i]-th sleep of a call of the wrapper, counted from zero, lasts
    [sleep_time initial_backoff i]. *)
Lemma retry_request_sleeps n ib func w (i : nat) d :
  nth_error (sleeps (log (snd (retry_request n ib func (init w))))) i = Some d ->
  d = sleep_time ib (Z.of_nat i).
Proof.
  destruct (Z_lt_le_dec n 1) as [Hn|Hn].
  - unfold retry_request, range.
    replace (Z.to_nat n) with O by lia. cbn. destruct i; discriminate.
  - destruct (retry_request_shape n ib func (init w) Hn) as (k & _ & _ & _ & ->).
    cbn [init log sleeps app]. rewrite nth_error_map.
    destruct (nth_error (map Z.of_nat (seq 0 k)) i) as [a|] eqn:E; simpl; [|discriminate].
    intros [= <-]. f_equal. now apply nth_error_range_seq in E.
Qed.

(** The loop over the last [S m] attempts of [n], from attempt [k] on, when
    the first [m] of these attempts are retried (the call raises a
    [RequestException] and the backoff goes through) and the call of the last
    one raises a [RequestException] too: [m + 1] calls, [m] sleeps, and the
    exception of the last call is raised. *)
Lemma wrapper_loop_exhausts n ib func (m k : nat) s :
  Z.of_nat (k + S m) = n ->
  (forall i, (i <= m)%nat ->
     exists e, fst (func (world_from ib func k i (world s))) = Raises e /\
               is_RequestException e = true) ->
  (forall i, (i < m)%nat ->
     backoff_error ib (Z.of_nat (k + i))
       (snd (func (world_from ib func k i (world s)))) = None) ->
  exists e,
    fst (func (world_from ib func k m (world s))) = Raises e /\
    fst (wrapper_loop n ib func (map Z.of_nat (seq k (S m))) s) = Raise e /\
    world (snd (wrapper_loop n ib func (map Z.of_nat (seq k (S m))) s))
    = snd (func (world_from ib func k m (world s))) /\
    calls (log (snd (wrapper_loop n ib func (map Z.of_nat (seq k (S m))) s)))
    = (calls (log s) + S m)%nat /\
    sleeps (log (snd (wrapper_loop n ib func (map Z.of_nat (seq k (S m))) s)))
    = sleeps (log s) ++ map (sleep_time ib) (map Z.of_nat (seq k m)).
Proof.
  revert k s. induction m as [|m IH]; intros k s Hn Hfail Hok.
  - destruct (Hfail O ltac:(lia)) as (e & He & Hreq). cbn [world_from] in *.
    exists e. cbn [seq map wrapper_loop].
    destruct (func (world s)) as [o w]. cbn [fst snd] in *. subst o.
    rewrite Hreq.
    replace (Z.of_nat k <? n - 1) with false by (symmetry; apply Z.ltb_ge; lia).
    cbn [fst snd emit log world]. repeat split.
    + rewrite calls_app. reflexivity.
    + rewrite sleeps_app. cbn. now rewrite !app_nil_r.
  - destruct (Hfail O ltac:(lia)) as (e & He & Hreq).
    pose proof (Hok O ltac:(lia)) as Hok0.
    cbn [world_from] in He, Hok0. rewrite Nat.add_0_r in Hok0.
    change (seq k (S (S m))) with (k :: seq (S k) (S m)).
    cbn [map wrapper_loop].
    change (world_from ib func k (S m) (world s))
      with (world_from ib func (S k) m
              (snd (time_sleep (sleep_time ib (Z.of_nat k)) (snd (func (world s)))))).
    destruct (func (world s)) as [o w] eqn:Ef. cbn [fst snd] in *. subst o.
    rewrite Hreq.
    replace (Z.of_nat k <? n - 1) with true by (symmetry; apply Z.ltb_lt; lia).
    destruct (backoff_error_none ib (Z.of_nat k) w Hok0) as [-> Hsleep].
    set (d := sleep_time ib (Z.of_nat k)) in *. rewrite Hsleep.
    set (w' := snd (time_sleep d w)) in *.
    set (s3 := emit (Sleep d) _).
    destruct (retry_step_log s w w' (Z.of_nat k + 1) n e d) as (Hw & Hc & Hs & _).
    fold s3 in Hw, Hc, Hs.
    destruct (IH (S k) s3 ltac:(lia)) as (e' & H1 & H2 & H3 & H4 & H5).
    { intros i Hi. rewrite Hw.
      destruct (Hfail (S i) ltac:(lia)) as (e' & He' & Hreq').
      cbn [world_from] in He'. rewrite Ef in He'. cbn [snd] in He'.
      now exists e'. }
    { intros i Hi. rewrite Hw. specialize (Hok (S i) ltac:(lia)).
      cbn [world_from] in Hok. rewrite Ef in Hok. cbn [snd] in Hok.
      now replace (S k + i)%nat with (k + S i)%nat by lia. }
    exists e'. rewrite Hw in H1, H3. rewrite Hc in H4. rewrite Hs in H5.
    repeat split; try assumption.
    + rewrite H4. lia.
    + rewrite H5. rewrite <- app_assoc. reflexivity.
Qed.

(** A backoff that raises ends the loop: when [m] attempts are retried and
    the next call raises a [RequestException] as well, with attempts still to
    run, but its backoff raises [err], then [err] is raised after [m + 1]
    calls and [m] sleeps. *)
Lemma wrapper_loop_backoff_raises n ib func (m k : nat) (rest : list Z) s err :
  Z.of_nat (k + m) < n - 1 ->
  (forall i, (i <= m)%nat ->
     exists e, fst (func (world_from ib func k i (world s))) = Raises e /\
               is_RequestException e = true) ->
  (forall i, (i < m)%nat ->
     backoff_error ib (Z.of_nat (k + i))
       (snd (func (world_from ib func k i (world s)))) = None) ->
  backoff_error ib (Z.of_nat (k + m))
    (snd (func (world_from ib func k m (world s)))) = Some err ->
  let r := wrapper_loop n ib func (map Z.of_nat (seq k (S m)) ++ rest) s in
  fst r = Raise err /\
  calls (log (snd r)) = (calls (log s) + S m)%nat /\
  sleeps (log (snd r))
  = sleeps (log s) ++ map (sleep_time ib) (map Z.of_nat (seq k m)).
Proof.
  revert k s. induction m as [|m IH]; intros k s Hn Hfail Hok Herr r; subst r.
  - destruct (Hfail O ltac:(lia)) as (e & He & Hreq).
    rewrite Nat.add_0_r in Hn, Herr. cbn [world_from] in *.
    cbn [seq map app wrapper_loop].
    destruct (func (world s)) as [o w]. cbn [fst snd] in *. subst o.
    rewrite Hreq.
    replace (Z.of_nat k <? n - 1) with true by (symmetry; apply Z.ltb_lt; lia).
    unfold backoff_error in Herr.
    destruct (sleep_time_error ib (Z.of_nat k)) as [err'|].
    + injection Herr as ->. cbn [fst snd emit log world]. repeat split.
      * rewrite calls_app. reflexivity.
      * rewrite sleeps_app. cbn. now rewrite !app_nil_r.
    + destruct (time_sleep (sleep_time ib (Z.of_nat k)) w) as [r w'].
      cbn [fst] in Herr. subst r. cbn [fst snd emit log world]. repeat split.
      * rewrite !calls_app. cbn. lia.
      * rewrite !sleeps_app. cbn. now rewrite !app_nil_r.
  - destruct (Hfail O ltac:(lia)) as (e & He & Hreq).
    pose proof (Hok O ltac:(lia)) as Hok0.
    cbn [world_from] in He, Hok0. rewrite Nat.add_0_r in Hok0.
    change (seq k (S (S m))) with (k :: seq (S k) (S m)).
    cbn [map app wrapper_loop].
    change (world_from ib func k (S m) (world s))
      with (world_from ib func (S k) m
              (snd (time_sleep (sleep_time ib (Z.of_nat k)) (snd (func (world s))))))
      in Herr.
    destruct (func (world s)) as [o w] eqn:Ef. cbn [fst snd] in *. subst o.
    rewrite Hreq.
    replace (Z.of_nat k <? n - 1) with true by (symmetry; apply Z.ltb_lt; lia).
    destruct (backoff_error_none ib (Z.of_nat k) w Hok0) as [-> Hsleep].
    set (d := sleep_time ib (Z.of_nat k)) in *. rewrite Hsleep.
    set (w' := snd (time_sleep d w)) in *.
    set (s3 := emit (Sleep d) _).
    destruct (retry_step_log s w w' (Z.of_nat k + 1) n e d) as (Hw & Hc & Hs & _).
    fold s3 in Hw, Hc, Hs.
    destruct (IH (S k) s3) as (H1 & H3 & H4).
    + lia.
    + intros i Hi. rewrite Hw.
      destruct (Hfail (S i) ltac:(lia)) as (e' & He' & Hreq').
      cbn [world_from] in He'. rewrite Ef in He'. cbn [snd] in He'.
      now exists e'.
    + intros i Hi. rewrite Hw. specialize (Hok (S i) ltac:(lia)).
      cbn [world_from] in Hok. rewrite Ef in Hok. cbn [snd] in Hok.
      now replace (S k + i)%nat with (k + S i)%nat by lia.
    + rewrite Hw. now replace (S k + m)%nat with (k + S m)%nat by lia.
    + rewrite Hc in H3. rewrite Hs in H4.
      repeat split; try assumption.
      * rewrite H3. lia.
      * rewrite H4. rewrite <- app_assoc. reflexivity.
Qed.

(** An exception outside [RequestException] is not caught: it leaves the
    wrapper after the first call. *)
Lemma retry_request_other_exception n ib func (w : W) e :
  1 <= n ->
  fst (func w) = Raises e ->
  is_RequestException e = false ->
  retry_request n ib func (init w) = (Raise e, mkState (snd (func w)) [Call]).
Proof.
  intros Hn He Hreq. unfold retry_request, range.
  replace (Z.to_nat n) with (S (Z.to_nat (n - 1))) by lia.
  simpl. destruct (func w) as [o w']. simpl in He. subst o.
  now rewrite Hreq.
Qed.

Lemma spec_retryable_is_RequestException (e : exn) :
  spec_retryable e = true -> is_RequestException e = true.
Proof.
  destruct e; simpl; congruence.
Qed.

End RetryFacts.

(** The delays in exact arithmetic. *)
Lemma sleep_time_real (ib : pynum R) (i : nat) :
  sleep_time ib (Z.of_nat i) = PyFloat (to_float ib * 2 ^ i + 1 / 10 * INR i)%R.
Proof.
  unfold sleep_time. rewrite INR_IZR_INZ.
  destruct ib as [a|x]; simpl; f_equal.
  - now rewrite mult_IZR, <- pow_IZR.
  - now rewrite <- pow_IZR.
Qed.

(** In exact arithmetic on the ideal clock the backoff goes through whenever
    the initial backoff is not negative. *)
Lemma real_backoff_passes {W : Type} (ib : pynum R) (k : nat) :
  (0 <= to_float ib)%R -> sleepable (W := W) ib k.
Proof.
  intros Hib i w _. unfold backoff_error.
  assert (Herr : sleep_time_error (W := W) ib (Z.of_nat i) = None)
    by (destruct ib; reflexivity).
  rewrite Herr, sleep_time_real.
  cbn [time_sleep Real_PyRuntime to_float fst].
  assert (Hpow : (0 < 2 ^ i)%R) by (apply pow_lt; lra).
  pose proof (pos_INR i) as Hi.
  destruct (Rlt_dec _ 0) as [Hneg|]; [|reflexivity].
  exfalso. nra.
Qed.

(** CPython takes the two delays of the default policy, 2.0 s and 4.1 s. *)
Lemma default_backoff_passes {W : Type} :
  sleepable (F := float) (W := W) INITIAL_BACKOFF 2.
Proof.
  intros i w Hi. destruct i as [|[|i]]; [reflexivity|reflexivity|lia].
Qed.

(** C2 fails on the code.  A connection that always fails is retryable for
    the specification, but the wrapper does not get to its last attempt when
    the backoff raises.  With two attempts and an initial backoff of 1e10
    seconds [time.sleep] refuses the first delay: one call, then
    [OverflowError] in the place of the [ConnectionError].  With a negative
    initial backoff it is a [ValueError].  With an initial backoff of 1e-300
    seconds and 1030 attempts the [int] 2^1024 of attempt 1024 is too large
    for the float product of line 44: 1025 calls.  And with the default
    backoff the delay of attempt 1023 cannot be computed: the [int] 2 * 2^1023
    is too large for the float sum. *)
Lemma retry_request_stops_at_refused_sleep :
  (forall w, exists e,
      fst (unreachable_server w) = Raises e /\ spec_retryable e = true) /\
  retry_request (F := float) 2 (PyFloat 1e10%float) unreachable_server (init tt)
  = (Raise OverflowError,
     mkState tt [Call; PrintRetry 1 2 ConnectionError (PyFloat 1e10%float)]) /\
  calls (log (snd (retry_request (F := float) 2 (PyFloat 1e10%float)
                     unreachable_server (init tt)))) = 1%nat /\
  retry_request (F := float) 2 (PyFloat (-5)%float) unreachable_server (init tt)
  = (Raise ValueError,
     mkState tt [Call; PrintRetry 1 2 ConnectionError (PyFloat (-5)%float)]) /\
  fst (retry_request (F := float) 1030 (PyFloat 1e-300%float) unreachable_server (init tt))
  = Raise OverflowError /\
  calls (log (snd (retry_request (F := float) 1030 (PyFloat 1e-300%float)
                     unreachable_server (init tt)))) = 1025%nat /\
  sleep_time_error (F := float) (W := unit) INITIAL_BACKOFF 1022 = None /\
  sleep_time_error (F := float) (W := unit) INITIAL_BACKOFF 1023 = Some OverflowError.
Proof.
  split.
  - intro w. exists ConnectionError. split; reflexivity.
  - repeat split; vm_compute; reflexivity.
Qed.

(** C2, amended.  Take a retry policy with [max_retries = n >= 1] and a
    wrapped function that raises a retryable error (transport error, 5xx or
    429) on every call.  When the backoff goes through at the attempts
    [0 .. n-2], the wrapper calls the function exactly [n] times, sleeps
    between consecutive attempts only, and raises the very exception of the
    [n]-th call.  When the backoff raises at an attempt [k < n - 1], after
    going through before, the wrapper raises that exception at once, after
    [k + 1] calls and [k] sleeps. *)
Theorem retry_request_exhausts_all_attempts
    {F W : Type} `{PyFloatOps F} `{PyRuntime F W} {A : Type}
    (n : Z) (ib : pynum F) (func : W -> outcome A * W) (w : W) :
  1 <= n ->
  (forall w', exists e, fst (func w') = Raises e /\ spec_retryable e = true) ->
  (backoff_passes ib func (Z.to_nat (n - 1)) w ->
   exists e,
     fst (func (world_from ib func 0 (Z.to_nat (n - 1)) w)) = Raises e /\
     fst (retry_request n ib func (init w)) = Raise e /\
     calls (log (snd (retry_request n ib func (init w)))) = Z.to_nat n /\
     world (snd (retry_request n ib func (init w)))
     = snd (func (world_from ib func 0 (Z.to_nat (n - 1)) w)) /\
     length (sleeps (log (snd (retry_request n ib func (init w))))) = Z.to_nat (n - 1)) /\
  (forall (k : nat) (err : exn),
      Z.of_nat k < n - 1 ->
      backoff_passes ib func k w ->
      backoff_error ib (Z.of_nat k) (snd (func (world_from ib func 0 k w))) = Some err ->
      fst (retry_request n ib func (init w)) = Raise err /\
      calls (log (snd (retry_request n ib func (init w)))) = S k /\
      length (sleeps (log (snd (retry_request n ib func (init w))))) = k).
Proof.
  intros Hn Hfail.
  assert (Hfail' : forall i : nat, exists e,
             fst (func (world_from ib func 0 i w)) = Raises e /\
             is_RequestException e = true).
  { intro i. destruct (Hfail (world_from ib func 0 i w)) as (e & He & Hr).
    exists e. split; [exact He|]. now apply spec_retryable_is_RequestException. }
  split.
  - intro Hsleep. unfold retry_request, range.
    replace (Z.to_nat n) with (S (Z.to_nat (n - 1))) by lia.
    destruct (wrapper_loop_exhausts n ib func (Z.to_nat (n - 1)) O (init w))
      as (e & H1 & H2 & H3 & H4 & H5);
      [lia|intros i _; apply Hfail'|exact Hsleep|].
    exists e. rewrite H2, H3, H4, H5. cbn [init world log calls sleeps app fst].
    repeat split; try assumption.
    now rewrite !length_map, length_seq.
  - intros k err Hk Hsleep Herr. unfold retry_request, range.
    replace (Z.to_nat n) with (S k + (Z.to_nat n - S k))%nat by lia.
    rewrite seq_app, map_app.
    destruct (wrapper_loop_backoff_raises n ib func k O
                (map Z.of_nat (seq (0 + S k) (Z.to_nat n - S k))) (init w) err)
      as (H1 & H3 & H4);
      [lia|intros i _; apply Hfail'|exact Hsleep|exact Herr|].
    rewrite H1, H3, H4. cbn [init log calls sleeps app Nat.add].
    repeat split. now rewrite !length_map, length_seq.
Qed.

(** Three attempts on a connection that always fails. *)
Lemma retry_request_exhausts_all_attempts_witness :
  exists e,
    fst (unreachable_server
           (world_from (F := float) INITIAL_BACKOFF unreachable_server 0
              (Z.to_nat (3 - 1)) tt)) = Raises e /\
    fst (retry_request (F := float) 3 INITIAL_BACKOFF unreachable_server (init tt)) = Raise e /\
    calls (log (snd (retry_request (F := float) 3 INITIAL_BACKOFF unreachable_server (init tt))))
    = Z.to_nat 3 /\
    world (snd (retry_request (F := float) 3 INITIAL_BACKOFF unreachable_server (init tt)))
    = snd (unreachable_server
             (world_from (F := float) INITIAL_BACKOFF unreachable_server 0
                (Z.to_nat (3 - 1)) tt)) /\
    length (sleeps (log (snd (retry_request (F := float) 3 INITIAL_BACKOFF
                                unreachable_server (init tt)))))
    = Z.to_nat (3 - 1).
Proof.
  apply (proj1 (retry_request_exhausts_all_attempts (F := float) 3 INITIAL_BACKOFF
                  unreachable_server tt ltac:(lia)
                  (fun w' => ex_intro _ ConnectionError (conj eq_refl eq_refl)))).
  intros i Hi. destruct i as [|[|i]]; [reflexivity|reflexivity|simpl in Hi; lia].
Defined.

(** C10.  With [max_retries = 0] the loop body never runs: the wrapper returns
    [None], the wrapped function is not called, nothing is printed or slept,
    and no exception is raised. *)
Theorem retry_request_zero_retries_returns_none
    {F W : Type} `{PyFloatOps F} `{PyRuntime F W} {A : Type}
    (ib : pynum F) (func : W -> outcome A * W) (s : state F W) :
  retry_request 0 ib func s = (ReturnNone, s) /\
  calls (log (snd (retry_request 0 ib func s))) = calls (log s).
Proof.
  split; reflexivity.
Qed.

(** C3.  The [i]-th sleep of any call of the wrapper (counted from zero) lasts
    [initial_backoff * 2 ** i + 0.1 * i], whatever the float arithmetic and
    the interpreter; in exact arithmetic this is the real number
    [initial_backoff * 2^i + i / 10]; and with [initial_backoff = 2] the first
    three delays are 2.0, 4.1 and 8.2, both in exact arithmetic and as
    binary64 floats. *)
Theorem backoff_delay_formula :
  (forall (F : Type) (ops : PyFloatOps F) (W : Type) (rt : PyRuntime F W)
          (A : Type) (n : Z) (ib : pynum F)
          (func : W -> outcome A * W) (w : W) (i : nat) (d : pynum F),
      nth_error (sleeps (log (snd (retry_request n ib func (init w))))) i = Some d ->
      d = py_add (py_mul ib (PyInt (2 ^ Z.of_nat i)))
                 (py_mul (PyFloat lit_0_1) (PyInt (Z.of_nat i)))) /\
  (forall (W : Type) (rt : PyRuntime R W) (A : Type) (n : Z) (ib : pynum R)
          (func : W -> outcome A * W) (w : W) (i : nat) (d : pynum R),
      nth_error (sleeps (log (snd (retry_request n ib func (init w))))) i = Some d ->
      d = PyFloat (to_float ib * 2 ^ i + 1 / 10 * INR i)%R) /\
  sleeps (log (snd (retry_request (F := R) 4 (PyInt 2) unreachable_server (init tt))))
  = [PyFloat 2%R; PyFloat 4.1%R; PyFloat 8.2%R] /\
  sleeps (log (snd (retry_request (F := float) 4 (PyInt 2) unreachable_server (init tt))))
  = [PyFloat 2%float; PyFloat 4.1%float; PyFloat 8.2%float].
Proof.
  split; [|split; [|split]].
  - intros F ops W rt A n ib func w i d Hd.
    now apply retry_request_sleeps in Hd.
  - intros W rt A n ib func w i d Hd.
    apply retry_request_sleeps in Hd. now rewrite sleep_time_real in Hd.
  - destruct (wrapper_loop_exhausts (F := R) 4 (PyInt 2) unreachable_server
                3 O (init tt) eq_refl) as (e & _ & _ & _ & _ & Hs).
    { intros i _. exists ConnectionError. split; reflexivity. }
    { intros i _. apply (real_backoff_passes (PyInt 2) (S i)); [simpl; lra|lia]. }
    unfold retry_request, range. change (Z.to_nat 4) with 4%nat.
    rewrite Hs. cbn. repeat f_equal; lra.
  - vm_compute. reflexivity.
Qed.

(** The third sleep of four attempts with the default backoff, in binary64. *)
Lemma backoff_delay_formula_witness :
  PyFloat 8.2%float
  = py_add (py_mul (PyInt 2) (PyInt (2 ^ Z.of_nat 2)))
           (py_mul (PyFloat lit_0_1) (PyInt (Z.of_nat 2))).
Proof.
  apply (proj1 backoff_delay_formula float _ unit _ unit 4 (PyInt 2)
           unreachable_server tt 2%nat).
  reflexivity.
Defined.

(** C1 (the code departs from it).  A gateway that answers 404 to every
    request: 404 is not retryable for the specification, yet the decorated
    fetch calls the gateway three times, sleeps 2.0 s and 4.1 s in between,
    and only then raises the [HTTPError].  A body that does not decode is
    retried in the same way. *)
Theorem fetch_404_is_retried :
  spec_retryable (HTTPError 404) = false /\
  fetch_product_details_from_api (F := float)
    (constant_server 404 "") (fun _ => Some tt) "kurta" (init tt)
  = (Raise (HTTPError 404),
     mkState tt
       [Call; PrintRetry 1 3 (HTTPError 404) (PyFloat 2%float); Sleep (PyFloat 2%float);
        Call; PrintRetry 2 3 (HTTPError 404) (PyFloat 4.1%float); Sleep (PyFloat 4.1%float);
        Call]) /\
  calls (log (snd (fetch_product_details_from_api (F := float)
    (constant_server 404 "") (fun _ => Some tt) "kurta" (init tt)))) = 3%nat /\
  spec_retryable JSONDecodeError = false /\
  fst (fetch_product_details_from_api (F := float) (J := unit)
    (constant_server 200 "<html>") (fun _ => None) "kurta" (init tt))
  = Raise JSONDecodeError /\
  calls (log (snd (fetch_product_details_from_api (F := float) (J := unit)
    (constant_server 200 "<html>") (fun _ => None) "kurta" (init tt)))) = 3%nat.
Proof.
  repeat split; vm_compute; reflexivity.
Qed.

(** * Properties of the query vector builder *)

Section Reshape.
Context {T : Type}.
Implicit Types (l : list T).

Lemma length_tile l (k : nat) :
  length (concat (repeat l k)) = (k * length l)%nat.
Proof.
  induction k as [|k IH]; simpl; [reflexivity|].
  now rewrite length_app, IH.
Qed.

(** Tiling is cyclic: position [i] of the tiled array holds element
    [i mod len] of the source. *)
Lemma nth_error_tile l (k i : nat) :
  (i < k * length l)%nat ->
  nth_error (concat (repeat l k)) i = nth_error l (i mod length l).
Proof.
  revert i. induction k as [|k IH]; intros i Hi; simpl in *; [lia|].
  destruct (Nat.lt_ge_cases i (length l)) as [Hlt|Hge].
  - rewrite nth_error_app1 by assumption. now rewrite Nat.mod_small.
  - rewrite nth_error_app2 by assumption. rewrite IH by lia.
    f_equal.
    replace i with ((i - length l) + 1 * length l)%nat at 2 by lia.
    now rewrite Nat.Div0.mod_add.
Qed.

(** What [ceil_div] is designed for: enough copies to cover the target. *)
Lemma ceil_div_covers (a b : Z) : 0 < b -> a <= ceil_div a b * b.
Proof.
  intro Hb. unfold ceil_div.
  pose proof (Z.mul_div_le (- a) b Hb). nia.
Qed.

Lemma tile_covers l (collection_dim : Z) :
  l <> [] ->
  Z.of_nat (length l) < collection_dim ->
  (Z.to_nat collection_dim
   <= Z.to_nat (ceil_div collection_dim (Z.of_nat (length l))) * length l)%nat.
Proof.
  intros Hl Hlt.
  assert (Hpos : 0 < Z.of_nat (length l)) by (destruct l; [congruence|simpl; lia]).
  pose proof (ceil_div_covers collection_dim _ Hpos) as Hc.
  assert (0 <= ceil_div collection_dim (Z.of_nat (length l))) by nia.
  nia.
Qed.

(** The vector before normalisation has the target length, and its element at
    [i] is the source element at [i mod text_dim]. *)
Lemma fuse_length l (collection_dim : Z) :
  l <> [] -> 0 <= collection_dim ->
  length (fuse collection_dim l) = Z.to_nat collection_dim.
Proof.
  intros Hl Hc. unfold fuse, slice_to, tile.
  replace (collection_dim <? 0) with false by (symmetry; apply Z.ltb_ge; lia).
  destruct (collection_dim <=? Z.of_nat (length l)) eqn:E.
  - apply Z.leb_le in E. rewrite length_firstn. lia.
  - apply Z.leb_gt in E. rewrite length_firstn, length_tile.
    pose proof (tile_covers l collection_dim Hl E). lia.
Qed.

Lemma fuse_cyclic l (collection_dim : Z) (i : nat) :
  l <> [] -> 0 <= collection_dim ->
  (i < Z.to_nat collection_dim)%nat ->
  nth_error (fuse collection_dim l) i = nth_error l (i mod length l).
Proof.
  intros Hl Hc Hi. unfold fuse, slice_to, tile.
  replace (collection_dim <? 0) with false by (symmetry; apply Z.ltb_ge; lia).
  assert (Hlt : (i <? Z.to_nat collection_dim)%nat = true) by now apply Nat.ltb_lt.
  destruct (collection_dim <=? Z.of_nat (length l)) eqn:E.
  - apply Z.leb_le in E. rewrite nth_error_firstn, Hlt.
    rewrite Nat.mod_small by lia. reflexivity.
  - apply Z.leb_gt in E. rewrite nth_error_firstn, Hlt.
    apply nth_error_tile.
    pose proof (tile_covers l collection_dim Hl E). lia.
Qed.


End Reshape.

Section BuilderFacts.
Context {F : Type} `{PyFloatOps F}.

Lemma length_normalize (v : list F) : length (normalize v) = length v.
Proof.
  unfold normalize. destruct (truthy (linalg_norm v)); [apply length_map|reflexivity].
Qed.

(** With a non-empty embedding the builder returns the normalised reshaped
    vector. *)
Lemma build_query_vector_nonempty (model : Model F) (collection_dim : Z)
    (query_text : string) :
  embed model query_text <> [] ->
  build_query_vector model collection_dim query_text
  = inr (normalize (fuse collection_dim (embed model query_text))).
Proof.
  intro Hne. unfold build_query_vector.
  destruct (embed model query_text) as [|x tv]; [congruence|]. reflexivity.
Qed.

(** With an empty embedding the builder raises before it reshapes. *)
Lemma build_query_vector_empty (model : Model F) (collection_dim : Z)
    (query_text : string) :
  embed model query_text = [] ->
  build_query_vector model collection_dim query_text
  = inl (RuntimeError "Embedding model returned an empty vector.").
Proof.
  intro Hnil. unfold build_query_vector. rewrite Hnil. reflexivity.
Qed.

End BuilderFacts.

Section ExactNorm.
Local Open Scope R_scope.

Lemma fold_left_squares_acc (l : list R) (a : R) :
  fold_left (fun acc x => acc + x * x) l a = a + sum_squares l.
Proof.
  unfold sum_squares. revert a. induction l as [|x l IH]; intro a; simpl.
  - ring.
  - rewrite IH, (IH (0 + x * x)). ring.
Qed.

Lemma sum_squares_cons (x : R) (l : list R) :
  sum_squares (x :: l) = x * x + sum_squares l.
Proof.
  unfold sum_squares at 1. simpl. rewrite fold_left_squares_acc. ring.
Qed.

Lemma sum_squares_nonneg (l : list R) : 0 <= sum_squares l.
Proof.
  induction l as [|x l IH].
  - unfold sum_squares. simpl. lra.
  - rewrite sum_squares_cons. pose proof (Rle_0_sqr x) as Hx. unfold Rsqr in Hx. lra.
Qed.

Lemma sum_squares_pos (l : list R) :
  Exists (fun x => x <> 0) l -> 0 < sum_squares l.
Proof.
  induction 1 as [x l Hx|x l _ IH]; rewrite sum_squares_cons.
  - pose proof (sum_squares_nonneg l).
    pose proof (Rsqr_pos_lt x Hx) as Hp. unfold Rsqr in Hp. lra.
  - pose proof (Rle_0_sqr x) as Hx. unfold Rsqr in Hx. lra.
Qed.

Lemma sum_squares_scale (l : list R) (n : R) :
  n <> 0 ->
  sum_squares (map (fun x => x / n) l) = sum_squares l / (n * n).
Proof.
  intro Hn. induction l as [|x l IH]; simpl.
  - unfold sum_squares. simpl. field. assumption.
  - rewrite !sum_squares_cons, IH. field. assumption.
Qed.

Lemma linalg_norm_real (v : list R) : linalg_norm v = sqrt (sum_squares v).
Proof. reflexivity. Qed.

(** In exact arithmetic a float is falsy exactly when it is zero. *)
Lemma truthy_real (x : R) : truthy x = false <-> x = 0.
Proof.
  simpl. destruct (Req_dec_T x 0); split; congruence.
Qed.

Lemma truthy_real_nonzero (x : R) : truthy x = true <-> x <> 0.
Proof.
  simpl. destruct (Req_dec_T x 0); split; congruence.
Qed.

(** A vector with a nonzero entry has a positive norm. *)
Lemma linalg_norm_pos (v : list R) :
  Exists (fun x => x <> 0) v -> 0 < linalg_norm v.
Proof.
  intro Hv. rewrite linalg_norm_real. apply sqrt_lt_R0. now apply sum_squares_pos.
Qed.

(** Normalising a vector with a nonzero entry gives a unit vector. *)
Lemma linalg_norm_normalize (v : list R) :
  Exists (fun x => x <> 0) v -> linalg_norm (normalize v) = 1.
Proof.
  intro Hv. pose proof (linalg_norm_pos v Hv) as Hpos.
  unfold normalize.
  replace (truthy (linalg_norm v)) with true
    by (symmetry; apply truthy_real_nonzero; lra).
  change (fun x : R => fdiv x (linalg_norm v)) with (fun x : R => x / linalg_norm v).
  rewrite linalg_norm_real, sum_squares_scale by lra.
  rewrite linalg_norm_real, sqrt_sqrt by apply sum_squares_nonneg.
  pose proof (sum_squares_pos v Hv).
  replace (sum_squares v / sum_squares v) with 1 by (field; lra).
  apply sqrt_1.
Qed.

(** In exact arithmetic the norm is zero for the zero vector only. *)
Lemma linalg_norm_zero_iff (v : list R) :
  linalg_norm v = 0 <-> Forall (fun x => x = 0) v.
Proof.
  split.
  - intro Hnorm. apply Forall_forall. intros x Hx.
    destruct (Req_dec_T x 0) as [Hz|Hnz]; [exact Hz|exfalso].
    assert (Hex : Exists (fun y => y <> 0) v) by (apply Exists_exists; now exists x).
    pose proof (linalg_norm_pos v Hex). lra.
  - intro Hall. rewrite linalg_norm_real.
    replace (sum_squares v) with 0; [apply sqrt_0|].
    induction Hall as [|x l Hx _ IH]; [reflexivity|].
    rewrite sum_squares_cons, <- IH, Hx. ring.
Qed.

End ExactNorm.

(** Single precision: what compares equal to zero is one of the two zeros. *)
Lemma float32_zero_cases (x : spec_float) :
  SFeqb x (S754_zero false) = true -> exists sign, x = S754_zero sign.
Proof.
  destruct x as [sign|sign| |sign m e]; try discriminate.
  - intros _. now exists sign.
  - destruct sign; discriminate.
  - destruct sign; discriminate.
Qed.

(** The single-precision norm of a vector of zeros is zero. *)
Lemma linalg_norm_float32_zeros (v : list spec_float) :
  Forall (fun x => SFeqb x (S754_zero false) = true) v ->
  linalg_norm v = S754_zero false.
Proof.
  intro Hall. unfold linalg_norm.
  assert (Hfold : fold_left (fun acc x => fadd acc (fmul x x)) v fzero
                  = S754_zero false).
  { induction Hall as [|x l Hx _ IH]; [reflexivity|].
    destruct (float32_zero_cases x Hx) as [sign ->].
    cbn [fold_left].
    replace (fadd fzero (fmul (S754_zero sign) (S754_zero sign)))
      with (fzero (F := spec_float)) by (destruct sign; reflexivity).
    exact IH. }
  rewrite Hfold. reflexivity.
Qed.

(** C4.  For a source embedding of length [text_dim >= 1] and a target
    [collection_dim >= 1] the builder returns a vector of length exactly
    [collection_dim]: the normalisation of a vector of that length whose
    element at [i] is the source element at [i mod text_dim], which is the
    prefix of the source when [collection_dim <= text_dim] and its cyclic
    tiling otherwise. *)
Theorem build_query_vector_length
    {F : Type} `{PyFloatOps F}
    (model : Model F) (collection_dim : Z) (query_text : string) :
  (1 <= length (embed model query_text))%nat ->
  1 <= collection_dim ->
  exists v,
    build_query_vector model collection_dim query_text = inr v /\
    length v = Z.to_nat collection_dim /\
    v = normalize (fuse collection_dim (embed model query_text)) /\
    length (fuse collection_dim (embed model query_text)) = Z.to_nat collection_dim /\
    (forall i : nat,
        (i < Z.to_nat collection_dim)%nat ->
        nth_error (fuse collection_dim (embed model query_text)) i
        = nth_error (embed model query_text)
            (i mod length (embed model query_text))) /\
    (collection_dim <= Z.of_nat (length (embed model query_text)) ->
     fuse collection_dim (embed model query_text)
     = firstn (Z.to_nat collection_dim) (embed model query_text)).
Proof.
  intros Htd Hcd.
  assert (Hne : embed model query_text <> []).
  { destruct (embed model query_text); [simpl in Htd; lia|congruence]. }
  exists (normalize (fuse collection_dim (embed model query_text))).
  split; [now apply build_query_vector_nonempty|].
  split; [rewrite length_normalize; apply fuse_length; [assumption|lia]|].
  split; [reflexivity|].
  split; [apply fuse_length; [assumption|lia]|].
  split.
  - intros i Hi. apply fuse_cyclic; [assumption|lia|assumption].
  - intro Hle. unfold fuse, slice_to.
    replace (collection_dim <=? Z.of_nat (length (embed model query_text))) with true
      by (symmetry; now apply Z.leb_le).
    replace (collection_dim <? 0) with false by (symmetry; apply Z.ltb_ge; lia).
    reflexivity.
Qed.

(** A two-element embedding tiled to five elements. *)
Lemma build_query_vector_length_witness :
  exists v,
    build_query_vector (constant_model [3; 4]%float) 5 "blue suit" = inr v /\
    length v = Z.to_nat 5 /\
    v = normalize (fuse 5 (embed (constant_model [3; 4]%float) "blue suit")) /\
    length (fuse 5 (embed (constant_model [3; 4]%float) "blue suit")) = Z.to_nat 5 /\
    (forall i : nat,
        (i < Z.to_nat 5)%nat ->
        nth_error (fuse 5 (embed (constant_model [3; 4]%float) "blue suit")) i
        = nth_error (embed (constant_model [3; 4]%float) "blue suit")
            (i mod length (embed (constant_model [3; 4]%float) "blue suit"))) /\
    (5 <= Z.of_nat (length (embed (constant_model [3; 4]%float) "blue suit")) ->
     fuse 5 (embed (constant_model [3; 4]%float) "blue suit")
     = firstn (Z.to_nat 5) (embed (constant_model [3; 4]%float) "blue suit")).
Proof.
  apply (build_query_vector_length (constant_model [3; 4]%float) 5 "blue suit").
  - simpl. lia.
  - lia.
Defined.

(** C7.  With an empty source embedding the builder fails with the
    empty-embedding error, whatever the target dimension: the check comes
    before the reshaping and the normalisation. *)
Theorem build_query_vector_empty_embedding
    {F : Type} `{PyFloatOps F}
    (model : Model F) (collection_dim : Z) (query_text : string) :
  embed model query_text = [] ->
  build_query_vector model collection_dim query_text = inl EmptyEmbeddingError.
Proof.
  apply build_query_vector_empty.
Qed.

(** A model that returns no embedding at all. *)
Lemma build_query_vector_empty_embedding_witness :
  build_query_vector (constant_model (@nil float)) 768 "blue suit"
  = inl EmptyEmbeddingError.
Proof.
  apply (build_query_vector_empty_embedding (constant_model (@nil float)) 768 "blue suit").
  reflexivity.
Defined.

(** C6 fails on the code: with [collection_dim = 0] and a one-element
    embedding the builder returns the empty vector and raises nothing. *)
Lemma zero_dimension_returns_empty_vector :
  build_query_vector (constant_model [1%float]) 0 "blue suit" = inr [] /\
  build_query_vector (constant_model [1%R]) 0 "blue suit" = inr [] /\
  ~ (exists e, build_query_vector (constant_model [1%float]) 0 "blue suit" = inl e).
Proof.
  split; [reflexivity|]. split.
  - rewrite build_query_vector_nonempty by (simpl; congruence).
    unfold normalize. simpl. now destruct (Req_dec_T _ _).
  - intros [e He]. vm_compute in He. discriminate He.
Qed.

(** C6, amended.  With [collection_dim = 0] the builder raises no dimension
    error: for a non-empty source embedding it returns the empty vector, and
    for an empty one it fails with the empty-embedding error. *)
Theorem build_query_vector_zero_dimension
    {F : Type} `{PyFloatOps F} (model : Model F) (query_text : string) :
  (embed model query_text <> [] ->
   build_query_vector model 0 query_text = inr []) /\
  (embed model query_text = [] ->
   build_query_vector model 0 query_text = inl EmptyEmbeddingError).
Proof.
  split.
  - intro Hne. rewrite build_query_vector_nonempty by assumption.
    assert (Hf : fuse 0 (embed model query_text) = []).
    { apply length_zero_iff_nil.
      now rewrite fuse_length by (assumption || lia). }
    rewrite Hf. unfold normalize. simpl.
    now destruct (truthy _).
  - apply build_query_vector_empty.
Qed.

(** A two-element embedding and a store of dimension zero. *)
Lemma build_query_vector_zero_dimension_witness :
  build_query_vector (constant_model [3; 4]%float) 0 "blue suit" = inr [].
Proof.
  apply (proj1 (build_query_vector_zero_dimension
                  (constant_model [3; 4]%float) "blue suit")).
  simpl. discriminate.
Defined.




(** The guard of the normalisation, for any float arithmetic: a falsy norm
    leaves the vector as it is, a truthy norm divides every element. *)
Lemma build_query_vector_guard
    {F : Type} `{PyFloatOps F}
    (model : Model F) (collection_dim : Z) (query_text : string) :
  embed model query_text <> [] ->
  let fused := fuse collection_dim (embed model query_text) in
  (truthy (linalg_norm fused) = false ->
   build_query_vector model collection_dim query_text = inr fused) /\
  (truthy (linalg_norm fused) = true ->
   build_query_vector model collection_dim query_text
   = inr (map (fun x => fdiv x (linalg_norm fused)) fused)).
Proof.
  intros Hne fused.
  rewrite build_query_vector_nonempty by assumption.
  fold fused. unfold normalize.
  split; intros ->; reflexivity.
Qed.

(** C8 fails on the code.  The guard tests the norm as it is computed, in
    single precision.  The entries of [2^-80, 2^-80] are not zero and the
    vector has a Euclidean norm strictly between 0 and 1, but the squares
    underflow: the computed norm is zero and the builder returns the vector
    as it is, with no element divided. *)
Lemma zero_norm_guard_fails_on_underflow :
  float32_pow2 (-80) = S754_finite false 8388608 (-103) /\
  SFeqb (float32_pow2 (-80)) (S754_zero false) = false /\
  (0 < linalg_norm [/ 2 ^ 80; / 2 ^ 80] < 1)%R /\
  linalg_norm [float32_pow2 (-80); float32_pow2 (-80)] = S754_zero false /\
  build_query_vector (constant_model [float32_pow2 (-80); float32_pow2 (-80)]) 2
    "blue suit"
  = inr [float32_pow2 (-80); float32_pow2 (-80)].
Proof.
  split; [reflexivity|]. split; [reflexivity|].
  split; [|split; vm_compute; reflexivity].
  assert (Hpow : (2 <= 2 ^ 80)%R).
  { change 80%nat with (1 + 79)%nat. rewrite pow_add, pow_1.
    pose proof (pow_R1_Rle 2 79 ltac:(lra)). nra. }
  assert (Hx : (0 < / 2 ^ 80 <= / 2)%R).
  { split; [apply Rinv_0_lt_compat; lra|apply Rinv_le_contravar; lra]. }
  split.
  - apply linalg_norm_pos. apply Exists_cons_hd. lra.
  - rewrite linalg_norm_real, !sum_squares_cons.
    replace (sum_squares []) with 0%R by reflexivity.
    rewrite <- sqrt_1. apply sqrt_lt_1_alt. nra.
Qed.

(** C8, amended.  For a non-empty source embedding, with [norm] the norm as
    the code computes it (the square root of the sum of the squares, in the
    arithmetic of the array): when [norm] is falsy the builder returns the
    truncated or tiled intermediate vector unchanged, and when it is truthy,
    an infinity or a NaN included, it returns every element divided by
    [norm].  In exact arithmetic that is the claim as it stands: the zero
    vector is returned unchanged and any other vector is divided by its
    Euclidean norm.  In single precision a vector of zeros, of either sign,
    is returned unchanged. *)
Theorem build_query_vector_zero_norm_guard :
  (forall (F : Type) (ops : PyFloatOps F)
          (model : Model F) (collection_dim : Z) (query_text : string),
      embed model query_text <> [] ->
      let fused := fuse collection_dim (embed model query_text) in
      let norm := fsqrt (fold_left (fun acc x => fadd acc (fmul x x)) fused fzero) in
      (truthy norm = false ->
       build_query_vector model collection_dim query_text = inr fused) /\
      (truthy norm = true ->
       build_query_vector model collection_dim query_text
       = inr (map (fun x => fdiv x norm) fused))) /\
  (forall (model : Model R) (collection_dim : Z) (query_text : string),
      embed model query_text <> [] ->
      let fused := fuse collection_dim (embed model query_text) in
      (Forall (fun x => x = 0%R) fused ->
       build_query_vector model collection_dim query_text = inr fused) /\
      (Exists (fun x => x <> 0%R) fused ->
       build_query_vector model collection_dim query_text
       = inr (map (fun x => (x / sqrt (sum_squares fused))%R) fused))) /\
  (forall (model : Model spec_float) (collection_dim : Z) (query_text : string),
      embed model query_text <> [] ->
      Forall (fun x => SFeqb x (S754_zero false) = true)
             (fuse collection_dim (embed model query_text)) ->
      build_query_vector model collection_dim query_text
      = inr (fuse collection_dim (embed model query_text))).
Proof.
  split; [|split].
  - intros F ops model collection_dim query_text Hne.
    exact (build_query_vector_guard model collection_dim query_text Hne).
  - intros model collection_dim query_text Hne fused.
    destruct (build_query_vector_guard model collection_dim query_text Hne)
      as [Hzero Hnonzero].
    fold fused in Hzero, Hnonzero. split.
    + intro Hall. apply Hzero. apply truthy_real. now apply linalg_norm_zero_iff.
    + intro Hex. rewrite Hnonzero; [reflexivity|].
      apply truthy_real_nonzero. pose proof (linalg_norm_pos fused Hex). lra.
  - intros model collection_dim query_text Hne Hall.
    destruct (build_query_vector_guard model collection_dim query_text Hne)
      as [Hzero _].
    apply Hzero. now rewrite linalg_norm_float32_zeros.
Qed.

(** An embedding that starts with the two zeros of single precision,
    truncated to two elements. *)
Lemma build_query_vector_zero_norm_guard_witness :
  build_query_vector
    (constant_model [S754_zero false; S754_zero true; float32_of_Z 5]) 2 "blue suit"
  = inr (fuse 2 (embed (constant_model [S754_zero false; S754_zero true; float32_of_Z 5])
                   "blue suit")).
Proof.
  apply (proj2 (proj2 build_query_vector_zero_norm_guard)
           (constant_model [S754_zero false; S754_zero true; float32_of_Z 5])
           2 "blue suit").
  - simpl. discriminate.
  - repeat constructor.
Defined.

(** C9.  The worked examples: source [1,2,3] and target 7 give [1,2,3,1,2,3,1]
    before normalisation, source [1,2,3,4,5] and target 2 give [1,2]; the
    builder returns each divided by its norm, the square roots of 29 and 5. *)
Theorem build_query_vector_worked_examples :
  length [1; 2; 3]%R = 3%nat /\
  fuse 7 [1; 2; 3]%R = [1; 2; 3; 1; 2; 3; 1]%R /\
  build_query_vector (constant_model [1; 2; 3]%R) 7 "blue suit"
  = inr (map (fun x => x / sqrt 29)%R [1; 2; 3; 1; 2; 3; 1]%R) /\
  length [1; 2; 3; 4; 5]%R = 5%nat /\
  fuse 2 [1; 2; 3; 4; 5]%R = [1; 2]%R /\
  build_query_vector (constant_model [1; 2; 3; 4; 5]%R) 2 "blue suit"
  = inr (map (fun x => x / sqrt 5)%R [1; 2]%R).
Proof.
  assert (H29 : linalg_norm [1; 2; 3; 1; 2; 3; 1]%R = sqrt 29).
  { rewrite linalg_norm_real, !sum_squares_cons. f_equal.
    unfold sum_squares. simpl. ring. }
  assert (H5 : linalg_norm [1; 2]%R = sqrt 5).
  { rewrite linalg_norm_real, !sum_squares_cons. f_equal.
    unfold sum_squares. simpl. ring. }
  repeat split.
  - rewrite build_query_vector_nonempty by (simpl; discriminate).
    change (fuse 7 (embed (constant_model [1; 2; 3]%R) "blue suit"))
      with [1; 2; 3; 1; 2; 3; 1]%R.
    unfold normalize. rewrite H29.
    replace (truthy (sqrt 29)) with true; [reflexivity|].
    symmetry. apply truthy_real_nonzero.
    pose proof (sqrt_lt_R0 29 ltac:(lra)). lra.
  - rewrite build_query_vector_nonempty by (simpl; discriminate).
    change (fuse 2 (embed (constant_model [1; 2; 3; 4; 5]%R) "blue suit"))
      with [1; 2]%R.
    unfold normalize. rewrite H5.
    replace (truthy (sqrt 5)) with true; [reflexivity|].
    symmetry. apply truthy_real_nonzero.
    pose proof (sqrt_lt_R0 5 ltac:(lra)). lra.
Qed.

(** * Further properties of the retry decorator *)

Section RetryLoop.
Context {F W : Type} `{PyFloatOps F} `{PyRuntime F W} {A : Type}.
Implicit Types (func : W -> outcome A * W) (s : state F W).

(** The loop stops at the first outcome that ends it, or at the last attempt:
    after [k] attempts that are retried, the [k+1]-th call decides, with [k]
    sleeps in between. *)
Lemma wrapper_loop_stops n ib func (k j m : nat) s :
  Z.of_nat (j + k + S m) = n ->
  (forall i, (i < k)%nat ->
     exists e, fst (func (world_from ib func j i (world s))) = Raises e /\
               is_RequestException e = true) ->
  (forall i, (i < k)%nat ->
     backoff_error ib (Z.of_nat (j + i))
       (snd (func (world_from ib func j i (world s)))) = None) ->
  ends_loop (fst (func (world_from ib func j k (world s)))) = true \/ m = O ->
  let r := wrapper_loop n ib func (map Z.of_nat (seq j (k + S m))) s in
  fst r = to_result (fst (func (world_from ib func j k (world s)))) /\
  world (snd r) = snd (func (world_from ib func j k (world s))) /\
  calls (log (snd r)) = (calls (log s) + S k)%nat /\
  sleeps (log (snd r))
  = sleeps (log s) ++ map (sleep_time ib) (map Z.of_nat (seq j k)) /\
  (exists l, log (snd r) = l ++ [Call]).
Proof.
  revert j s. induction k as [|k IH]; intros j s Hn Hfail Hok Hend r; subst r.
  - cbn [Nat.add seq map wrapper_loop world_from] in *.
    destruct (func (world s)) as [o w] eqn:Ef. cbn [fst snd] in *.
    assert (Hc : calls (log s ++ [@Call F]) = (calls (log s) + 1)%nat)
      by (rewrite calls_app; reflexivity).
    assert (Hs : sleeps (log s ++ [@Call F]) = sleeps (log s) ++ [])
      by (rewrite sleeps_app; reflexivity).
    destruct o as [a|e]; cbn [ends_loop negb] in Hend.
    + cbn. repeat split; try assumption. now exists (log s).
    + destruct (is_RequestException e) eqn:Hreq.
      * destruct Hend as [Hend|Hm]; [discriminate Hend|]. subst m.
        replace (Z.of_nat j <? n - 1) with false by (symmetry; apply Z.ltb_ge; lia).
        cbn. repeat split; try assumption. now exists (log s).
      * cbn. repeat split; try assumption. now exists (log s).
  - destruct (Hfail O ltac:(lia)) as (e & He & Hreq).
    pose proof (Hok O ltac:(lia)) as Hok0.
    cbn [world_from] in He, Hok0. rewrite Nat.add_0_r in Hok0.
    change (seq j (S k + S m)) with (j :: seq (S j) (k + S m)).
    cbn [map wrapper_loop].
    change (world_from ib func j (S k) (world s))
      with (world_from ib func (S j) k
              (snd (time_sleep (sleep_time ib (Z.of_nat j)) (snd (func (world s)))))) in *.
    destruct (func (world s)) as [o w] eqn:Ef. cbn [fst snd] in *. subst o.
    rewrite Hreq.
    replace (Z.of_nat j <? n - 1) with true by (symmetry; apply Z.ltb_lt; lia).
    destruct (backoff_error_none ib (Z.of_nat j) w Hok0) as [-> Hsleep].
    set (d := sleep_time ib (Z.of_nat j)) in *. rewrite Hsleep.
    set (w' := snd (time_sleep d w)) in *.
    set (s3 := emit (Sleep d) _).
    destruct (retry_step_log s w w' (Z.of_nat j + 1) n e d) as (Hw3 & Hc3 & Hs3 & _).
    fold s3 in Hw3, Hc3, Hs3.
    destruct (IH (S j) s3) as (H1 & H2 & H3 & H4 & H5).
    + lia.
    + intros i Hi. rewrite Hw3.
      destruct (Hfail (S i) ltac:(lia)) as (e' & He' & Hreq').
      cbn [world_from] in He'. rewrite Ef in He'. cbn [snd] in He'.
      now exists e'.
    + intros i Hi. rewrite Hw3. specialize (Hok (S i) ltac:(lia)).
      cbn [world_from] in Hok. rewrite Ef in Hok. cbn [snd] in Hok.
      now replace (S j + i)%nat with (j + S i)%nat by lia.
    + now rewrite Hw3.
    + rewrite Hw3 in H1, H2. rewrite Hc3 in H3. rewrite Hs3 in H4.
      split; [exact H1|]. split; [exact H2|].
      split; [rewrite H3; lia|].
      split; [|exact H5].
      rewrite H4, <- app_assoc. reflexivity.
Qed.

(** Some call among the first [bound + 1] decides: the first one whose outcome
    ends the loop, or the last one. *)
Lemma first_deciding_call ib func (bound : nat) (w : W) :
  exists k, (k <= bound)%nat /\
    (forall i, (i < k)%nat ->
       exists e, fst (func (world_from ib func 0 i w)) = Raises e /\
                 is_RequestException e = true) /\
    (ends_loop (fst (func (world_from ib func 0 k w))) = true \/ k = bound).
Proof.
  induction bound as [|p IH].
  - exists O. split; [lia|]. split; [intros i Hi; lia|now right].
  - destruct IH as (k & Hk & Hfail & [Hend|Hlast]).
    + exists k. split; [lia|]. split; [exact Hfail|now left].
    + subst k.
      destruct (ends_loop (fst (func (world_from ib func 0 p w)))) eqn:Hend.
      * exists p. split; [lia|]. split; [exact Hfail|now left].
      * exists (S p). split; [lia|]. split; [|now right].
        intros i Hi. destruct (Nat.eq_dec i p) as [->|Hne].
        -- destruct (fst (func (world_from ib func 0 p w))) as [a|e];
             [discriminate Hend|].
           exists e. split; [reflexivity|].
           cbn [ends_loop] in Hend. now apply negb_false_iff in Hend.
        -- apply Hfail. lia.
Qed.

(** A call of the wrapper with at least one attempt and a backoff that goes
    through, whatever the wrapped function does: some [k] retries, [k + 1]
    calls, and the outcome of the last call passed on. *)
Lemma retry_request_run n ib func (w : W) :
  1 <= n ->
  backoff_passes ib func (Z.to_nat (n - 1)) w ->
  exists k, (k < Z.to_nat n)%nat /\
    (forall i, (i < k)%nat ->
       exists e, fst (func (world_from ib func 0 i w)) = Raises e /\
                 is_RequestException e = true) /\
    (ends_loop (fst (func (world_from ib func 0 k w))) = true \/ S k = Z.to_nat n) /\
    fst (retry_request n ib func (init w))
    = to_result (fst (func (world_from ib func 0 k w))) /\
    world (snd (retry_request n ib func (init w)))
    = snd (func (world_from ib func 0 k w)) /\
    calls (log (snd (retry_request n ib func (init w)))) = S k /\
    sleeps (log (snd (retry_request n ib func (init w))))
    = map (sleep_time ib) (map Z.of_nat (seq 0 k)) /\
    (exists l, log (snd (retry_request n ib func (init w))) = l ++ [Call]).
Proof.
  intros Hn Hsleep.
  destruct (first_deciding_call ib func (Z.to_nat n - 1) w) as (k & Hk & Hfail & Hend).
  exists k. split; [lia|]. split; [exact Hfail|].
  split; [destruct Hend; [now left|right; lia]|].
  unfold retry_request, range.
  replace (Z.to_nat n) with (k + S (Z.to_nat n - 1 - k))%nat by lia.
  destruct (wrapper_loop_stops n ib func k O (Z.to_nat n - 1 - k) (init w))
    as (H1 & H2 & H3 & H4 & H5).
  - lia.
  - exact Hfail.
  - intros i Hi. apply Hsleep. lia.
  - destruct Hend; [now left|right; lia].
  - cbn [init world log calls sleeps app] in *.
    repeat split; assumption.
Qed.


End RetryLoop.

(** X1.  A call of the wrapper with [max_retries = n >= 1], whatever the
    wrapped function and [time.sleep] do: its calls and completed sleeps are,
    in order, a call, the sleep of attempt 0, a call, the sleep of attempt 1,
    and so on up to a last call.  So the function is called at least once and
    at most [n] times, there is exactly one sleep between two consecutive
    calls, and none after the last call. *)
Theorem retry_request_attempt_bounds
    {F W : Type} `{PyFloatOps F} `{PyRuntime F W} {A : Type}
    (n : Z) (ib : pynum F) (func : W -> outcome A * W) (w : W) :
  1 <= n ->
  exists k : nat,
    (k < Z.to_nat n)%nat /\
    calls_and_sleeps (log (snd (retry_request n ib func (init w))))
    = Call :: flat_map (fun i => [Sleep (sleep_time ib (Z.of_nat i)); Call]) (seq 0 k) /\
    calls (log (snd (retry_request n ib func (init w)))) = S k /\
    length (sleeps (log (snd (retry_request n ib func (init w))))) = k.
Proof.
  intro Hn.
  destruct (retry_request_shape n ib func (init w) Hn) as (k & Hk & Hlog & Hc & Hs).
  exists k. split; [exact Hk|]. split; [exact Hlog|]. split; [exact Hc|].
  rewrite Hs. cbn [init log sleeps app]. now rewrite !length_map, length_seq.
Qed.

(** Three attempts on a server that answers at the second. *)
Lemma retry_request_attempt_bounds_witness :
  exists k : nat,
    (k < Z.to_nat 3)%nat /\
    calls_and_sleeps (log (snd (retry_request (F := float) 3 INITIAL_BACKOFF
                                  (flaky_server 1 tt) (init O))))
    = Call :: flat_map (fun i => [Sleep (sleep_time INITIAL_BACKOFF (Z.of_nat i)); Call])
                       (seq 0 k) /\
    calls (log (snd (retry_request (F := float) 3 INITIAL_BACKOFF
                       (flaky_server 1 tt) (init O)))) = S k /\
    length (sleeps (log (snd (retry_request (F := float) 3 INITIAL_BACKOFF
                                (flaky_server 1 tt) (init O))))) = k.
Proof.
  apply (retry_request_attempt_bounds (F := float) 3 INITIAL_BACKOFF
           (flaky_server 1 tt) O).
  lia.
Defined.

(** X2.  With at least one attempt and a backoff that goes through at the
    attempts [0 .. n-2], the wrapper passes on the outcome of the last call it
    made, unchanged: the value that call returned or the exception it raised.
    It never returns [None] of its own, and the world is the one that last
    call left. *)
Theorem retry_request_passes_last_outcome
    {F W : Type} `{PyFloatOps F} `{PyRuntime F W} {A : Type}
    (n : Z) (ib : pynum F) (func : W -> outcome A * W) (w : W) :
  1 <= n ->
  backoff_passes ib func (Z.to_nat (n - 1)) w ->
  fst (retry_request n ib func (init w))
  = to_result (fst (func (world_from ib func 0
       (calls (log (snd (retry_request n ib func (init w)))) - 1) w))) /\
  world (snd (retry_request n ib func (init w)))
  = snd (func (world_from ib func 0
       (calls (log (snd (retry_request n ib func (init w)))) - 1) w)) /\
  fst (retry_request n ib func (init w)) <> ReturnNone.
Proof.
  intros Hn Hsleep.
  destruct (retry_request_run n ib func w Hn Hsleep)
    as (k & Hk & _ & _ & Hr & Hw & Hc & _ & _).
  rewrite Hc, Hr, Hw. replace (S k - 1)%nat with k by lia.
  repeat split.
  destruct (fst (func (world_from ib func 0 k w))); discriminate.
Qed.

(** Three attempts on a server that answers at the second. *)
Lemma retry_request_passes_last_outcome_witness :
  fst (retry_request (F := float) 3 INITIAL_BACKOFF (flaky_server 1 tt) (init O))
  = to_result (fst (flaky_server 1 tt
       (world_from (F := float) INITIAL_BACKOFF (flaky_server 1 tt) 0
          (calls (log (snd (retry_request (F := float) 3 INITIAL_BACKOFF
                              (flaky_server 1 tt) (init O)))) - 1) O))) /\
  world (snd (retry_request (F := float) 3 INITIAL_BACKOFF (flaky_server 1 tt) (init O)))
  = snd (flaky_server 1 tt
       (world_from (F := float) INITIAL_BACKOFF (flaky_server 1 tt) 0
          (calls (log (snd (retry_request (F := float) 3 INITIAL_BACKOFF
                              (flaky_server 1 tt) (init O)))) - 1) O)) /\
  fst (retry_request (F := float) 3 INITIAL_BACKOFF (flaky_server 1 tt) (init O))
  <> ReturnNone.
Proof.
  apply (retry_request_passes_last_outcome (F := float) 3 INITIAL_BACKOFF
           (flaky_server 1 tt) O).
  - lia.
  - intros i Hi. destruct i as [|[|i]]; [reflexivity|reflexivity|simpl in Hi; lia].
Defined.

(** X3.  Recovery: when the first [k] attempts are retried, with
    [k < max_retries] (each of these calls raises a [RequestException] and the
    backoff after it goes through), and the next call returns a value, the
    wrapper returns that value after [k + 1] calls and [k] sleeps, the
    backoff delays of those attempts. *)
Theorem retry_request_recovers
    {F W : Type} `{PyFloatOps F} `{PyRuntime F W} {A : Type}
    (n : Z) (ib : pynum F) (func : W -> outcome A * W) (w : W) (k : nat) (a : A) :
  Z.of_nat k < n ->
  (forall i, (i < k)%nat ->
     exists e, fst (func (world_from ib func 0 i w)) = Raises e /\
               is_RequestException e = true) ->
  backoff_passes ib func k w ->
  fst (func (world_from ib func 0 k w)) = Returns a ->
  fst (retry_request n ib func (init w)) = Return a /\
  calls (log (snd (retry_request n ib func (init w)))) = S k /\
  sleeps (log (snd (retry_request n ib func (init w))))
  = map (sleep_time ib) (map Z.of_nat (seq 0 k)).
Proof.
  intros Hk Hfail Hsleep Hret.
  unfold retry_request, range.
  replace (Z.to_nat n) with (k + S (Z.to_nat n - 1 - k))%nat by lia.
  destruct (wrapper_loop_stops n ib func k O (Z.to_nat n - 1 - k) (init w))
    as (H1 & _ & H3 & H4 & _).
  - lia.
  - exact Hfail.
  - exact Hsleep.
  - left. cbn [init world]. now rewrite Hret.
  - cbn [init world log] in *. rewrite Hret in H1.
    repeat split; assumption.
Qed.

(** Two timeouts and then an answer, within four attempts. *)
Lemma retry_request_recovers_witness :
  fst (retry_request (F := float) 4 INITIAL_BACKOFF (flaky_server 2 7) (init O))
  = Return 7 /\
  calls (log (snd (retry_request (F := float) 4 INITIAL_BACKOFF
                     (flaky_server 2 7) (init O)))) = 3%nat /\
  sleeps (log (snd (retry_request (F := float) 4 INITIAL_BACKOFF
                      (flaky_server 2 7) (init O))))
  = map (sleep_time INITIAL_BACKOFF) (map Z.of_nat (seq 0 2)).
Proof.
  apply (retry_request_recovers (F := float) 4 INITIAL_BACKOFF (flaky_server 2 7) O 2 7).
  - lia.
  - intros i Hi. exists Timeout.
    destruct i as [|[|i]]; [split; reflexivity|split; reflexivity|lia].
  - intros i Hi. destruct i as [|[|i]]; [reflexivity|reflexivity|lia].
  - reflexivity.
Defined.

(** X4.  An exception outside [RequestException] is never retried: when it
    follows [k] attempts that were retried, with [k < max_retries], it leaves
    the wrapper at once, after [k + 1] calls and with no further sleep. *)
Theorem retry_request_foreign_exception
    {F W : Type} `{PyFloatOps F} `{PyRuntime F W} {A : Type}
    (n : Z) (ib : pynum F) (func : W -> outcome A * W) (w : W) (k : nat) (e : exn) :
  Z.of_nat k < n ->
  (forall i, (i < k)%nat ->
     exists e', fst (func (world_from ib func 0 i w)) = Raises e' /\
                is_RequestException e' = true) ->
  backoff_passes ib func k w ->
  fst (func (world_from ib func 0 k w)) = Raises e ->
  is_RequestException e = false ->
  fst (retry_request n ib func (init w)) = Raise e /\
  calls (log (snd (retry_request n ib func (init w)))) = S k /\
  length (sleeps (log (snd (retry_request n ib func (init w))))) = k.
Proof.
  intros Hk Hfail Hsleep Hraise Hforeign.
  unfold retry_request, range.
  replace (Z.to_nat n) with (k + S (Z.to_nat n - 1 - k))%nat by lia.
  destruct (wrapper_loop_stops n ib func k O (Z.to_nat n - 1 - k) (init w))
    as (H1 & _ & H3 & H4 & _).
  - lia.
  - exact Hfail.
  - exact Hsleep.
  - left. cbn [init world]. rewrite Hraise. cbn. now rewrite Hforeign.
  - cbn [init world log] in *. rewrite Hraise in H1. rewrite H4.
    repeat split; try assumption.
    cbn. now rewrite !length_map, length_seq.
Qed.

(** A timeout and then a [KeyError], within three attempts. *)
Lemma retry_request_foreign_exception_witness :
  fst (retry_request (F := float) 3 INITIAL_BACKOFF
         (broken_server 1 "KeyError") (init O))
  = Raise (OtherException "KeyError") /\
  calls (log (snd (retry_request (F := float) 3 INITIAL_BACKOFF
                     (broken_server 1 "KeyError") (init O)))) = 2%nat /\
  length (sleeps (log (snd (retry_request (F := float) 3 INITIAL_BACKOFF
                              (broken_server 1 "KeyError") (init O))))) = 1%nat.
Proof.
  apply (retry_request_foreign_exception (F := float) 3 INITIAL_BACKOFF
           (broken_server 1 "KeyError") O 1 (OtherException "KeyError")).
  - lia.
  - intros i Hi. exists Timeout.
    destruct i as [|i]; [split; reflexivity|lia].
  - intros i Hi. destruct i as [|i]; [reflexivity|lia].
  - reflexivity.
  - reflexivity.
Defined.

Section BackoffBudget.
Local Open Scope R_scope.

Lemma total_sleep_app (l1 l2 : list (pynum R)) :
  total_sleep (l1 ++ l2) = total_sleep l1 + total_sleep l2.
Proof.
  induction l1 as [|d l1 IH]; simpl; [ring|]. rewrite IH. ring.
Qed.

(** The sum of the first [m] backoff delays. *)
Lemma total_sleep_delays (ib : pynum R) (m : nat) :
  total_sleep (map (sleep_time ib) (map Z.of_nat (seq 0 m)))
  = to_float ib * (2 ^ m - 1) + 1 / 10 * (INR m * (INR m - 1) / 2).
Proof.
  induction m as [|m IH].
  - simpl. field.
  - rewrite seq_S, !map_app, total_sleep_app, IH. cbn [Nat.add map].
    rewrite sleep_time_real, S_INR. cbn [total_sleep fold_right to_float pow].
    field.
Qed.

(** With a non-negative initial backoff a longer run sleeps longer. *)
Lemma backoff_budget_monotone (a : R) (k m : nat) :
  0 <= a -> (k <= m)%nat ->
  a * (2 ^ k - 1) + 1 / 10 * (INR k * (INR k - 1) / 2)
  <= a * (2 ^ m - 1) + 1 / 10 * (INR m * (INR m - 1) / 2).
Proof.
  intros Ha Hkm.
  assert (Hpow : 2 ^ k <= 2 ^ m) by (apply Rle_pow; [lra|exact Hkm]).
  assert (Hk : 0 <= INR k) by apply pos_INR.
  assert (Hle : INR k <= INR m) by now apply le_INR.
  assert (H1 : a * (2 ^ k - 1) <= a * (2 ^ m - 1))
    by (apply Rmult_le_compat_l; lra).
  assert (H2 : INR k * INR k <= INR m * INR m)
    by (apply Rmult_le_compat; lra).
  destruct (Nat.eq_dec k m) as [->|Hne]; [lra|].
  assert (Hlt : INR k + 1 <= INR m).
  { rewrite <- S_INR. apply le_INR. lia. }
  nra.
Qed.

End BackoffBudget.



(** X6.  With a non-negative initial backoff every sleep of a call of the
    wrapper lasts at least the initial backoff, and the sleeps grow strictly
    from one retry to the next, in exact arithmetic. *)
Theorem backoff_delays_increase
    {W A : Type} (n : Z) (ib : pynum R) (func : W -> outcome A * W) (w : W) :
  (0 <= to_float ib)%R ->
  (forall (i : nat) (d : pynum R),
      nth_error (sleeps (log (snd (retry_request n ib func (init w))))) i = Some d ->
      exists x : R, d = PyFloat x /\ (to_float ib <= x)%R) /\
  (forall (i j : nat) (x y : R),
      (i < j)%nat ->
      nth_error (sleeps (log (snd (retry_request n ib func (init w))))) i
      = Some (PyFloat x) ->
      nth_error (sleeps (log (snd (retry_request n ib func (init w))))) j
      = Some (PyFloat y) ->
      (x < y)%R).
Proof.
  intro Hib. split.
  - intros i d Hd. apply retry_request_sleeps in Hd.
    rewrite sleep_time_real in Hd. subst d. eexists. split; [reflexivity|].
    assert (H1 : (1 <= 2 ^ i)%R) by (apply pow_R1_Rle; lra).
    pose proof (pos_INR i). nra.
  - intros i j x y Hij Hx Hy.
    apply retry_request_sleeps in Hx. apply retry_request_sleeps in Hy.
    rewrite sleep_time_real in Hx, Hy.
    injection Hx as ->. injection Hy as ->.
    assert (Hpow : (2 ^ i <= 2 ^ j)%R) by (apply Rle_pow; [lra|lia]).
    assert (Hlt : (INR i < INR j)%R) by now apply lt_INR.
    nra.
Qed.

(** Two attempts on a connection that always fails: the single sleep lasts
    two seconds, the initial backoff. *)
Lemma backoff_delays_increase_witness :
  exists x : R, PyFloat (2 * 2 ^ 0 + 1 / 10 * INR 0)%R = PyFloat x /\
                (to_float (F := R) (PyInt 2) <= x)%R.
Proof.
  apply (proj1 (backoff_delays_increase 2 (PyInt 2) unreachable_server tt
                  ltac:(simpl; lra)) O).
  destruct (wrapper_loop_exhausts (F := R) 2 (PyInt 2) unreachable_server
              1 O (init tt)) as (e & _ & _ & _ & _ & Hs).
  - reflexivity.
  - intros i _. exists ConnectionError. split; reflexivity.
  - intros i Hi. apply (real_backoff_passes (PyInt 2) (S i)); [simpl; lra|lia].
  - unfold retry_request, range. change (Z.to_nat 2) with 2%nat. rewrite Hs.
    cbn [init log sleeps app seq map nth_error].
    now rewrite (sleep_time_real (PyInt 2) 0).
Defined.

(** * Properties of the decorated fetchers *)

(** The default policy in exact arithmetic: at most three calls and at most
    2 + 4.1 seconds of sleep, whatever the wrapped function does. *)
Lemma default_policy_worst_case
    {W A : Type} (func : W -> outcome A * W) (w : W) :
  (calls (log (snd (retry_request (F := R) MAX_RETRIES INITIAL_BACKOFF func (init w))))
   <= 3)%nat /\
  (total_sleep (sleeps (log (snd (retry_request (F := R) MAX_RETRIES INITIAL_BACKOFF
                                    func (init w)))))
   <= 61 / 10)%R.
Proof.
  destruct (retry_request_shape (F := R) MAX_RETRIES INITIAL_BACKOFF func (init w)
              ltac:(unfold MAX_RETRIES; lia))
    as (k & Hk & _ & Hc & Hs).
  rewrite Hc, Hs. cbn [init log calls sleeps app]. rewrite total_sleep_delays.
  change (Z.to_nat MAX_RETRIES) with 3%nat in Hk.
  split; [cbn; lia|].
  change (to_float (F := R) INITIAL_BACKOFF) with 2%R.
  pose proof (backoff_budget_monotone 2%R k 2 ltac:(lra) ltac:(lia)) as Hb.
  simpl in Hb. lra.
Qed.

(** X7.  Each of the three decorated fetchers ([fetch_sitemap_content],
    [fetch_product_details_from_api], [download_image_content]) calls
    [requests.get] at most three times per call and sleeps at most 6.1
    seconds in all (exact arithmetic), whatever the server answers. *)
Theorem decorated_fetchers_worst_case
    {W J : Type}
    (requests_get : string -> W -> (response + exn) * W)
    (json_decode : string -> option J)
    (handle image_url : string) (w : W) :
  ((calls (log (snd (fetch_sitemap_content (F := R) requests_get (init w)))) <= 3)%nat /\
   (total_sleep (sleeps (log (snd (fetch_sitemap_content (F := R) requests_get (init w)))))
    <= 61 / 10)%R) /\
  ((calls (log (snd (fetch_product_details_from_api (F := R) requests_get json_decode
                       handle (init w)))) <= 3)%nat /\
   (total_sleep (sleeps (log (snd (fetch_product_details_from_api (F := R) requests_get
                                     json_decode handle (init w)))))
    <= 61 / 10)%R) /\
  ((calls (log (snd (download_image_content (F := R) requests_get image_url (init w))))
    <= 3)%nat /\
   (total_sleep (sleeps (log (snd (download_image_content (F := R) requests_get
                                     image_url (init w)))))
    <= 61 / 10)%R).
Proof.
  unfold fetch_sitemap_content, fetch_product_details_from_api, download_image_content.
  repeat split; apply default_policy_worst_case.
Qed.

(** * Properties of the product handle *)

Import Ascii.

Section SplitFacts.
Local Open Scope string_scope.

Lemma append_assoc_string (a b c : string) : (a ++ b) ++ c = a ++ (b ++ c).
Proof.
  induction a as [|x a IH]; simpl; [reflexivity|]. now rewrite IH.
Qed.

Lemma append_empty_r (a : string) : a ++ "" = a.
Proof.
  induction a as [|x a IH]; simpl; [reflexivity|]. now rewrite IH.
Qed.

Lemma prefix_empty (s : string) : prefix "" s = true.
Proof. destruct s; reflexivity. Qed.

(** A split always gives at least one field. *)
Lemma split_from_nonempty (sep : string) (s : string) (k : nat) (cur : string) :
  (1 <= length (split_from sep k cur s))%nat.
Proof.
  revert k cur. induction s as [|c s IH]; intros k cur; cbn [split_from length];
    [lia|].
  destruct k as [|k]; [|apply IH].
  destruct (prefix sep (String c s)); [cbn [length]; lia|apply IH].
Qed.

(** A separator that occurs is found: the split has a second field. *)
Lemma split_from_contains (sep : string) (s cur : string) :
  sep <> "" ->
  contains sep s = true ->
  (2 <= length (split_from sep 0 cur s))%nat.
Proof.
  intros Hsep. revert cur. induction s as [|c s IH]; intros cur Hin.
  - destruct sep; [congruence|]. simpl in Hin. discriminate Hin.
  - cbn [contains] in Hin. cbn [split_from].
    destruct (prefix sep (String c s)).
    + pose proof (split_from_nonempty sep s (String.length sep - 1) "").
      cbn [length]. lia.
    + simpl in Hin. now apply IH.
Qed.

(** Membership of one byte. *)
Lemma contains_char_cons (q c : Ascii.ascii) (s : string) :
  contains (String q "") (String c s)
  = (if Ascii.ascii_dec q c then true else contains (String q "") s).
Proof.
  cbn [contains prefix]. destruct (Ascii.ascii_dec q c); [|reflexivity].
  destruct s; reflexivity.
Qed.

Lemma contains_char_app (q : Ascii.ascii) (a b : string) :
  contains (String q "") (a ++ b)
  = contains (String q "") a || contains (String q "") b.
Proof.
  induction a as [|c a IH].
  - simpl. reflexivity.
  - change (String c a ++ b) with (String c (a ++ b)).
    rewrite !contains_char_cons. destruct (Ascii.ascii_dec q c); [reflexivity|exact IH].
Qed.

Lemma prefix_first_byte (q : Ascii.ascii) (sep' : string) (c : Ascii.ascii) (s : string) :
  q <> c -> prefix (String q sep') (String c s) = false.
Proof.
  intro Hne. simpl. destruct (Ascii.ascii_dec q c); [contradiction|reflexivity].
Qed.

(** Bytes other than the first byte of the separator join the current field. *)
Lemma split_from_skip_field (q : Ascii.ascii) (sep' a : string) (cur s : string) :
  contains (String q "") a = false ->
  split_from (String q sep') 0 cur (a ++ s)
  = split_from (String q sep') 0 (cur ++ a) s.
Proof.
  revert cur. induction a as [|c a IH]; intros cur Hno.
  - simpl. now rewrite append_empty_r.
  - rewrite contains_char_cons in Hno.
    destruct (Ascii.ascii_dec q c) as [|Hne]; [discriminate Hno|].
    change (String c a ++ s) with (String c (a ++ s)).
    cbn [split_from]. rewrite prefix_first_byte by assumption.
    rewrite IH by assumption.
    now rewrite append_assoc_string.
Qed.

(** The first field starts with what was read before. *)
Lemma split_from_first_field (sep : string) (s : string) (k : nat) (cur : string) :
  exists t, nth_error (split_from sep k cur s) 0 = Some (cur ++ t).
Proof.
  revert k cur. induction s as [|c s IH]; intros k cur.
  - exists "". simpl. now rewrite append_empty_r.
  - cbn [split_from]. destruct k as [|k]; [|apply IH].
    destruct (prefix sep (String c s)).
    + exists "". simpl. now rewrite append_empty_r.
    + destruct (IH O (cur ++ String c "")) as [t Ht].
      exists (String c t). rewrite Ht. f_equal.
      now rewrite append_assoc_string.
Qed.

(** The first field of a split on one byte does not hold that byte. *)
Lemma split_char_first_field (q : Ascii.ascii) (s cur h : string) :
  contains (String q "") cur = false ->
  nth_error (split_from (String q "") 0 cur s) 0 = Some h ->
  contains (String q "") h = false.
Proof.
  revert cur. induction s as [|c s IH]; intros cur Hcur Hh.
  - simpl in Hh. now injection Hh as <-.
  - cbn [split_from] in Hh.
    destruct (Ascii.ascii_dec q c) as [->|Hne].
    + replace (prefix (String c "") (String c s)) with true in Hh.
      * simpl in Hh. now injection Hh as <-.
      * simpl. destruct (Ascii.ascii_dec c c); [|contradiction].
        destruct s; reflexivity.
    + rewrite prefix_first_byte in Hh by assumption.
      apply IH in Hh; [exact Hh|].
      rewrite contains_char_app, Hcur, contains_char_cons.
      destruct (Ascii.ascii_dec q c); [contradiction|reflexivity].
Qed.

(** A split on one byte cuts at that byte. *)
Lemma split_char_cut (q : Ascii.ascii) (cur s : string) :
  split_from (String q "") 0 cur (String q s)
  = cur :: split_from (String q "") 0 "" s.
Proof.
  cbn [split_from prefix]. destruct (Ascii.ascii_dec q q); [|contradiction].
  now rewrite prefix_empty.
Qed.

End SplitFacts.

(** X8.  The [except IndexError] of the handle extraction never fires: a
    URL is either passed over for lacking ["/products/"] or yields a handle,
    and the handle holds no ['?']. *)
Theorem product_handle_never_index_error (url : string) :
  product_handle_of url <> CaughtIndexError /\
  (product_handle_of url = NotAProductUrl <-> contains "/products/" url = false) /\
  (forall h, product_handle_of url = Handle h -> contains "?" h = false).
Proof.
  unfold product_handle_of, py_split.
  destruct (contains "/products/" url) eqn:Hin; cbn [negb].
  - pose proof (split_from_contains "/products/" url "" ltac:(discriminate) Hin) as Hlen.
    destruct (split_from "/products/" 0 "" url) as [|f0 [|after fields]] eqn:Hsplit;
      [simpl in Hlen; lia|simpl in Hlen; lia|].
    change (nth_error (f0 :: after :: fields) 1) with (Some after).
    cbv beta iota.
    destruct (split_from_first_field "?" after 0 "") as [t Ht].
    rewrite Ht. split; [discriminate|]. split; [split; discriminate|].
    intros h [= <-].
    apply (split_char_first_field "?"%char after "" ("" ++ t)); [reflexivity|exact Ht].
  - split; [discriminate|]. split; [split; reflexivity|]. discriminate.
Qed.

(** X9.  Round trip of the handle: for a handle [h] without ['/'] and ['?'],
    the product URL [https://laam.pk/products/h], with or without a query
    string, gives back [h]. *)
Theorem product_handle_round_trip (h q : string) :
  contains "/" h = false ->
  contains "?" h = false ->
  product_handle_of ("https://laam.pk/products/" ++ h)%string = Handle h /\
  product_handle_of ("https://laam.pk/products/" ++ h ++ "?" ++ q)%string = Handle h.
Proof.
  intros Hslash Hquery.
  assert (Hgen : forall rest after t,
             split_from "/products/" 0 h rest = after :: t ->
             nth_error (py_split "?" after) 0 = Some h ->
             product_handle_of ("https://laam.pk/products/" ++ h ++ rest)%string = Handle h).
  { intros rest after t Hsplit Hfirst. unfold product_handle_of.
    assert (Hsp : py_split "/products/" ("https://laam.pk/products/" ++ h ++ rest)%string
                  = "https://laam.pk"%string :: after :: t).
    { unfold py_split. cbn -[split_from].
      cbn [split_from prefix Ascii.ascii_dec Ascii.ascii_rec Ascii.ascii_rect
           Bool.bool_dec bool_rec bool_rect sumbool_rec sumbool_rect
           eq_rec_r eq_rec eq_rect eq_sym f_equal
           String.length Nat.sub append].
      rewrite prefix_empty.
      rewrite (split_from_skip_field "/"%char "products/" h "" rest Hslash).
      cbn [append]. now rewrite Hsplit. }
    assert (Hin : contains "/products/" ("https://laam.pk/products/" ++ h ++ rest)%string
                  = true).
    { cbn. now rewrite prefix_empty. }
    rewrite Hin, Hsp. cbn [negb].
    change (nth_error ("https://laam.pk"%string :: after :: t) 1) with (Some after).
    cbv beta iota. now rewrite Hfirst. }
  split.
  - rewrite <- (append_empty_r h) at 1.
    apply (Hgen ""%string h []); [reflexivity|].
    unfold py_split.
    rewrite <- (append_empty_r h) at 1.
    rewrite (split_from_skip_field "?"%char "" h "" "" Hquery). reflexivity.
  - destruct (split_from "/products/" 0 h ("?" ++ q)%string) as [|after t] eqn:Hsplit.
    + pose proof (split_from_nonempty "/products/" ("?" ++ q)%string 0 h) as Hlen.
      rewrite Hsplit in Hlen. simpl in Hlen. lia.
    + apply (Hgen ("?" ++ q)%string after t Hsplit).
      destruct (split_from_first_field "/products/" q 0 (h ++ "?")%string) as [u Hu].
      assert (Hafter : after = (h ++ "?" ++ u)%string).
      { change ("?" ++ q)%string with (String "?"%char q) in Hsplit.
        cbn [split_from] in Hsplit.
        rewrite prefix_first_byte in Hsplit by discriminate.
        rewrite Hsplit in Hu. cbn [nth_error] in Hu.
        injection Hu as ->. now rewrite append_assoc_string. }
      subst after. unfold py_split.
      rewrite (split_from_skip_field "?"%char "" h "" ("?" ++ u)%string Hquery).
      change ("?" ++ u)%string with (String "?"%char u).
      rewrite split_char_cut. reflexivity.
Qed.

(** The handle of the sample product of the test script. *)
Lemma product_handle_round_trip_witness :
  product_handle_of
    ("https://laam.pk/products/" ++ "ash-grey-kurta-waistcoat-set")%string
  = Handle "ash-grey-kurta-waistcoat-set" /\
  product_handle_of
    ("https://laam.pk/products/" ++ "ash-grey-kurta-waistcoat-set" ++ "?" ++ "ref=1")%string
  = Handle "ash-grey-kurta-waistcoat-set".
Proof.
  apply (product_handle_round_trip "ash-grey-kurta-waistcoat-set" "ref=1");
    reflexivity.
Defined.

(** * Properties of the search command *)

(** X10.  The query vector fits the store: when the collection has a first
    document with a non-empty stored embedding and the model embeds the query
    as a non-empty vector, [determine_embedding_dim] succeeds and the vector
    [build_query_vector] builds for that dimension has exactly the length of
    the stored embedding. *)
Theorem query_vector_matches_stored_dimension
    {F : Type} `{PyFloatOps F}
    (collection : Collection F) (model : Model F) (query_text : string)
    (id0 : string) (ids : list string) (e0 : list F) (es : list (list F)) :
  res_ids (coll_peek collection 1) = Some (id0 :: ids) ->
  res_embeddings (coll_get collection [id0]) = Some (e0 :: es) ->
  e0 <> [] ->
  embed model query_text <> [] ->
  exists d v,
    determine_embedding_dim collection = inr d /\
    build_query_vector model d query_text = inr v /\
    length v = length e0.
Proof.
  intros Hids Hemb He0 Hq.
  exists (Z.of_nat (length e0)).
  exists (normalize (fuse (Z.of_nat (length e0)) (embed model query_text))).
  split; [|split].
  - unfold determine_embedding_dim. rewrite Hids. cbv beta iota zeta.
    rewrite Hemb. reflexivity.
  - now apply build_query_vector_nonempty.
  - rewrite length_normalize, fuse_length by (assumption || lia). lia.
Qed.

(** A store of three-dimensional vectors and a two-dimensional text model. *)
Lemma query_vector_matches_stored_dimension_witness :
  exists d v,
    determine_embedding_dim
      (mkCollection (fun _ => mkGetResult (Some ["p1"%string]) None)
                    (fun _ => mkGetResult (Some ["p1"%string])
                                          (Some [[1; 0; 0]%float])))
    = inr d /\
    build_query_vector (constant_model [3; 4]%float) d "blue suit" = inr v /\
    length v = length [1; 0; 0]%float.
Proof.
  apply (query_vector_matches_stored_dimension
           (mkCollection (fun _ => mkGetResult (Some ["p1"%string]) None)
                         (fun _ => mkGetResult (Some ["p1"%string])
                                               (Some [[1; 0; 0]%float])))
           (constant_model [3; 4]%float) "blue suit" "p1" [] [1; 0; 0]%float []).
  - reflexivity.
  - reflexivity.
  - discriminate.
  - simpl. discriminate.
Defined.

(** X11.  The interactive loop runs one query per line, on the stripped
    line, up to the first line that is blank after stripping, and leaves the
    lines after it unread; without a blank line it runs until the end of the
    input.  (The queries are assumed not to raise.) *)
Theorem interactive_loop_stops_at_blank_line
    {St E : Type} (strip : string -> string)
    (run_query : string -> St -> option E * St)
    (pre : list string) (blank : string) (post : list string) (st : St) :
  Forall (fun line => strip line <> EmptyString) pre ->
  strip blank = EmptyString ->
  (forall query_text st', fst (run_query query_text st') = None) ->
  interactive_loop strip run_query (pre ++ blank :: post) st
  = (BlankLine, post,
     fold_left (fun st' line => snd (run_query (strip line) st')) pre st) /\
  interactive_loop strip run_query pre st
  = (EndOfInput, [],
     fold_left (fun st' line => snd (run_query (strip line) st')) pre st).
Proof.
  intros Hpre Hblank Hok. revert st.
  induction Hpre as [|line pre Hline _ IH]; intro st.
  - cbn [app interactive_loop fold_left]. rewrite Hblank. split; reflexivity.
  - cbn [app interactive_loop fold_left].
    apply String.eqb_neq in Hline. rewrite Hline.
    specialize (Hok (strip line) st).
    destruct (run_query (strip line) st) as [[e|] st1]; [discriminate Hok|].
    apply IH.
Qed.

(** Two queries, a blank line, and a line that stays unread. *)
Lemma interactive_loop_stops_at_blank_line_witness :
  interactive_loop (fun line => line) (fun q st => (@None unit, q :: st))
    (["blue suit"%string; "red dress"%string] ++ ""%string :: ["never read"%string]) []
  = (BlankLine, ["never read"%string],
     fold_left (fun st' line => snd ((fun q st => (@None unit, q :: st)) line st'))
       ["blue suit"; "red dress"]%string []) /\
  interactive_loop (fun line => line) (fun q st => (@None unit, q :: st))
    ["blue suit"; "red dress"]%string []
  = (EndOfInput, [],
     fold_left (fun st' line => snd ((fun q st => (@None unit, q :: st)) line st'))
       ["blue suit"; "red dress"]%string []).
Proof.
  apply (interactive_loop_stops_at_blank_line (fun line => line)
           (fun q st => (@None unit, q :: st))
           ["blue suit"; "red dress"]%string ""%string ["never read"%string] []).
  - repeat constructor; discriminate.
  - reflexivity.
  - reflexivity.
Defined.

(** * Properties of the fusion of embeddings *)

(** X12.  [fuse_embeddings] returns [None] exactly when an embedding is
    missing or empty; otherwise the fused vector has the length of the text
    embedding plus the length of the image embedding. *)
Theorem fuse_embeddings_length
    {F : Type} `{PyFloatOps F} (text_embedding image_embedding : option (list F)) :
  (fuse_embeddings text_embedding image_embedding = None <->
   text_embedding = None \/ image_embedding = None \/
   text_embedding = Some [] \/ image_embedding = Some []) /\
  (forall t i v,
      text_embedding = Some t -> image_embedding = Some i ->
      fuse_embeddings text_embedding image_embedding = Some v ->
      length v = (length t + length i)%nat).
Proof.
  split.
  - destruct text_embedding as [[|x t]|], image_embedding as [[|y i]|];
      cbn; split; intro Hn; try reflexivity; try discriminate Hn; auto;
      destruct Hn as [Hn|[Hn|[Hn|Hn]]]; discriminate Hn.
  - intros t i v -> -> Hv. unfold fuse_embeddings in Hv.
    destruct ((length t =? 0)%nat || (length i =? 0)%nat); [discriminate Hv|].
    injection Hv as <-. now rewrite length_map, length_app.
Qed.

(** X13.  In exact arithmetic the fusion of two non-empty embeddings with a
    nonzero entry is a unit vector. *)
Theorem fuse_embeddings_unit_norm (t i : list R) :
  t <> [] -> i <> [] ->
  Exists (fun x => x <> 0%R) (t ++ i) ->
  exists v, fuse_embeddings (Some t) (Some i) = Some v /\ linalg_norm v = 1%R.
Proof.
  intros Ht Hi Hnz.
  exists (map (fun x => fdiv x (linalg_norm (t ++ i))) (t ++ i)). split.
  - unfold fuse_embeddings.
    destruct t as [|x t]; [congruence|]. destruct i as [|y i]; [congruence|].
    reflexivity.
  - pose proof (linalg_norm_normalize (t ++ i) Hnz) as Hnorm.
    unfold normalize in Hnorm.
    replace (truthy (linalg_norm (t ++ i))) with true in Hnorm; [exact Hnorm|].
    symmetry. apply truthy_real_nonzero.
    pose proof (linalg_norm_pos (t ++ i) Hnz). lra.
Qed.

(** A text embedding [3] fused with an image embedding [4]. *)
Lemma fuse_embeddings_unit_norm_witness :
  exists v, fuse_embeddings (Some [3%R]) (Some [4%R]) = Some v /\ linalg_norm v = 1%R.
Proof.
  apply (fuse_embeddings_unit_norm [3%R] [4%R]).
  - discriminate.
  - discriminate.
  - apply Exists_cons_hd. lra.
Defined.

(** The norm of a binary64 zero vector is zero. *)
Lemma linalg_norm_zeros (k : nat) :
  linalg_norm (repeat 0%float k) = 0%float.
Proof.
  unfold linalg_norm.
  assert (Hfold : fold_left (fun acc x => fadd acc (fmul x x)) (repeat 0%float k) fzero
                  = 0%float).
  { induction k as [|k IH]; [reflexivity|]. exact IH. }
  rewrite Hfold. reflexivity.
Qed.

(** X14.  The fusion has no guard against a zero norm: two all-zero binary64
    embeddings are fused into a vector of NaNs (each entry is 0/0), where
    [build_query_vector] would return the zero vector. *)
Theorem fuse_embeddings_zero_gives_nan (n m : nat) :
  fuse_embeddings (Some (repeat 0%float (S n))) (Some (repeat 0%float (S m)))
  = Some (repeat nan (S n + S m)) /\
  build_query_vector (constant_model (repeat 0%float (S n))) (Z.of_nat (S n))
    "blue suit"
  = inr (repeat 0%float (S n)).
Proof.
  split.
  - unfold fuse_embeddings. cbn [repeat length Nat.eqb orb].
    change (0%float :: repeat 0%float n) with (repeat 0%float (S n)).
    change (0%float :: repeat 0%float m) with (repeat 0%float (S m)).
    rewrite <- repeat_app, linalg_norm_zeros.
    f_equal. generalize (S n + S m)%nat as k.
    induction k as [|k IH]; [reflexivity|].
    cbn [repeat map]. now rewrite IH.
  - rewrite build_query_vector_nonempty by (simpl; discriminate).
    cbn [embed constant_model].
    assert (Hf : fuse (Z.of_nat (S n)) (repeat 0%float (S n)) = repeat 0%float (S n)).
    { unfold fuse, slice_to. rewrite repeat_length.
      rewrite Z.leb_refl.
      replace (Z.of_nat (S n) <? 0) with false by (symmetry; apply Z.ltb_ge; lia).
      rewrite Nat2Z.id. rewrite <- (repeat_length 0%float (S n)) at 1.
      apply firstn_all. }
    rewrite Hf. unfold normalize. rewrite linalg_norm_zeros. reflexivity.
Qed.

Lemma ceil_div_twice (l : Z) : 0 < l -> ceil_div (2 * l) l = 2.
Proof.
  intro Hl. unfold ceil_div.
  replace (- (2 * l)) with ((- 2) * l) by ring.
  rewrite Z.div_mul by lia. reflexivity.
Qed.

(** Against a store of twice the text dimension the text embedding is
    repeated once. *)
Lemma fuse_self_concatenation {T : Type} (t : list T) :
  t <> [] -> fuse (2 * Z.of_nat (length t)) t = t ++ t.
Proof.
  intro Ht.
  assert (Hpos : 0 < Z.of_nat (length t)) by (destruct t; [congruence|simpl; lia]).
  unfold fuse, slice_to, tile.
  replace (2 * Z.of_nat (length t) <=? Z.of_nat (length t)) with false
    by (symmetry; apply Z.leb_gt; lia).
  replace (2 * Z.of_nat (length t) <? 0) with false
    by (symmetry; apply Z.ltb_ge; lia).
  rewrite ceil_div_twice by assumption.
  change (Z.to_nat 2) with 2%nat. cbn [repeat concat]. rewrite app_nil_r.
  replace (Z.to_nat (2 * Z.of_nat (length t))) with (length (t ++ t))
    by (rewrite length_app; lia).
  apply firstn_all.
Qed.

(** X15.  Self-concatenation: against a store whose dimension is twice the
    text dimension, the query vector is, in exact arithmetic, the fusion of
    the text embedding with itself. *)
Theorem query_vector_is_self_fusion
    (model : Model R) (query_text : string) :
  Exists (fun x => x <> 0%R) (embed model query_text) ->
  exists v,
    build_query_vector model (2 * Z.of_nat (length (embed model query_text))) query_text
    = inr v /\
    fuse_embeddings (Some (embed model query_text)) (Some (embed model query_text))
    = Some v.
Proof.
  intro Hnz.
  assert (Hne : embed model query_text <> []) by (intro Hnil; rewrite Hnil in Hnz; inversion Hnz).
  set (t := embed model query_text) in *.
  exists (map (fun x => fdiv x (linalg_norm (t ++ t))) (t ++ t)). split.
  - rewrite build_query_vector_nonempty by assumption. fold t.
    rewrite fuse_self_concatenation by assumption.
    unfold normalize.
    replace (truthy (linalg_norm (t ++ t))) with true; [reflexivity|].
    symmetry. apply truthy_real_nonzero.
    assert (Hnz2 : Exists (fun x => x <> 0%R) (t ++ t))
      by (apply Exists_app; now left).
    pose proof (linalg_norm_pos (t ++ t) Hnz2). lra.
  - unfold fuse_embeddings. destruct t as [|x t']; [congruence|]. reflexivity.
Qed.

(** The text embedding [3, 4] against a store of dimension four. *)
Lemma query_vector_is_self_fusion_witness :
  exists v,
    build_query_vector (constant_model [3; 4]%R)
      (2 * Z.of_nat (length (embed (constant_model [3; 4]%R) "blue suit"))) "blue suit"
    = inr v /\
    fuse_embeddings (Some (embed (constant_model [3; 4]%R) "blue suit"))
                    (Some (embed (constant_model [3; 4]%R) "blue suit"))
    = Some v.
Proof.
  apply (query_vector_is_self_fusion (constant_model [3; 4]%R) "blue suit").
  apply Exists_cons_hd. lra.
Defined.

(** * Properties of the scraping loop *)

Section RetryFromAnyState.
Context {F W : Type} `{PyFloatOps F} `{PyRuntime F W} {A : Type}.

(** A call of the wrapper from any state makes at least one call of the
    wrapped function and at most [max_retries], whatever the backoff does. *)
Lemma retry_request_calls_between (n : Z) (ib : pynum F)
    (func : W -> outcome A * W) (s : state F W) :
  1 <= n ->
  (calls (log s) < calls (log (snd (retry_request n ib func s)))
   <= calls (log s) + Z.to_nat n)%nat.
Proof.
  intro Hn.
  destruct (retry_request_shape n ib func s Hn) as (k & Hk & _ & Hc & _).
  rewrite Hc. lia.
Qed.

(** From any state, a function that always fails is called [max_retries]
    times and its last [RequestException] is raised, when the backoff goes
    through in that run. *)
Lemma retry_request_exhausted (n : Z) (ib : pynum F)
    (func : W -> outcome A * W) (s : state F W) :
  1 <= n ->
  backoff_passes ib func (Z.to_nat (n - 1)) (world s) ->
  always_fails func ->
  exists e,
    is_RequestException e = true /\
    fst (retry_request n ib func s) = Raise e /\
    calls (log (snd (retry_request n ib func s))) = (calls (log s) + Z.to_nat n)%nat.
Proof.
  intros Hn Hsleep Hfail. unfold retry_request, range.
  replace (Z.to_nat n) with (S (Z.to_nat (n - 1))) by lia.
  destruct (wrapper_loop_exhausts n ib func (Z.to_nat (n - 1)) O s)
    as (e & H1 & H2 & _ & H4 & _);
    [lia|intros i _; apply Hfail|exact Hsleep|].
  exists e. repeat split; try assumption.
  destruct (Hfail (world_from ib func 0 (Z.to_nat (n - 1)) (world s)))
    as (e' & He' & Hreq).
  rewrite H1 in He'. now injection He' as <-.
Qed.

End RetryFromAnyState.

Section PosixPaths.
Local Open Scope string_scope.




End PosixPaths.

Section ScrapeFacts.
Context {F W : Type} `{PyFloatOps F} `{PyRuntime F W}.
Variable requests_get : string -> W -> (response + exn) * W.
Variable json_decode : string -> option (json F).
Variable ET_fromstring : string -> exn + element.
Variable py_str : json F -> string.
Variable soup_text : json F -> exn + string.
Variable os_path_join : string -> string -> string.
Variable open_error : string -> list file_event -> option exn.
Variable write_error : string -> string -> list file_event -> option exn.
Variable json_dump : list (product F) -> string.

Local Abbreviation fetch_image_ :=
  (fetch_image requests_get py_str os_path_join open_error write_error).
Local Abbreviation build_product_ :=
  (build_product requests_get py_str soup_text os_path_join open_error write_error).
Local Abbreviation process_item_ :=
  (process_item requests_get json_decode py_str soup_text os_path_join
     open_error write_error).
Local Abbreviation scrape_loop_ :=
  (scrape_loop requests_get json_decode py_str soup_text os_path_join
     open_error write_error).
Local Abbreviation scrape_laam_pk_ :=
  (scrape_laam_pk requests_get json_decode ET_fromstring py_str soup_text
     os_path_join open_error write_error json_dump).

Local Abbreviation bounded_effects := (effects_bounded_by os_path_join).
Local Abbreviation metadata_path :=
  (os_path_join PRODUCTS_DIR "products_metadata.json").

Lemma bounded_effects_refl (s : scrape_state F W) : bounded_effects 0 s s.
Proof.
  split; [lia|]. exists []. split; [now rewrite app_nil_r|constructor].
Qed.

Lemma bounded_effects_weaken (b b' : nat) (s s1 : scrape_state F W) :
  (b <= b')%nat -> bounded_effects b s s1 -> bounded_effects b' s s1.
Proof.
  intros Hb [Hreq Himgs]. split; [lia|exact Himgs].
Qed.

Lemma bounded_effects_trans (b1 b2 : nat) (s s1 s2 : scrape_state F W) :
  bounded_effects b1 s s1 -> bounded_effects b2 s1 s2 ->
  bounded_effects (b1 + b2) s s2.
Proof.
  intros [Hr1 (i1 & Hf1 & Hi1)] [Hr2 (i2 & Hf2 & Hi2)]. split; [lia|].
  exists (i1 ++ i2). split.
  - now rewrite Hf2, Hf1, app_assoc.
  - apply Forall_app. now split.
Qed.

(** A decorated fetch calls [requests.get] at most three times and touches
    no file. *)
Lemma fetch_effects {A : Type} (func : W -> outcome A * W) (s : scrape_state F W) :
  bounded_effects 3 s
    (mkScrape (snd (retry_request MAX_RETRIES INITIAL_BACKOFF func (net s))) (files s)).
Proof.
  split.
  - unfold get_calls. cbn [net].
    pose proof (retry_request_calls_between MAX_RETRIES INITIAL_BACKOFF func (net s)
                  ltac:(unfold MAX_RETRIES; lia)) as Hc.
    change (Z.to_nat MAX_RETRIES) with 3%nat in Hc. lia.
  - exists []. cbn [files]. split; [now rewrite app_nil_r|constructor].
Qed.

(** Writing the image of a product touches its image file only. *)
Lemma write_image_effects (product_handle content : string) (s : scrape_state F W) :
  bounded_effects 0 s
    (snd (write_file open_error write_error
            (os_path_join (IMAGES_DIR os_path_join) (product_handle ++ ".jpg")%string)
            content s)).
Proof.
  assert (Himg : forall ev,
             path_of ev = os_path_join (IMAGES_DIR os_path_join)
                            (product_handle ++ ".jpg")%string ->
             is_image_file os_path_join ev)
    by (intros ev Hev; now exists product_handle).
  unfold write_file.
  destruct (open_error _ (files s)); [apply bounded_effects_refl|].
  cbn [files net].
  destruct (write_error _ content _); cbn [snd]; (split; [unfold get_calls; cbn [net]; lia|]).
  - eexists. cbn [files]. split; [reflexivity|].
    constructor; [now apply Himg|constructor].
  - eexists. cbn [files]. rewrite <- app_assoc. split; [reflexivity|].
    constructor; [now apply Himg|]. constructor; [now apply Himg|constructor].
Qed.

Lemma fetch_image_effects (product_handle : string) (image_url : json F)
    (s : scrape_state F W) :
  bounded_effects 3 s
    (snd (fetch_image_ product_handle image_url s)).
Proof.
  unfold fetch_image.
  destruct (py_truthy image_url);
    [|apply (bounded_effects_weaken 0 3); [lia|apply bounded_effects_refl]].
  unfold download_image_content.
  pose proof (fetch_effects (download_image_body requests_get (url_of py_str image_url)) s)
    as Hfetch.
  destruct (retry_request MAX_RETRIES INITIAL_BACKOFF
              (download_image_body requests_get (url_of py_str image_url)) (net s))
    as [[img_data| |e] n1]; cbn [snd] in Hfetch.
  - pose proof (write_image_effects product_handle img_data (mkScrape n1 (files s)))
      as Hwrite.
    pose proof (bounded_effects_trans 3 0 _ _ _ Hfetch Hwrite) as Hall.
    destruct (write_file open_error write_error _ img_data (mkScrape n1 (files s)))
      as [[e|] s1]; cbn [snd] in Hall.
    + destruct (is_RequestException e); exact Hall.
    + exact Hall.
  - destruct (open_error _ (files s)) as [e|].
    + destruct (is_RequestException e); exact Hfetch.
    + cbn [snd]. destruct Hfetch as [Hreq _]. split; [exact Hreq|].
      cbn [files]. eexists. split; [reflexivity|].
      constructor; [now exists product_handle|constructor].
  - destruct (is_RequestException e); exact Hfetch.
Qed.

(** A title that is truthy without a default is the value under the key. *)
Lemma dict_get_truthy (d : list (string * json F)) (key : string) (default : json F) :
  py_truthy (dict_get d key JNull) = true ->
  dict_get d key default = dict_get d key JNull.
Proof.
  unfold dict_get. destruct (dict_lookup d key); [reflexivity|discriminate].
Qed.

(** The loop body after the API call: at most three calls of [requests.get]
    (the image), the image file only, and a product only with its handle, its
    caption and a truthy title. *)
Lemma build_product_effects (product_handle : string) (caption : option string)
    (api_data : json F) (s : scrape_state F W) :
  bounded_effects 3 s (snd (build_product_ product_handle caption api_data s)) /\
  (forall p, fst (build_product_ product_handle caption api_data s) = Appended p ->
     unique_item_id p = product_handle /\
     sitemap_caption p = caption /\
     py_truthy (product_title p) = true).
Proof.
  assert (Hsame : bounded_effects 3 s s)
    by (apply (bounded_effects_weaken 0 3); [lia|apply bounded_effects_refl]).
  unfold build_product.
  destruct (py_truthy api_data); cbn [negb]; [|split; [exact Hsame|discriminate]].
  destruct api_data as [ |b|z|x|str|l|d]; try (split; [exact Hsame|discriminate]).
  destruct (py_truthy (dict_get d "title" JNull)) eqn:Htitle; cbn [negb];
    [|split; [exact Hsame|discriminate]].
  destruct (size_options_of d) as [e|sizes]; [split; [exact Hsame|discriminate]|].
  destruct (clean_html soup_text _) as [e|clean_desc];
    [split; [exact Hsame|discriminate]|].
  destruct (py_items _) as [e|items]; [split; [exact Hsame|discriminate]|].
  destruct (attribute_labels py_str items) as [e|labels];
    [split; [exact Hsame|discriminate]|].
  destruct (py_index0 _) as [e|media0]; [split; [exact Hsame|discriminate]|].
  destruct (py_get media0 "src" JNull) as [e|image_url];
    [split; [exact Hsame|discriminate]|].
  pose proof (fetch_image_effects product_handle image_url s) as Himg.
  destruct (fetch_image_ product_handle image_url s) as [[e|path] s1]; cbn [snd] in Himg.
  - split; [exact Himg|discriminate].
  - split; [exact Himg|]. intros p [= <-]. cbn.
    repeat split. rewrite dict_get_truthy by exact Htitle. exact Htitle.
Qed.

(** One pass of the loop body: at most six calls of [requests.get], and the
    image file only. *)
Lemma process_item_effects (item : product_item) (s : scrape_state F W) :
  bounded_effects 6 s (snd (process_item_ item s)) /\
  (forall p, fst (process_item_ item s) = Appended p ->
     product_url item <> None /\
     (exists url, product_url item = Some url /\
                  product_handle_of url = Handle (unique_item_id p)) /\
     sitemap_caption p = image_caption item /\
     py_truthy (product_title p) = true).
Proof.
  assert (Hsame : bounded_effects 6 s s)
    by (apply (bounded_effects_weaken 0 6); [lia|apply bounded_effects_refl]).
  unfold process_item.
  destruct (product_url item) as [url|]; [|split; [exact Hsame|discriminate]].
  destruct (product_handle_of url) as [ | |product_handle] eqn:Hhandle;
    try (split; [exact Hsame|discriminate]).
  unfold fetch_product_details_from_api.
  pose proof (fetch_effects
                (fetch_product_details_body requests_get json_decode product_handle) s)
    as Hfetch.
  destruct (retry_request MAX_RETRIES INITIAL_BACKOFF
              (fetch_product_details_body requests_get json_decode product_handle) (net s))
    as [[api_data| |e] n1]; cbn [snd] in Hfetch.
  - destruct (build_product_effects product_handle (image_caption item) api_data
                (mkScrape n1 (files s))) as [Hbuild Hp].
    split.
    + apply (bounded_effects_trans 3 3 s _ _ Hfetch Hbuild).
    + intros p Hres. destruct (Hp p Hres) as (Hid & Hcap & Htitle).
      split; [discriminate|]. split; [|now split].
      exists url. split; [reflexivity|]. now rewrite Hid.
  - split; [|discriminate].
    apply (bounded_effects_weaken 3 6); [lia|exact Hfetch].
  - destruct (is_RequestException e); (split; [|discriminate]);
      (apply (bounded_effects_weaken 3 6); [lia|exact Hfetch]).
Qed.

(** The whole loop: at most six calls of [requests.get] per item, image files
    only, and at most one new product per item, each with a truthy title. *)
Lemma scrape_loop_effects (items : list product_item) (acc : list (product F))
    (s : scrape_state F W) :
  bounded_effects (6 * length items) s (snd (scrape_loop_ items acc s)) /\
  (forall ps, fst (scrape_loop_ items acc s) = inr ps ->
     exists new, ps = acc ++ new /\
       (length new <= length items)%nat /\
       Forall (fun p => py_truthy (product_title p) = true) new).
Proof.
  revert acc s. induction items as [|item rest IH]; intros acc s.
  - cbn [scrape_loop length Nat.mul snd fst]. split; [apply bounded_effects_refl|].
    intros ps [= <-]. exists []. rewrite app_nil_r.
    split; [reflexivity|]. split; [apply Nat.le_refl|constructor].
  - cbn [scrape_loop].
    destruct (process_item_effects item s) as [Hitem Hp].
    destruct (process_item_ item s) as [[p| |e] s1]; cbn [snd fst] in *.
    + destruct (IH (acc ++ [p]) s1) as [Hrest Hps]. split.
      * apply (bounded_effects_weaken (6 + 6 * length rest)); [cbn [length]; lia|].
        apply (bounded_effects_trans 6 _ s s1 _ Hitem Hrest).
      * intros ps Hres. destruct (Hps ps Hres) as (new & -> & Hlen & Htitled).
        exists (p :: new). rewrite <- app_assoc. split; [reflexivity|].
        split; [cbn [length]; lia|].
        constructor; [|exact Htitled]. now destruct (Hp p eq_refl) as (_ & _ & _ & Ht).
    + destruct (IH acc s1) as [Hrest Hps]. split.
      * apply (bounded_effects_weaken (6 + 6 * length rest)); [cbn [length]; lia|].
        apply (bounded_effects_trans 6 _ s s1 _ Hitem Hrest).
      * intros ps Hres. destruct (Hps ps Hres) as (new & -> & Hlen & Htitled).
        exists new. split; [reflexivity|]. split; [cbn [length]; lia|exact Htitled].
    + split; [|discriminate].
      apply (bounded_effects_weaken 6); [cbn [length]; lia|exact Hitem].
Qed.

Lemma length_slice_to {T : Type} (n : Z) (l : list T) :
  0 <= n -> (length (slice_to n l) <= Z.to_nat n)%nat.
Proof.
  intro Hn. unfold slice_to.
  replace (n <? 0) with false by (symmetry; apply Z.ltb_ge; lia).
  rewrite length_firstn. lia.
Qed.

(** A run of [scrape_laam_pk]: the calls of [requests.get] it makes, what it
    does to the files and the products it returns. *)
Lemma scrape_run (num_products : Z) (s : scrape_state F W) :
  (get_calls s <= get_calls (snd (scrape_laam_pk_ num_products s)))%nat /\
  (0 <= num_products ->
   (get_calls (snd (scrape_laam_pk_ num_products s))
    <= get_calls s + 3 + 6 * Z.to_nat num_products)%nat) /\
  exists imgs,
    Forall (is_image_file os_path_join) imgs /\
    match fst (scrape_laam_pk_ num_products s) with
    | ScrapeDone ps =>
        files (snd (scrape_laam_pk_ num_products s))
        = files s ++ imgs
          ++ [Opened metadata_path; Written metadata_path (json_dump ps)] /\
        (0 <= num_products -> (length ps <= Z.to_nat num_products)%nat) /\
        Forall (fun p => py_truthy (product_title p) = true) ps
    | ScrapeNone => files (snd (scrape_laam_pk_ num_products s)) = files s
    | ScrapeRaised e =>
        files (snd (scrape_laam_pk_ num_products s)) = files s ++ imgs \/
        files (snd (scrape_laam_pk_ num_products s))
        = files s ++ imgs ++ [Opened metadata_path]
    end.
Proof.
  unfold scrape_laam_pk, fetch_sitemap_content.
  pose proof (fetch_effects (fetch_sitemap_body requests_get) s) as Hfetch.
  destruct (retry_request MAX_RETRIES INITIAL_BACKOFF
              (fetch_sitemap_body requests_get) (net s))
    as [[sitemap_content| |e] n1]; cbn [snd] in Hfetch.
  - destruct (parse_sitemap ET_fromstring sitemap_content) as [e|product_urls].
    + cbn [fst snd]. destruct Hfetch as [Hreq (imgs & Hf & Hi)].
      split; [lia|]. split; [lia|]. exists imgs. split; [exact Hi|now left].
    + destruct (scrape_loop_effects (slice_to num_products product_urls) []
                  (mkScrape n1 (files s))) as [Hloop Hps].
      pose proof (bounded_effects_trans 3 _ s _ _ Hfetch Hloop) as Hall.
      assert (Hlen : 0 <= num_products ->
                     (length (slice_to num_products product_urls)
                      <= Z.to_nat num_products)%nat)
        by apply length_slice_to.
      destruct (scrape_loop_ (slice_to num_products product_urls) []
                  (mkScrape n1 (files s))) as [[e|ps] s1]; cbn [fst snd] in *.
      * destruct Hall as [Hreq (imgs & Hf & Hi)].
        split; [lia|]. split; [intro Hn; specialize (Hlen Hn); nia|].
        exists imgs. split; [exact Hi|now left].
      * destruct (Hps ps eq_refl) as (new & Hnew & Hlen' & Htitled).
        cbn [app] in Hnew. subst new.
        destruct Hall as [Hreq (imgs & Hf & Hi)].
        unfold write_file, get_calls in *.
        destruct (open_error _ (files s1)) as [e|]; cbn [fst snd files net].
        -- split; [lia|]. split; [intro Hn; specialize (Hlen Hn); nia|].
           exists imgs. split; [exact Hi|now left].
        -- destruct (write_error _ (json_dump ps) _) as [e|]; cbn [fst snd files net].
           ++ split; [lia|]. split; [intro Hn; specialize (Hlen Hn); nia|].
              exists imgs. split; [exact Hi|]. right.
              rewrite Hf. now rewrite <- app_assoc.
           ++ split; [lia|]. split; [intro Hn; specialize (Hlen Hn); nia|].
              exists imgs. split; [exact Hi|].
              split; [|split; [intro Hn; specialize (Hlen Hn); lia|exact Htitled]].
              rewrite Hf. now rewrite <- !app_assoc.
  - cbn [fst snd]. destruct Hfetch as [Hreq (imgs & Hf & Hi)].
    split; [lia|]. split; [lia|]. exists imgs. split; [exact Hi|now left].
  - destruct Hfetch as [Hreq (imgs & Hf & Hi)].
    destruct (is_RequestException e); cbn [fst snd files];
      (split; [lia|]); (split; [lia|]).
    + exists []. split; [constructor|reflexivity].
    + exists imgs. split; [exact Hi|now left].
Qed.

(** X16.  The budget of a scrape: with [num_products >= 0] a call of
    [scrape_laam_pk] calls [requests.get] at most [3 + 6 * num_products]
    times, three times for the sitemap and, per product, three times for the
    API and three times for the image, whatever the servers answer. *)
Theorem scrape_request_budget (num_products : Z) (s : scrape_state F W) :
  0 <= num_products ->
  (get_calls (snd (scrape_laam_pk_ num_products s))
   <= get_calls s + 3 + 6 * Z.to_nat num_products)%nat.
Proof.
  intro Hn. destruct (scrape_run num_products s) as (_ & Hb & _). now apply Hb.
Qed.


(** X18.  The products a scrape returns: at most [num_products] of them
    (for [num_products >= 0]), each with a truthy title. *)
Theorem scrape_returns_titled_products (num_products : Z) (s : scrape_state F W)
    (ps : list (product F)) :
  0 <= num_products ->
  fst (scrape_laam_pk_ num_products s) = ScrapeDone ps ->
  (length ps <= Z.to_nat num_products)%nat /\
  Forall (fun p => py_truthy (product_title p) = true) ps.
Proof.
  intros Hn Hdone. destruct (scrape_run num_products s) as (_ & _ & imgs & _ & Hres).
  rewrite Hdone in Hres. destruct Hres as (_ & Hlen & Htitled).
  split; [now apply Hlen|exact Htitled].
Qed.

(** X19.  A sitemap that cannot be fetched is fatal and cheap: when every
    call of [requests.get] for it fails with a [RequestException], and the
    two sleeps of the default policy go through in that run, [scrape_laam_pk]
    returns
    [None] after exactly three calls, asks for no product and touches no
    file. *)
Theorem scrape_unreachable_sitemap (num_products : Z) (s : scrape_state F W) :
  backoff_passes INITIAL_BACKOFF (fetch_sitemap_body requests_get) 2 (world (net s)) ->
  always_fails (fetch_sitemap_body requests_get) ->
  fst (scrape_laam_pk_ num_products s) = ScrapeNone /\
  files (snd (scrape_laam_pk_ num_products s)) = files s /\
  get_calls (snd (scrape_laam_pk_ num_products s)) = (get_calls s + 3)%nat.
Proof.
  intros Hsleep Hfail. unfold scrape_laam_pk, fetch_sitemap_content.
  destruct (retry_request_exhausted MAX_RETRIES INITIAL_BACKOFF
              (fetch_sitemap_body requests_get) (net s)
              ltac:(unfold MAX_RETRIES; lia) Hsleep Hfail) as (e & Hreq & Hres & Hcalls).
  destruct (retry_request MAX_RETRIES INITIAL_BACKOFF
              (fetch_sitemap_body requests_get) (net s)) as [r n1].
  cbn [fst snd] in Hres, Hcalls. subst r. rewrite Hreq. cbn [fst snd files].
  repeat split. exact Hcalls.
Qed.

(** X20.  An empty media list aborts the scrape, a missing one does not.
    For API data with a truthy title whose other fields can be read: when
    ["media"] is the empty list, the loop body raises [IndexError] before any
    image request; when the key ["media"] is absent, the product is appended
    without an image and without an image request. *)
Theorem build_product_media_edge
    (product_handle : string) (caption : option string)
    (d : list (string * json F)) (s : scrape_state F W)
    (sizes : json F) (clean_desc : string)
    (items : list (string * json F)) (labels : list string) :
  py_truthy (dict_get d "title" JNull) = true ->
  size_options_of d = inr sizes ->
  clean_html soup_text (dict_get d "description" (JStr EmptyString)) = inr clean_desc ->
  py_items (match dict_get d "attributed_description" JNull with
            | JNull => JDict []
            | a => a
            end) = inr items ->
  attribute_labels py_str items = inr labels ->
  (dict_lookup d "media" = Some (JList []) ->
   build_product_ product_handle caption (JDict d) s = (Crashed IndexError, s)) /\
  (dict_lookup d "media" = None ->
   exists p,
     build_product_ product_handle caption (JDict d) s = (Appended p, s) /\
     unique_item_id p = product_handle /\
     image_url p = JNull /\
     local_image_path p = None).
Proof.
  intros Htitle Hsizes Hclean Hitems Hlabels.
  assert (Hd : py_truthy (JDict d) = true).
  { destruct d; [discriminate Htitle|reflexivity]. }
  split; intro Hmedia; unfold build_product;
    rewrite Hd, Htitle, Hsizes, Hclean; cbn [negb];
    rewrite Hitems, Hlabels; unfold dict_get at 1; rewrite Hmedia.
  - reflexivity.
  - cbn [py_index0 py_get dict_get dict_lookup fetch_image py_truthy].
    eexists. split; [reflexivity|]. repeat split.
Qed.

End ScrapeFacts.

(** The sample site scraped with the default of the script. *)
Lemma scrape_request_budget_witness :
  (get_calls
     (snd (scrape_laam_pk demo_network (fun _ => Some demo_api_data)
             (fun _ => inr demo_sitemap) demo_str (fun _ => inr EmptyString)
             demo_join (fun _ _ => None) (fun _ _ _ => None) (fun _ => "[]"%string)
             1200 (mkScrape (init O) [])))
   <= get_calls (mkScrape (F := float) (init O) []) + 3 + 6 * Z.to_nat 1200)%nat.
Proof.
  apply (scrape_request_budget demo_network (fun _ => Some demo_api_data)
           (fun _ => inr demo_sitemap) demo_str (fun _ => inr EmptyString)
           demo_join (fun _ _ => None) (fun _ _ _ => None) (fun _ => "[]"%string)
           1200 (mkScrape (init O) [])).
  lia.
Defined.


(** The sample site gives one product, the kurta. *)
Lemma scrape_returns_titled_products_witness :
  (length
     (match fst (scrape_laam_pk demo_network (fun _ => Some demo_api_data)
                   (fun _ => inr demo_sitemap) demo_str (fun _ => inr EmptyString)
                   demo_join (fun _ _ => None) (fun _ _ _ => None)
                   (fun _ => "[]"%string)
                   1200 (mkScrape (init O) [])) with
      | ScrapeDone ps => ps
      | _ => []
      end)
   <= Z.to_nat 1200)%nat /\
  Forall (fun p => py_truthy (product_title p) = true)
    (match fst (scrape_laam_pk demo_network (fun _ => Some demo_api_data)
                  (fun _ => inr demo_sitemap) demo_str (fun _ => inr EmptyString)
                  demo_join (fun _ _ => None) (fun _ _ _ => None)
                  (fun _ => "[]"%string)
                  1200 (mkScrape (init O) [])) with
     | ScrapeDone ps => ps
     | _ => []
     end).
Proof.
  apply (scrape_returns_titled_products demo_network (fun _ => Some demo_api_data)
           (fun _ => inr demo_sitemap) demo_str (fun _ => inr EmptyString)
           demo_join (fun _ _ => None) (fun _ _ _ => None) (fun _ => "[]"%string)
           1200 (mkScrape (init O) [])).
  - lia.
  - vm_compute. reflexivity.
Defined.

(** A scrape without network. *)
Lemma scrape_unreachable_sitemap_witness :
  fst (scrape_laam_pk (F := float) dead_network (fun _ => None)
         (fun _ => inr demo_sitemap) demo_str (fun _ => inr EmptyString)
         demo_join (fun _ _ => None) (fun _ _ _ => None) (fun _ => "[]"%string)
         1200 (mkScrape (init tt) []))
  = ScrapeNone /\
  files (snd (scrape_laam_pk (F := float) dead_network (fun _ => None)
                (fun _ => inr demo_sitemap) demo_str (fun _ => inr EmptyString)
                demo_join (fun _ _ => None) (fun _ _ _ => None) (fun _ => "[]"%string)
                1200 (mkScrape (init tt) [])))
  = files (mkScrape (F := float) (init tt) []) /\
  get_calls (snd (scrape_laam_pk (F := float) dead_network (fun _ => None)
                        (fun _ => inr demo_sitemap) demo_str (fun _ => inr EmptyString)
                        demo_join (fun _ _ => None) (fun _ _ _ => None)
                        (fun _ => "[]"%string)
                        1200 (mkScrape (init tt) [])))
  = (get_calls (mkScrape (F := float) (init tt) []) + 3)%nat.
Proof.
  apply (scrape_unreachable_sitemap dead_network (fun _ => None)
           (fun _ => inr demo_sitemap) demo_str (fun _ => inr EmptyString)
           demo_join (fun _ _ => None) (fun _ _ _ => None) (fun _ => "[]"%string)
           1200 (mkScrape (init tt) [])).
  - intros i Hi. destruct i as [|[|i]]; [reflexivity|reflexivity|lia].
  - intro w. exists ConnectionError. split; reflexivity.
Defined.

(** API data with a title and an empty media list. *)
Lemma build_product_media_edge_witness :
  build_product (F := float) dead_network demo_str (fun _ => inr EmptyString)
    demo_join (fun _ _ => None) (fun _ _ _ => None) "kurta" (Some "A grey kurta"%string)
    (JDict [("title"%string, JStr "Kurta"); ("media"%string, JList [])])
    (mkScrape (init tt) [])
  = (Crashed IndexError, mkScrape (init tt) []).
Proof.
  apply (proj1 (build_product_media_edge (F := float) dead_network demo_str
                  (fun _ => inr EmptyString) demo_join (fun _ _ => None)
                  (fun _ _ _ => None)
                  "kurta" (Some "A grey kurta"%string)
                  [("title"%string, JStr "Kurta"); ("media"%string, JList [])]
                  (mkScrape (init tt) []) (JList []) EmptyString [] []
                  eq_refl eq_refl eq_refl eq_refl eq_refl)).
  reflexivity.
Defined.

Section ScrapeIsolation.
Context {F W : Type} `{PyFloatOps F} `{PyRuntime F W}.
Variable requests_get : string -> W -> (response + exn) * W.
Variable json_decode : string -> option (json F).
Variable py_str : json F -> string.
Variable soup_text : json F -> exn + string.
Variable os_path_join : string -> string -> string.
Variable open_error : string -> list file_event -> option exn.
Variable write_error : string -> string -> list file_event -> option exn.

(** X21.  A product whose API request keeps failing is skipped and the loop
    goes on: when every call of [requests.get] for its handle raises a
    [RequestException], and the two sleeps of the default policy go through,
    the loop continues with the remaining items and the same products, after
    exactly three calls and without touching a file. *)
Theorem scrape_loop_skips_failed_product
    (item : product_item) (rest : list product_item) (acc : list (product F))
    (s : scrape_state F W) (url product_handle : string) :
  backoff_passes INITIAL_BACKOFF
    (fetch_product_details_body requests_get json_decode product_handle) 2
    (world (net s)) ->
  product_url item = Some url ->
  product_handle_of url = Handle product_handle ->
  always_fails (fetch_product_details_body requests_get json_decode product_handle) ->
  exists s1,
    scrape_loop requests_get json_decode py_str soup_text os_path_join
      open_error write_error (item :: rest) acc s
    = scrape_loop requests_get json_decode py_str soup_text os_path_join
        open_error write_error rest acc s1 /\
    files s1 = files s /\
    get_calls s1 = (get_calls s + 3)%nat.
Proof.
  intros Hsleep Hurl Hhandle Hfail.
  cbn [scrape_loop]. unfold process_item. rewrite Hurl, Hhandle.
  unfold fetch_product_details_from_api.
  destruct (retry_request_exhausted MAX_RETRIES INITIAL_BACKOFF
              (fetch_product_details_body requests_get json_decode product_handle)
              (net s) ltac:(unfold MAX_RETRIES; lia) Hsleep Hfail)
    as (e & Hreq & Hres & Hcalls).
  destruct (retry_request MAX_RETRIES INITIAL_BACKOFF
              (fetch_product_details_body requests_get json_decode product_handle)
              (net s)) as [r n1].
  cbn [fst snd] in Hres, Hcalls. subst r. rewrite Hreq.
  exists (mkScrape n1 (files s)). repeat split. exact Hcalls.
Qed.

(** X22.  A product whose image cannot be downloaded is kept: when every
    call of [requests.get] for a truthy image URL raises a
    [RequestException], and the two sleeps of the default policy go through,
    the image step gives the path [None] after exactly three calls, raises
    nothing and touches no file. *)
Theorem fetch_image_failure_keeps_product
    (product_handle : string) (image_url : json F) (s : scrape_state F W) :
  backoff_passes INITIAL_BACKOFF
    (download_image_body requests_get (url_of py_str image_url)) 2 (world (net s)) ->
  py_truthy image_url = true ->
  always_fails (download_image_body requests_get (url_of py_str image_url)) ->
  fst (fetch_image requests_get py_str os_path_join open_error write_error
         product_handle image_url s) = inr None /\
  files (snd (fetch_image requests_get py_str os_path_join open_error write_error
                product_handle image_url s)) = files s /\
  get_calls (snd (fetch_image requests_get py_str os_path_join open_error write_error
                        product_handle image_url s))
  = (get_calls s + 3)%nat.
Proof.
  intros Hsleep Htruthy Hfail. unfold fetch_image. rewrite Htruthy.
  unfold download_image_content.
  destruct (retry_request_exhausted MAX_RETRIES INITIAL_BACKOFF
              (download_image_body requests_get (url_of py_str image_url))
              (net s) ltac:(unfold MAX_RETRIES; lia) Hsleep Hfail)
    as (e & Hreq & Hres & Hcalls).
  destruct (retry_request MAX_RETRIES INITIAL_BACKOFF
              (download_image_body requests_get (url_of py_str image_url))
              (net s)) as [r n1].
  cbn [fst snd] in Hres, Hcalls. subst r. rewrite Hreq.
  repeat split. exact Hcalls.
Qed.

End ScrapeIsolation.

(** A product page on a dead network. *)
Lemma scrape_loop_skips_failed_product_witness :
  exists s1,
    scrape_loop (F := float) dead_network (fun _ => None) demo_str
      (fun _ => inr EmptyString) demo_join (fun _ _ => None) (fun _ _ _ => None)
      (mkItem (Some "https://laam.pk/products/kurta"%string) None :: []) []
      (mkScrape (init tt) [])
    = scrape_loop (F := float) dead_network (fun _ => None) demo_str
        (fun _ => inr EmptyString) demo_join (fun _ _ => None) (fun _ _ _ => None)
        [] [] s1 /\
    files s1 = files (mkScrape (F := float) (init tt) []) /\
    get_calls s1 = (get_calls (mkScrape (F := float) (init tt) []) + 3)%nat.
Proof.
  apply (scrape_loop_skips_failed_product (F := float) dead_network (fun _ => None)
           demo_str (fun _ => inr EmptyString) demo_join (fun _ _ => None)
           (fun _ _ _ => None)
           (mkItem (Some "https://laam.pk/products/kurta"%string) None) [] []
           (mkScrape (init tt) []) "https://laam.pk/products/kurta" "kurta").
  - intros i Hi. destruct i as [|[|i]]; [reflexivity|reflexivity|lia].
  - reflexivity.
  - reflexivity.
  - intro w. exists ConnectionError. split; reflexivity.
Defined.

(** An image URL on a dead network. *)
Lemma fetch_image_failure_keeps_product_witness :
  fst (fetch_image (F := float) dead_network demo_str demo_join (fun _ _ => None)
         (fun _ _ _ => None)
         "kurta" (JStr "https://cdn.laam.pk/kurta.jpg") (mkScrape (init tt) []))
  = inr None /\
  files (snd (fetch_image (F := float) dead_network demo_str demo_join (fun _ _ => None)
                (fun _ _ _ => None)
                "kurta" (JStr "https://cdn.laam.pk/kurta.jpg") (mkScrape (init tt) [])))
  = files (mkScrape (F := float) (init tt) []) /\
  get_calls (snd (fetch_image (F := float) dead_network demo_str demo_join
                        (fun _ _ => None) (fun _ _ _ => None) "kurta"
                        (JStr "https://cdn.laam.pk/kurta.jpg") (mkScrape (init tt) [])))
  = (get_calls (mkScrape (F := float) (init tt) []) + 3)%nat.
Proof.
  apply (fetch_image_failure_keeps_product (F := float) dead_network demo_str demo_join
           (fun _ _ => None) (fun _ _ _ => None)
           "kurta" (JStr "https://cdn.laam.pk/kurta.jpg")
           (mkScrape (init tt) [])).
  - intros i Hi. destruct i as [|[|i]]; [reflexivity|reflexivity|lia].
  - reflexivity.
  - intro w. exists ConnectionError. split; reflexivity.
Defined.

(** * Properties of the sitemap parser *)

(** The first [loc] child of a [url] element, if any. *)
Lemma parse_url_elements_spec (urls : list element) :
  (Forall (fun u => findall (NS_SITEMAP ++ "loc") u <> []) urls ->
   exists items,
     parse_url_elements urls = inr items /\
     length items = length urls /\
     map product_url items
     = map (fun u => match findall (NS_SITEMAP ++ "loc") u with
                     | loc_element :: _ => text_of loc_element
                     | [] => None
                     end) urls) /\
  (Exists (fun u => findall (NS_SITEMAP ++ "loc") u = []) urls ->
   parse_url_elements urls = inl AttributeError).
Proof.
  induction urls as [|u urls [IHok IHbad]].
  - split.
    + intros _. exists []. repeat split.
    + intro Hbad. inversion Hbad.
  - split.
    + intro Hall. inversion Hall as [|u' urls' Hu Hrest]; subst.
      destruct (IHok Hrest) as (items & Hparse & Hlen & Hurls).
      cbn [parse_url_elements].
      destruct (findall (NS_SITEMAP ++ "loc") u) as [|loc_element locs] eqn:Hloc;
        [congruence|].
      rewrite Hparse. eexists. split; [reflexivity|].
      cbn [length map product_url]. rewrite Hloc, Hlen, Hurls. split; reflexivity.
    + intro Hbad. cbn [parse_url_elements].
      destruct (findall (NS_SITEMAP ++ "loc") u) as [|loc_element locs] eqn:Hloc;
        [reflexivity|].
      inversion Hbad as [u' urls' Hu|u' urls' Hrest]; subst; [congruence|].
      now rewrite (IHbad Hrest).
Qed.

(** X23.  The sitemap parser returns one entry per [url] element of the
    root, in document order, with the text of its first [loc]; and it raises
    [AttributeError], returning nothing, as soon as one [url] element has no
    [loc]. *)
Theorem parse_sitemap_entries
    (ET_fromstring : string -> exn + element) (xml_content : string) (root : element) :
  ET_fromstring xml_content = inr root ->
  (Forall (fun u => findall (NS_SITEMAP ++ "loc") u <> [])
          (findall (NS_SITEMAP ++ "url") root) ->
   exists items,
     parse_sitemap ET_fromstring xml_content = inr items /\
     length items = length (findall (NS_SITEMAP ++ "url") root) /\
     map product_url items
     = map (fun u => match findall (NS_SITEMAP ++ "loc") u with
                     | loc_element :: _ => text_of loc_element
                     | [] => None
                     end) (findall (NS_SITEMAP ++ "url") root)) /\
  (Exists (fun u => findall (NS_SITEMAP ++ "loc") u = [])
          (findall (NS_SITEMAP ++ "url") root) ->
   parse_sitemap ET_fromstring xml_content = inl AttributeError).
Proof.
  intro Hroot. unfold parse_sitemap. rewrite Hroot.
  apply parse_url_elements_spec.
Qed.

(** The sample sitemap has two entries. *)
Lemma parse_sitemap_entries_witness :
  exists items,
    parse_sitemap (fun _ => inr demo_sitemap) "<urlset>" = inr items /\
    length items = length (findall (NS_SITEMAP ++ "url") demo_sitemap) /\
    map product_url items
    = map (fun u => match findall (NS_SITEMAP ++ "loc") u with
                    | loc_element :: _ => text_of loc_element
                    | [] => None
                    end) (findall (NS_SITEMAP ++ "url") demo_sitemap).
Proof.
  apply (proj1 (parse_sitemap_entries (fun _ => inr demo_sitemap) "<urlset>"
                  demo_sitemap eq_refl)).
  vm_compute. repeat constructor; discriminate.
Defined.

(** * Properties of the ingestion *)

Section IngestFacts.
Context {F : Type} `{PyFloatOps F}.
Variable py_str : json F -> string.
Variable json_dumps : json F -> string.
Variable str_len : string -> nat.

Local Abbreviation prepare_records_ := (prepare_records py_str json_dumps str_len).
Local Abbreviation load_and_ingest_data_ := (load_and_ingest_data py_str json_dumps str_len).

Lemma metadata_safe_of_keys (d : list (string * json F)) :
  no_id_no_vector (metadata_safe_of py_str json_dumps d).
Proof.
  unfold no_id_no_vector, metadata_safe_of.
  apply Forall_map. apply Forall_forall. intros kv Hin.
  apply filter_In in Hin. destruct Hin as [_ Hkeep]. cbn [fst].
  apply negb_true_iff, orb_false_iff in Hkeep. destruct Hkeep as [Hid Hvec].
  split; now apply String.eqb_neq.
Qed.

(** The loop appends to the three lists in step, and only vectors of the
    expected length. *)
Lemma prepare_records_spec (dim : nat) (data : list (json F))
    (ids ids' : list string) (embs embs' : list (json F))
    (metas metas' : list (list (string * string))) :
  prepare_records_ dim data ids embs metas = inr (ids', embs', metas') ->
  exists i e m,
    ids' = ids ++ i /\ embs' = embs ++ e /\ metas' = metas ++ m /\
    length e = length i /\ length m = length i /\
    (length i <= length data)%nat /\
    Forall (fun v => py_len str_len v = inr dim /\ py_truthy v = true) e /\
    Forall no_id_no_vector m.
Proof.
  revert ids embs metas. induction data as [|item rest IH]; intros ids embs metas Hrun.
  - cbn in Hrun. injection Hrun as <- <- <-.
    exists [], [], []. rewrite !app_nil_r. repeat split; constructor.
  - cbn [prepare_records] in Hrun.
    destruct item as [ |b|z|x|str|l|d]; try discriminate Hrun.
    destruct (negb (py_truthy (dict_get d "id" JNull))
              || negb (py_truthy (dict_get d "vector" JNull))) eqn:Hfalsy.
    + destruct (IH _ _ _ Hrun) as (i & e & m & -> & -> & -> & H1 & H2 & H3 & H4 & H5).
      exists i, e, m. repeat split; try assumption. cbn [length]. lia.
    + apply orb_false_iff in Hfalsy. destruct Hfalsy as [_ Hvec].
      apply negb_false_iff in Hvec.
      destruct (py_len str_len (dict_get d "vector" JNull)) as [err|n] eqn:Hlen;
        [discriminate Hrun|].
      destruct (negb (n =? dim)%nat) eqn:Hdim.
      * destruct (IH _ _ _ Hrun) as (i & e & m & -> & -> & -> & H1 & H2 & H3 & H4 & H5).
        exists i, e, m. repeat split; try assumption. cbn [length]. lia.
      * apply negb_false_iff, Nat.eqb_eq in Hdim. subst n.
        destruct (IH _ _ _ Hrun) as (i & e & m & -> & -> & -> & H1 & H2 & H3 & H4 & H5).
        exists (py_str (dict_get d "id" JNull) :: i),
               (dict_get d "vector" JNull :: e),
               (metadata_safe_of py_str json_dumps d :: m).
        rewrite <- !app_assoc. cbn [app length].
        repeat split; try lia.
        -- constructor; [now split|exact H4].
        -- constructor; [apply metadata_safe_of_keys|exact H5].
Qed.

(** What reaches [collection.add]. *)
Lemma load_and_ingest_data_spec (data : json F)
    (ids : list string) (embs : list (json F)) (metas : list (list (string * string))) :
  load_and_ingest_data_ data = IngestAdd ids embs metas ->
  exists dim,
    (1 <= dim)%nat /\ (1 <= length ids)%nat /\
    length embs = length ids /\ length metas = length ids /\
    Forall (fun v => py_len str_len v = inr dim /\ py_truthy v = true) embs /\
    Forall no_id_no_vector metas.
Proof.
  unfold load_and_ingest_data. intro Hrun.
  destruct (py_truthy data); cbn [negb] in Hrun; [|discriminate Hrun].
  destruct data as [ |b|z|x|str|[|first rest]|d]; try discriminate Hrun.
  destruct (py_get first "vector" (JList [])) as [e|v]; [discriminate Hrun|].
  destruct (py_len str_len v) as [e|dim]; [discriminate Hrun|].
  destruct (dim =? 0)%nat eqn:Hdim; [discriminate Hrun|].
  apply Nat.eqb_neq in Hdim.
  destruct (prepare_records_ dim (first :: rest) [] [] []) as [e|[[ids' embs'] metas']] eqn:Hprep;
    [discriminate Hrun|].
  destruct ids' as [|id0 ids']; [discriminate Hrun|].
  injection Hrun as <- <- <-.
  destruct (prepare_records_spec _ _ _ _ _ _ _ _ Hprep)
    as (i & e & m & Hi & He & Hm & H1 & H2 & _ & H4 & H5).
  cbn [app] in Hi, He, Hm. subst i e m.
  exists dim. cbn [length] in *. repeat split; try lia; assumption.
Qed.

(** X24.  The three lists handed to [collection.add] are aligned and
    uniform: as many embeddings and metadata dictionaries as ids, at least
    one, and every embedding non-empty and of one and the same length. *)
Theorem ingest_lists_are_aligned (data : json F)
    (ids : list string) (embs : list (json F)) (metas : list (list (string * string))) :
  load_and_ingest_data_ data = IngestAdd ids embs metas ->
  (1 <= length ids)%nat /\
  length embs = length ids /\
  length metas = length ids /\
  exists dim, (1 <= dim)%nat /\ Forall (fun v => py_len str_len v = inr dim) embs.
Proof.
  intro Hrun.
  destruct (load_and_ingest_data_spec data ids embs metas Hrun)
    as (dim & Hdim & Hids & He & Hm & Hv & _).
  repeat split; try assumption. exists dim. split; [exact Hdim|].
  eapply Forall_impl; [|exact Hv]. now intros v [Hlen _].
Qed.

(** X25.  No metadata dictionary handed to [collection.add] holds the key
    ['id'] or the key ['vector']. *)
Theorem ingest_metadata_without_id_and_vector (data : json F)
    (ids : list string) (embs : list (json F)) (metas : list (list (string * string))) :
  load_and_ingest_data_ data = IngestAdd ids embs metas ->
  Forall (fun m => Forall (fun kv => fst kv <> "id"%string /\ fst kv <> "vector"%string) m)
         metas.
Proof.
  intro Hrun.
  destruct (load_and_ingest_data_spec data ids embs metas Hrun)
    as (dim & _ & _ & _ & _ & _ & Hm).
  exact Hm.
Qed.

(** The loop skips nothing of a list of well-formed records. *)
Lemma prepare_records_complete (dim : nat) (data : list (json F))
    (ids : list string) (embs : list (json F)) (metas : list (list (string * string))) :
  Forall (fun item => exists d vec,
            item = JDict d /\
            py_truthy (dict_get d "id" JNull) = true /\
            dict_get d "vector" JNull = JList vec /\
            length vec = dim) data ->
  (1 <= dim)%nat ->
  exists i e m,
    prepare_records_ dim data ids embs metas = inr (ids ++ i, embs ++ e, metas ++ m) /\
    length i = length data.
Proof.
  intros Hall Hdim. revert ids embs metas.
  induction Hall as [|item rest (d & vec & -> & Hid & Hvec & Hlen) _ IH];
    intros ids embs metas.
  - exists [], [], []. rewrite !app_nil_r. split; reflexivity.
  - cbn [prepare_records]. rewrite Hid, Hvec.
    assert (Htruthy : py_truthy (JList vec) = true)
      by (destruct vec; [simpl in Hlen; lia|reflexivity]).
    rewrite Htruthy. cbn [negb orb py_len]. rewrite Hlen, Nat.eqb_refl. cbn [negb].
    destruct (IH (ids ++ [py_str (dict_get d "id" JNull)]) (embs ++ [JList vec])
                 (metas ++ [metadata_safe_of py_str json_dumps d]))
      as (i & e & m & Hrun & Hlen').
    rewrite Hrun. rewrite <- !app_assoc.
    eexists _, _, _. split; [reflexivity|]. cbn [app length]. now rewrite Hlen'.
Qed.

(** X26.  Nothing is skipped of a well-formed file: when every record is a
    dict with a truthy ['id'] and a list ['vector'] of one and the same
    non-zero length, all records reach [collection.add]. *)
Theorem ingest_keeps_well_formed_records (dim : nat) (first : json F) (rest : list (json F)) :
  (1 <= dim)%nat ->
  Forall (fun item => exists d vec,
            item = JDict d /\
            py_truthy (dict_get d "id" JNull) = true /\
            dict_get d "vector" JNull = JList vec /\
            length vec = dim) (first :: rest) ->
  exists ids embs metas,
    load_and_ingest_data_ (JList (first :: rest)) = IngestAdd ids embs metas /\
    length ids = length (first :: rest).
Proof.
  intros Hdim Hall.
  destruct (prepare_records_complete dim (first :: rest) [] [] [] Hall Hdim)
    as (i & e & m & Hrun & Hlen).
  inversion Hall as [|item items (d & vec & -> & Hid & Hvec & Hvlen) _]; subst.
  unfold load_and_ingest_data. cbn [py_truthy negb py_get].
  assert (Hget : dict_get d "vector" (JList []) = JList vec).
  { unfold dict_get in *. destruct (dict_lookup d "vector"); [exact Hvec|discriminate Hvec]. }
  rewrite Hget. cbn [py_len].
  replace (length vec =? 0)%nat with false by (symmetry; apply Nat.eqb_neq; lia).
  rewrite Hrun. cbn [app].
  destruct i as [|id0 i]; [cbn [length] in Hlen; lia|].
  exists (id0 :: i), e, m. split; [reflexivity|exact Hlen].
Qed.

End IngestFacts.

(** Two records, the second with a vector of another length. *)
Lemma ingest_lists_are_aligned_witness :
  (1 <= length ["p1"%string])%nat /\
  length [JList [JFloat 1%float; JFloat 0%float]] = length ["p1"%string] /\
  length [[("title"%string, "Kurta"%string)]] = length ["p1"%string] /\
  exists dim, (1 <= dim)%nat /\
    Forall (fun v => py_len String.length v = inr dim)
           [JList [JFloat 1%float; JFloat 0%float]].
Proof.
  apply (ingest_lists_are_aligned demo_str (fun _ => "[]"%string) String.length
           (JList [JDict [("id"%string, JStr "p1");
                          ("vector"%string, JList [JFloat 1%float; JFloat 0%float]);
                          ("title"%string, JStr "Kurta")];
                   JDict [("id"%string, JStr "p2");
                          ("vector"%string, JList [JFloat 1%float])]])
           ["p1"%string] [JList [JFloat 1%float; JFloat 0%float]]
           [[("title"%string, "Kurta"%string)]]).
  reflexivity.
Defined.

Lemma ingest_metadata_without_id_and_vector_witness :
  Forall (fun m => Forall (fun kv => fst kv <> "id"%string /\ fst kv <> "vector"%string) m)
         [[("title"%string, "Kurta"%string)]].
Proof.
  apply (ingest_metadata_without_id_and_vector demo_str (fun _ => "[]"%string)
           String.length
           (JList [JDict [("id"%string, JStr "p1");
                          ("vector"%string, JList [JFloat 1%float; JFloat 0%float]);
                          ("title"%string, JStr "Kurta")]])
           ["p1"%string] [JList [JFloat 1%float; JFloat 0%float]]
           [[("title"%string, "Kurta"%string)]]).
  reflexivity.
Defined.

Lemma ingest_keeps_well_formed_records_witness :
  exists ids embs metas,
    load_and_ingest_data demo_str (fun _ => "[]"%string) String.length
      (JList (JDict [("id"%string, JStr "p1");
                     ("vector"%string, JList [JFloat 1%float; JFloat 0%float])]
              :: [JDict [("id"%string, JStr "p2");
                         ("vector"%string, JList [JFloat 0%float; JFloat 1%float])]]))
    = IngestAdd ids embs metas /\
    length ids
    = length (JDict [("id"%string, JStr "p1");
                     ("vector"%string, JList [JFloat 1%float; JFloat 0%float])]
              :: [JDict [("id"%string, JStr "p2");
                         ("vector"%string, JList [JFloat 0%float; JFloat 1%float])]]).
Proof.
  apply (ingest_keeps_well_formed_records demo_str (fun _ => "[]"%string) String.length 2).
  - lia.
  - repeat constructor; eexists _, _; repeat split; reflexivity.
Defined.

(** * The metadata round trip *)

Section MetadataRoundTrip.
Context {F : Type} `{PyFloatOps F}.
Variable py_str : json F -> string.
Variable json_dumps : json F -> string.
Variable json_loads : string -> option (json F).

(** A key other than ['id'] and ['vector'] is stored with its value made a
    string. *)
Lemma stored_metadata_lookup (d : list (string * json F)) (key : string) :
  key <> "id"%string -> key <> "vector"%string ->
  dict_lookup (stored_metadata (F := F) (metadata_safe_of py_str json_dumps d)) key
  = option_map (fun v => JStr (F := F) (match v with
                               | JList _ | JDict _ => json_dumps v
                               | _ => py_str v
                               end))
               (dict_lookup d key).
Proof.
  intros Hid Hvec. unfold stored_metadata, metadata_safe_of.
  induction d as [|[k v] d IH]; [reflexivity|].
  change (dict_lookup ((k, v) :: d) key)
    with (if String.eqb k key then Some v else dict_lookup d key).
  cbn [filter fst snd].
  destruct (String.eqb_spec k key) as [->|Hne].
  - apply String.eqb_neq in Hid, Hvec. rewrite Hid, Hvec.
    cbn. now rewrite String.eqb_refl.
  - destruct (negb (String.eqb k "id" || String.eqb k "vector")).
    + cbn [map fst snd].
      cbn [dict_lookup].
      apply String.eqb_neq in Hne. rewrite Hne. exact IH.
    + exact IH.
Qed.

(** X27.  Round trip of the metadata: a list or dict stored by a record
    under the key ['metadata'] is dumped to a string by the ingestion and
    decoded again by [parse_metadata] at query time, so that the search sees
    the value the record held (given that [json.loads] inverts [json.dumps]
    on it). *)
Theorem parse_metadata_round_trip (d : list (string * json F)) (v : json F) :
  dict_lookup d "metadata" = Some v ->
  (exists l, v = JList l) \/ (exists m, v = JDict m) ->
  json_loads (json_dumps v) = Some v ->
  parse_metadata json_loads (stored_metadata (F := F) (metadata_safe_of py_str json_dumps d)) = v.
Proof.
  intros Hlookup Hcontainer Hinverse. unfold parse_metadata.
  rewrite stored_metadata_lookup by discriminate.
  rewrite Hlookup. cbn [option_map].
  destruct Hcontainer as [[l ->]|[m ->]]; now rewrite Hinverse.
Qed.

End MetadataRoundTrip.

(** A record whose metadata is a dict with a title. *)
Lemma parse_metadata_round_trip_witness :
  parse_metadata (F := float)
    (fun _ => Some (JDict [("product_title"%string, JStr "Kurta")]))
    (stored_metadata
       (metadata_safe_of demo_str (fun _ => "{}"%string)
          [("id"%string, JStr "p1");
           ("metadata"%string, JDict [("product_title"%string, JStr "Kurta")])]))
  = JDict [("product_title"%string, JStr "Kurta")].
Proof.
  apply (parse_metadata_round_trip demo_str (fun _ => "{}"%string)
           (fun _ => Some (JDict [("product_title"%string, JStr "Kurta")]))
           [("id"%string, JStr "p1");
            ("metadata"%string, JDict [("product_title"%string, JStr "Kurta")])]
           (JDict [("product_title"%string, JStr "Kurta")])).
  - reflexivity.
  - right. now eexists.
  - reflexivity.
Defined.
